(** * SociaLens ingestion pipeline: normalisation, parsing and enrichment

    A shallow embedding of [backend/routes/upload.py] and
    [backend/workers/tasks.py].

    Python values are an inductive type, dictionaries are association
    lists in insertion order, exceptions are results of an error monad,
    and the interpreter and library services the code calls (UTF-8
    decoding, [json.loads], [csv.DictReader], [zipfile], [os.walk],
    [uuid.uuid4], [datetime.utcnow], the document store) are the fields
    of a [Runtime] interface.

    Characters: a [string] is a sequence of code points below 256, so
    the character classes used by [str.strip], [str.lower], [re] and
    [repr] are the Unicode ones restricted to that range. *)

From Stdlib Require Import ZArith NArith List String Ascii Bool Lia.
From Stdlib Require Import DecimalString.
Import ListNotations.

Local Open Scope list_scope.
Local Open Scope string_scope.
Set Warnings "-register-all".

(* ================================================================== *)
(** ** Python values, exceptions and builtins *)

Module Py.

(** [datetime.datetime]: naive, fields as the constructor takes them. *)
Record datetime := mkDatetime {
  year : Z; month : Z; day : Z;
  hour : Z; minute : Z; second : Z; microsecond : Z
}.

(** Dictionary keys reaching this code are strings (JSON objects, CSV
    headers) or [None] ([csv.DictReader] files surplus cells under its
    [restkey], which is [None]). *)
Inductive pykey :=
| KNone
| KStr (s : string).

Coercion KStr : string >-> pykey.

(** A float is carried by its [repr], which Python guarantees to
    round-trip. *)
Inductive pyval :=
| PNone
| PBool (b : bool)
| PInt (z : Z)
| PFloat (repr : string)
| PStr (s : string)
| PDatetime (d : datetime)
| PList (l : list pyval)
| PDict (d : list (pykey * pyval)).

Definition pydict := list (pykey * pyval).

(** Exception classes; every one derives from [Exception].
    [HTTPException] carries its status code; [LibError] stands for the
    classes of the libraries behind [Runtime] (UnicodeDecodeError,
    JSONDecodeError, BadZipFile, csv.Error, store errors). *)
Inductive exn :=
| AttributeError
| TypeError
| KeyError
| ValueError (msg : string)
| HTTPException (status_code : Z)
| LibError (cls : string).

Inductive res (A : Type) :=
| Ok (a : A)
| Raise (e : exn).

Arguments Ok {A} a.
Arguments Raise {A} e.

Definition bind {A B} (c : res A) (k : A -> res B) : res B :=
  match c with
  | Ok a => k a
  | Raise e => Raise e
  end.

Definition raised {A} (c : res A) : bool :=
  match c with Ok _ => false | Raise _ => true end.

(** [except ValueError] *)
Definition is_ValueError (e : exn) : bool :=
  match e with ValueError _ => true | _ => false end.

(** *** Characters *)

Definition chr (n : N) : ascii := ascii_of_N n.
Definition ord (c : ascii) : N := N_of_ascii c.

Definition dquote : ascii := chr 34.
Definition squote : ascii := chr 39.
Definition backslash : ascii := chr 92.

(** [str.isspace] / regex [\s] *)
Definition isspace (c : ascii) : bool :=
  let n := ord c in
  ((9 <=? n) && (n <=? 13) || (28 <=? n) && (n <=? 32)
   || (n =? 133) || (n =? 160))%N.

(** regex [\d] *)
Definition isdecimal (c : ascii) : bool :=
  let n := ord c in ((48 <=? n) && (n <=? 57))%N.

(** regex [\w]: alphanumeric or underscore *)
Definition isword (c : ascii) : bool :=
  let n := ord c in
  (isdecimal c
   || (65 <=? n) && (n <=? 90) || (97 <=? n) && (n <=? 122) || (n =? 95)
   || (n =? 170) || (n =? 178) || (n =? 179) || (n =? 181)
   || (n =? 185) || (n =? 186) || (188 <=? n) && (n <=? 190)
   || (192 <=? n) && (n <=? 214) || (216 <=? n) && (n <=? 246)
   || (248 <=? n))%N.

(** [str.lower] on one character *)
Definition lower_char (c : ascii) : ascii :=
  let n := ord c in
  if ((65 <=? n) && (n <=? 90)
      || (192 <=? n) && (n <=? 222) && negb (n =? 215))%N
  then chr (n + 32) else c.

Definition isprintable (c : ascii) : bool :=
  let n := ord c in
  ((32 <=? n) && (n <? 127) || (161 <=? n) && negb (n =? 173))%N.

(** *** Strings *)

Fixpoint str_map (f : ascii -> ascii) (s : string) : string :=
  match s with
  | EmptyString => EmptyString
  | String c t => String (f c) (str_map f t)
  end.

Definition lower (s : string) : string := str_map lower_char s.

Fixpoint lstrip (s : string) : string :=
  match s with
  | EmptyString => EmptyString
  | String c t => if isspace c then lstrip t else s
  end.

Fixpoint rstrip (s : string) : string :=
  match s with
  | EmptyString => EmptyString
  | String c t =>
      match rstrip t with
      | EmptyString => if isspace c then EmptyString else String c EmptyString
      | t' => String c t'
      end
  end.

(** [str.strip()] *)
Definition strip (s : string) : string := rstrip (lstrip s).

Fixpoint str_forallb (p : ascii -> bool) (s : string) : bool :=
  match s with
  | EmptyString => true
  | String c t => p c && str_forallb p t
  end.

Definition str_existsb (p : ascii -> bool) (s : string) : bool :=
  negb (str_forallb (fun c => negb (p c)) s).

(** [needle in hay] on strings *)
Fixpoint contains (needle hay : string) : bool :=
  prefix needle hay
  || match hay with
     | EmptyString => false
     | String _ t => contains needle t
     end.

(** [s.endswith(suffix)] *)
Definition endswith (s suffix : string) : bool :=
  let n := String.length s in
  let m := String.length suffix in
  (m <=? n)%nat && (substring (n - m) m s =? suffix).

(** *** Truthiness, [str] and [repr] *)

Definition truthy (v : pyval) : bool :=
  match v with
  | PNone => false
  | PBool b => b
  | PInt z => negb (z =? 0)%Z
  | PFloat r => negb ((r =? "0.0") || (r =? "-0.0"))
  | PStr s => negb (s =? "")
  | PDatetime _ => true
  | PList l => match l with [] => false | _ => true end
  | PDict d => match d with [] => false | _ => true end
  end.

Definition str_of_Z (z : Z) : string := NilZero.string_of_int (Z.to_int z).

Definition hexdigit (n : N) : ascii :=
  if (n <? 10)%N then chr (48 + n) else chr (87 + n).

Definition escape_char (quote c : ascii) : string :=
  let n := ord c in
  if (c =? backslash)%char || (c =? quote)%char
  then String backslash (String c "")
  else if (n =? 9)%N then "\t"
  else if (n =? 10)%N then "\n"
  else if (n =? 13)%N then "\r"
  else if isprintable c then String c ""
  else "\x" ++ String (hexdigit (n / 16)) (String (hexdigit (n mod 16)) "").

Fixpoint escape (quote : ascii) (s : string) : string :=
  match s with
  | EmptyString => EmptyString
  | String c t => escape_char quote c ++ escape quote t
  end.

(** [repr] of a [str] *)
Definition repr_str (s : string) : string :=
  let has c := str_existsb (fun x => (x =? c)%char) s in
  let quote := if has squote && negb (has dquote) then dquote else squote in
  String quote (escape quote s ++ String quote "").

Fixpoint zeros (n : nat) : string :=
  match n with
  | O => EmptyString
  | S k => String "0" (zeros k)
  end.

(** ["%0<width>d" % z] for non-negative [z] *)
Definition pad0 (width : nat) (z : Z) : string :=
  let s := str_of_Z z in zeros (width - String.length s) ++ s.

(** [str(datetime)]: ISO format with a space separator *)
Definition str_datetime (d : datetime) : string :=
  pad0 4 (year d) ++ "-" ++ pad0 2 (month d) ++ "-" ++ pad0 2 (day d)
  ++ " " ++ pad0 2 (hour d) ++ ":" ++ pad0 2 (minute d)
  ++ ":" ++ pad0 2 (second d)
  ++ (if (microsecond d =? 0)%Z then "" else "." ++ pad0 6 (microsecond d)).

(** [repr(datetime)]: trailing zero second and microsecond are dropped *)
Definition repr_datetime (d : datetime) : string :=
  let head := [year d; month d; day d; hour d; minute d] in
  let tail :=
    if (microsecond d =? 0)%Z
    then (if (second d =? 0)%Z then [] else [second d])
    else [second d; microsecond d] in
  "datetime.datetime(" ++ concat ", " (map str_of_Z (head ++ tail)%list) ++ ")".

Definition repr_key (k : pykey) : string :=
  match k with
  | KNone => "None"
  | KStr s => repr_str s
  end.

Fixpoint py_repr (v : pyval) : string :=
  match v with
  | PNone => "None"
  | PBool b => if b then "True" else "False"
  | PInt z => str_of_Z z
  | PFloat r => r
  | PStr s => repr_str s
  | PDatetime d => repr_datetime d
  | PList l => "[" ++ concat ", " (map py_repr l) ++ "]"
  | PDict d =>
      "{" ++ concat ", "
               (map (fun kv => match kv with
                               | (k, x) => repr_key k ++ ": " ++ py_repr x
                               end) d)
          ++ "}"
  end.

(** [str(v)], also what an f-string field formats to *)
Definition py_str (v : pyval) : string :=
  match v with
  | PStr s => s
  | PDatetime d => str_datetime d
  | _ => py_repr v
  end.

(** *** Dictionaries *)

Definition key_eqb (a b : pykey) : bool :=
  match a, b with
  | KNone, KNone => true
  | KStr x, KStr y => (x =? y)
  | _, _ => false
  end.

Fixpoint dict_get (d : pydict) (k : pykey) : option pyval :=
  match d with
  | [] => None
  | (k', v) :: t => if key_eqb k' k then Some v else dict_get t k
  end.

(** [d[k] = v]: an existing key keeps its position, a new one goes last *)
Fixpoint dict_set (d : pydict) (k : pykey) (v : pyval) : pydict :=
  match d with
  | [] => [(k, v)]
  | (k', v') :: t =>
      if key_eqb k' k then (k', v) :: t else (k', v') :: dict_set t k v
  end.

(** [d.update(other)] *)
Definition dict_update (d other : pydict) : pydict :=
  fold_left (fun acc kv => dict_set acc (fst kv) (snd kv)) other d.

(** [k in keys] for a list of string literals *)
Definition key_in (k : pykey) (keys : list string) : bool :=
  existsb (fun s => key_eqb k (KStr s)) keys.

(** *** Methods and operators that may raise *)

Notation "x <- c1 ;; c2" := (bind c1 (fun x => c2))
  (at level 61, c1 at next level, right associativity).

(** [o.get(k, default)] *)
Definition py_get (o : pyval) (k : pykey) (default : pyval) : res pyval :=
  match o with
  | PDict d => Ok (match dict_get d k with Some v => v | None => default end)
  | _ => Raise AttributeError
  end.

(** [o.items()] *)
Definition py_items (o : pyval) : res pydict :=
  match o with
  | PDict d => Ok d
  | _ => Raise AttributeError
  end.

(** [o[k]] for a string key *)
Definition py_getitem (o : pyval) (k : pykey) : res pyval :=
  match o with
  | PDict d => match dict_get d k with Some v => Ok v | None => Raise KeyError end
  | _ => Raise TypeError
  end.

(** [o[k] = v] for a string key *)
Definition py_setitem (o : pyval) (k : pykey) (v : pyval) : res pyval :=
  match o with
  | PDict d => Ok (PDict (dict_set d k v))
  | _ => Raise TypeError
  end.

(** [o.update(other)] *)
Definition py_update (o : pyval) (other : pydict) : res pyval :=
  match o with
  | PDict d => Ok (PDict (dict_update d other))
  | _ => Raise AttributeError
  end.

(** [o.strip()] *)
Definition py_strip (o : pyval) : res string :=
  match o with
  | PStr s => Ok (strip s)
  | _ => Raise AttributeError
  end.

(** [sep.join(parts)]: every part must be a [str] *)
Fixpoint py_join (sep : string) (parts : list pyval) : res string :=
  match parts with
  | [] => Ok ""
  | PStr s :: t =>
      match t with
      | [] => Ok s
      | _ => r <- py_join sep t ;; Ok (s ++ sep ++ r)
      end
  | _ :: _ => Raise TypeError
  end.

(** [o[:n]]: strings and lists slice; a dict subscripted by a slice and
    every other value raise (the class is TypeError up to Python 3.11). *)
Definition py_slice (o : pyval) (n : nat) : res pyval :=
  match o with
  | PStr s => Ok (PStr (substring 0 n s))
  | PList l => Ok (PList (firstn n l))
  | _ => Raise TypeError
  end.

(** [len(o)] *)
Definition py_len (o : pyval) : res nat :=
  match o with
  | PStr s => Ok (String.length s)
  | PList l => Ok (List.length l)
  | PDict d => Ok (List.length d)
  | _ => Raise TypeError
  end.

(** [iter(o)]: a string yields its characters, a dict its keys *)
Definition py_iter (o : pyval) : res (list pyval) :=
  match o with
  | PList l => Ok l
  | PStr s => Ok (map (fun c => PStr (String c "")) (list_ascii_of_string s))
  | PDict d =>
      Ok (map (fun kv => match fst kv with KNone => PNone | KStr s => PStr s end) d)
  | _ => Raise TypeError
  end.

End Py.
(* ================================================================== *)
(** ** [datetime.strptime]

    CPython turns the format into a regular expression (one group of
    ordered alternatives per directive, a run of format whitespace into
    [\s+], everything else literal, matched ignoring case), matches it
    at the start of the data, refuses unconverted trailing data, and
    builds the [datetime], which validates the date and the time. Every
    failure on a [str] is a [ValueError]. *)

Module Strptime.
Import Py.

Inductive token :=
| Directive (c : ascii)
| Literal (c : ascii)
| Whitespace.

Fixpoint tokens (in_ws : bool) (fmt : string) : list token :=
  match fmt with
  | EmptyString => []
  | String c r =>
      if (c =? "%")%char then
        match r with
        | String d r' => Directive d :: tokens false r'
        | EmptyString => [Literal c]
        end
      else if isspace c then
        (if in_ws then tokens true r else Whitespace :: tokens true r)
      else Literal c :: tokens false r
  end.

Definition digit (c : ascii) : Z := (Z.of_N (ord c) - 48)%Z.

Definition between (lo hi : ascii) (c : ascii) : bool :=
  ((ord lo <=? ord c) && (ord c <=? ord hi))%N.

Definition only (x : ascii) (c : ascii) : bool := (c =? x)%char.

(** one alternative made of two character classes, or of one *)
Definition two (p1 p2 : ascii -> bool) (s : string) : list (Z * string) :=
  match s with
  | String a (String b r) =>
      if p1 a && p2 b then [((10 * digit a + digit b)%Z, r)] else []
  | _ => []
  end.

Definition one (p : ascii -> bool) (s : string) : list (Z * string) :=
  match s with
  | String a r => if p a then [(digit a, r)] else []
  | _ => []
  end.

(** the non-empty prefixes of [s] in class [p], at most [n] long,
    longest first: a greedy repetition and what it backtracks to *)
Fixpoint runs (p : ascii -> bool) (n : nat) (s : string) : list (string * string) :=
  match n, s with
  | S k, String c r =>
      if p c
      then (map (fun m => (String c (fst m), snd m)) (runs p k r)
              ++ [(String c "", r)])%list
      else []
  | _, _ => []
  end.

Fixpoint int_of_digits (acc : Z) (s : string) : Z :=
  match s with
  | EmptyString => acc
  | String c r => int_of_digits (10 * acc + digit c)%Z r
  end.

(** [%f]: the digits are padded on the right to six *)
Definition fraction (digits : string) : Z :=
  int_of_digits 0 (digits ++ zeros (6 - String.length digits)).

Definition any_digit : ascii -> bool := isdecimal.

(** The alternatives of a directive at the head of [s], in the order
    of its regular expression, each with the field it sets:
    [%Y] is [\d\d\d\d], [%m] is [1[0-2]|0[1-9]|[1-9]],
    [%d] is [3[0-1]|[1-2]\d|0[1-9]|[1-9]| [1-9]],
    [%H] is [2[0-3]|[0-1]\d|\d], [%M] is [[0-5]\d|\d],
    [%S] is [6[0-1]|[0-5]\d|\d], [%f] is [[0-9]{1,6}]. *)
Definition directive (c : ascii) (s : string)
  : list ((datetime -> datetime) * string) :=
  let set f := map (fun m => (f (fst m), snd m)) in
  if (c =? "Y")%char then
    match s with
    | String a (String b (String x (String y r))) =>
        if any_digit a && any_digit b && any_digit x && any_digit y
        then [((fun d =>
                  mkDatetime
                    (1000 * digit a + 100 * digit b + 10 * digit x + digit y)%Z
                    (month d) (day d) (hour d) (minute d) (second d)
                    (microsecond d)), r)]
        else []
    | _ => []
    end
  else if (c =? "m")%char then
    set (fun v d => mkDatetime (year d) v (day d) (hour d) (minute d)
                      (second d) (microsecond d))
      (two (only "1") (between "0" "2") s
         ++ two (only "0") (between "1" "9") s
         ++ one (between "1" "9") s)%list
  else if (c =? "d")%char then
    set (fun v d => mkDatetime (year d) (month d) v (hour d) (minute d)
                      (second d) (microsecond d))
      (two (only "3") (between "0" "1") s
         ++ two (between "1" "2") any_digit s
         ++ two (only "0") (between "1" "9") s
         ++ one (between "1" "9") s
         ++ match s with
            | String a r => if only " " a then one (between "1" "9") r else []
            | _ => []
            end)%list
  else if (c =? "H")%char then
    set (fun v d => mkDatetime (year d) (month d) (day d) v (minute d)
                      (second d) (microsecond d))
      (two (only "2") (between "0" "3") s
         ++ two (between "0" "1") any_digit s
         ++ one any_digit s)%list
  else if (c =? "M")%char then
    set (fun v d => mkDatetime (year d) (month d) (day d) (hour d) v
                      (second d) (microsecond d))
      (two (between "0" "5") any_digit s ++ one any_digit s)%list
  else if (c =? "S")%char then
    set (fun v d => mkDatetime (year d) (month d) (day d) (hour d)
                      (minute d) v (microsecond d))
      (two (only "6") (between "0" "1") s
         ++ two (between "0" "5") any_digit s
         ++ one any_digit s)%list
  else if (c =? "f")%char then
    map (fun m => ((fun d => mkDatetime (year d) (month d) (day d) (hour d)
                               (minute d) (second d) (fraction (fst m))),
                   snd m))
      (runs any_digit 6 s)
  else [].

Definition known_directive (t : token) : bool :=
  match t with
  | Directive c => existsb (fun x => (c =? x)%char)
                     (list_ascii_of_string "YmdHMSf")
  | _ => true
  end.

Definition alternatives (t : token) (s : string)
  : list ((datetime -> datetime) * string) :=
  match t with
  | Directive c => directive c s
  | Literal c =>
      match s with
      | String a r =>
          if (lower_char a =? lower_char c)%char
          then [((fun d => d), r)] else []
      | EmptyString => []
      end
  | Whitespace =>
      map (fun m => ((fun d => d), snd m)) (runs isspace (String.length s) s)
  end.

(** first success of [f] over the alternatives, in order *)
Fixpoint first_match {A B} (f : A -> option B) (l : list A) : option B :=
  match l with
  | [] => None
  | a :: t => match f a with Some b => Some b | None => first_match f t end
  end.

(** [format_regex.match(data)]: the fields set and the unconsumed rest
    of the first way through the alternatives that matches *)
Fixpoint regex_match (ts : list token) (s : string) (acc : datetime)
  : option (datetime * string) :=
  match ts with
  | [] => Some (acc, s)
  | t :: ts' =>
      first_match (fun m => regex_match ts' (snd m) (fst m acc))
        (alternatives t s)
  end.

Definition is_leap (y : Z) : bool :=
  ((y mod 4 =? 0) && (negb (y mod 100 =? 0) || (y mod 400 =? 0)))%Z.

Definition days_in_month (y m : Z) : Z :=
  if (m =? 2)%Z then (if is_leap y then 29 else 28)
  else if ((m =? 4) || (m =? 6) || (m =? 9) || (m =? 11))%Z then 30
  else 31.

(** the checks of the [datetime] constructor *)
Definition valid_datetime (d : datetime) : bool :=
  ((1 <=? year d) && (year d <=? 9999)
   && (1 <=? month d) && (month d <=? 12)
   && (1 <=? day d) && (day d <=? days_in_month (year d) (month d))
   && (0 <=? hour d) && (hour d <=? 23)
   && (0 <=? minute d) && (minute d <=? 59)
   && (0 <=? second d) && (second d <=? 59)
   && (0 <=? microsecond d) && (microsecond d <=? 999999))%Z.

Definition epoch_defaults : datetime := mkDatetime 1900 1 1 0 0 0 0.

(** [datetime.strptime(data, format)] *)
Definition strptime (data : pyval) (format : string) : res datetime :=
  match data with
  | PStr s =>
      let ts := tokens false format in
      if negb (forallb known_directive ts)
      then Raise (ValueError "bad directive in format")
      else
        match regex_match ts s epoch_defaults with
        | None => Raise (ValueError "time data does not match format")
        | Some (d, rest) =>
            if negb (rest =? "") then Raise (ValueError "unconverted data remains")
            else if valid_datetime d then Ok d
            else Raise (ValueError "value out of range")
        end
  | _ => Raise TypeError
  end.

End Strptime.

(* ================================================================== *)
(** ** What the code asks of its surroundings *)

Module Env.
Import Py.

(** The file system, the parsing libraries, the sources of fresh
    tokens and of the time, and the document store. A failing call is
    a raised exception; a failing write of one document leaves the
    store as it was. [insert_many] is a bulk write: when it raises,
    the store is as the driver left it, which may hold some of the
    documents, so the call returns the store in both cases. [uuid4 n],
    [utcnow n] and [object_id n] are the values drawn at slot [n] of
    the process. *)
Class Runtime := {
  uuid4 : nat -> string;
  utcnow : nat -> datetime;
  object_id : nat -> pyval;
  fs : Type;
  write_file : fs -> string -> string -> res fs;
  read_text : fs -> string -> res string;
  zip_extractall : fs -> string -> string -> fs * res unit;
  os_walk : fs -> string -> list (string * string);
  json_loads : string -> res pyval;
  csv_DictReader : list string -> res (list pyval);
  db : Type;
  insert_one : db -> string -> pyval -> res db;
  insert_many : db -> string -> list pyval -> db * res unit;
  update_one : db -> string -> pydict -> pydict -> res db
}.

Definition POSTS_COLLECTION : string := "posts".
Definition UPLOADS_COLLECTION : string := "uploads".

End Env.

(* ================================================================== *)
(** ** [workers/tasks.py] *)

Module Tasks.
Import Py Env.

(** *** [re.sub] for patterns that never match the empty string *)

(** A matcher gives, for a match starting at the head of the text, its
    length and the replacement. [re_sub] replaces the leftmost
    non-overlapping matches: [skip] counts the characters of the
    current match still to pass over. *)
Fixpoint re_sub_from (m : string -> option (nat * string)) (skip : nat)
  (s : string) : string :=
  match s with
  | EmptyString => EmptyString
  | String c t =>
      match skip with
      | S k => re_sub_from m k t
      | O =>
          match m s with
          | Some (n, repl) => repl ++ re_sub_from m (Nat.pred n) t
          | None => String c (re_sub_from m 0 t)
          end
      end
  end.

Definition re_sub (m : string -> option (nat * string)) (s : string) : string :=
  re_sub_from m 0 s.

(** length of the longest prefix of [s] in class [p] (a greedy run) *)
Fixpoint run_length (p : ascii -> bool) (s : string) : nat :=
  match s with
  | EmptyString => 0
  | String c t => if p c then S (run_length p t) else 0
  end.

Definition strip_prefix (pre s : string) : option string :=
  if prefix pre s
  then Some (substring (String.length pre) (String.length s - String.length pre) s)
  else None.

Definition nonspace (c : ascii) : bool := negb (isspace c).

(** [http[s]?://\S+] *)
Definition url_pattern (s : string) : option (nat * string) :=
  match strip_prefix "http" s with
  | None => None
  | Some r =>
      let tail (scheme : nat) (r' : string) :=
        match strip_prefix "://" r' with
        | None => None
        | Some rest =>
            match run_length nonspace rest with
            | O => None
            | k => Some ((scheme + 3 + k)%nat, "")
            end
        end in
      match (match strip_prefix "s" r with
             | Some r' => tail 5%nat r'
             | None => None
             end) with
      | Some m => Some m
      | None => tail 4%nat r
      end
  end.

(** [@\w+] *)
Definition mention_pattern (s : string) : option (nat * string) :=
  match s with
  | String c t =>
      if (c =? "@")%char then
        match run_length isword t with
        | O => None
        | k => Some (S k, "")
        end
      else None
  | EmptyString => None
  end.

(** [#(\w+)], replaced by group 1 *)
Definition hashtag_pattern (s : string) : option (nat * string) :=
  match s with
  | String c t =>
      if (c =? "#")%char then
        match run_length isword t with
        | O => None
        | k => Some (S k, substring 0 k t)
        end
      else None
  | EmptyString => None
  end.

(** [\s+], replaced by one space *)
Definition whitespace_pattern (s : string) : option (nat * string) :=
  match run_length isspace s with
  | O => None
  | k => Some (k, " ")
  end.

Definition clean_text (text : string) : string :=
  let cleaned_text := re_sub url_pattern text in
  let cleaned_text := re_sub mention_pattern cleaned_text in
  let cleaned_text := re_sub hashtag_pattern cleaned_text in
  strip (re_sub whitespace_pattern cleaned_text).

Definition keywords : list string :=
  ["tech"; "food"; "travel"; "music"; "sport"; "news"].
Definition positive_words : list string :=
  ["good"; "great"; "awesome"; "love"; "happy"; "excellent"].
Definition negative_words : list string :=
  ["bad"; "terrible"; "hate"; "awful"; "sad"; "disappointing"].

(** [sum(1 for word in words if word in text_lower)] *)
Definition count_in (words : list string) (text_lower : string) : nat :=
  List.length (filter (fun word => contains word text_lower) words).

Definition process_text_simple (text : pyval) : res pydict :=
  match text with
  | PStr text =>
      let cleaned_text := clean_text text in
      let language := "en" in
      let entities :=
        filter (fun keyword => contains (lower keyword) (lower text)) keywords in
      let text_lower := lower text in
      let positive_count := count_in positive_words text_lower in
      let negative_count := count_in negative_words text_lower in
      let '(sentiment, confidence) :=
        if (negative_count <? positive_count)%nat then ("positive", "0.7")
        else if (positive_count <? negative_count)%nat then ("negative", "0.7")
        else ("neutral", "0.5") in
      Ok [(KStr "cleaned_text", PStr cleaned_text);
          (KStr "language", PStr language);
          (KStr "entities", PList (map PStr entities));
          (KStr "sentiment", PStr sentiment);
          (KStr "sentiment_confidence", PFloat confidence)]
  | _ => Raise TypeError
  end.

(** *** [process_upload_task] *)

(** [result[k]] on a dict built by the code itself *)
Definition field (d : pydict) (k : string) : pyval :=
  match dict_get d k with Some v => v | None => PNone end.

(** the text stage of the loop body: NLP results merged into the post *)
Definition enrich_text (post : pyval) : res pyval :=
  raw_text <- py_get post "raw_text" (PStr "") ;;
  text_result <- process_text_simple raw_text ;;
  py_update post
    [(KStr "cleaned_text", field text_result "cleaned_text");
     (KStr "language", field text_result "language");
     (KStr "entities", field text_result "entities");
     (KStr "sentiment", field text_result "sentiment");
     (KStr "sentiment_confidence", field text_result "sentiment_confidence")].

Definition is_image (v : pyval) : bool :=
  match v with PStr s => (s =? "image") | _ => false end.

Definition process_media_item (media_item : pyval) : res pyval :=
  type <- py_get media_item "type" PNone ;;
  if is_image type then
    py_update media_item
      [(KStr "tags", PList [PStr "image"]);
       (KStr "caption", PStr "Image content");
       (KStr "similarity_score", PFloat "0.5")]
  else Ok media_item.

Fixpoint process_media (media_items : list pyval) : res (list pyval) :=
  match media_items with
  | [] => Ok []
  | media_item :: rest =>
      m <- process_media_item media_item ;;
      ms <- process_media rest ;;
      Ok (m :: ms)
  end.

(** the media stage: every item handled, then [post["media"]] rebound *)
Definition enrich_media (post : pyval) : res pyval :=
  media_items <- py_get post "media" (PList []) ;;
  items <- py_iter media_items ;;
  processed_media <- process_media items ;;
  py_setitem post "media" (PList processed_media).

Section Worker.
Context `{R : Runtime}.

(** the body of the per-post [try]: the enriched post is written to
    the store last, keyed by its [post_id] *)
Definition process_post (d : db) (post : pyval) : res db :=
  post <- enrich_text post ;;
  post <- enrich_media post ;;
  post_id <- py_getitem post "post_id" ;;
  fields <- py_items post ;;
  update_one d POSTS_COLLECTION
    [(KStr "post_id", post_id)] [(KStr "$set", PDict fields)].

(** the message of the [AttributeError] a value without the method
    raises *)
Definition no_attribute (v : pyval) (method : string) : string :=
  let type_name :=
    match v with
    | PNone => "NoneType"
    | PBool _ => "bool"
    | PInt _ => "int"
    | PFloat _ => "float"
    | PStr _ => "str"
    | PDatetime _ => "datetime.datetime"
    | PList _ => "list"
    | PDict _ => "dict"
    end in
  "'" ++ type_name ++ "' object has no attribute '" ++ method ++ "'".

(** the [for post in posts] loop. A post whose body raises is logged
    and passed over, the store and the counter as they were; the log
    line itself calls [post.get], outside the inner [try], and what it
    raises ends the loop with the store as it then is. The result is
    the final counter, or the message of the exception that ended the
    loop. *)
Fixpoint process_posts (d : db) (processed_count : nat) (posts : list pyval)
  : db * (string + nat) :=
  match posts with
  | [] => (d, inr processed_count)
  | post :: rest =>
      match process_post d post with
      | Ok d' => process_posts d' (S processed_count) rest
      | Raise _ =>
          match py_get post "post_id" (PStr "unknown") with
          | Ok _ => process_posts d processed_count rest
          | Raise _ => (d, inl (no_attribute post "get"))
          end
      end
  end.

(** [sync_client] is [None] until [init_db] has run in the process;
    [get_sync_database()] then raises inside the outer [try], whose
    handler returns the error status *)
Definition process_upload_task (sync_client : option db) (file_id : string)
  (posts : list pyval) : option db * pyval :=
  match sync_client with
  | None =>
      (None, PDict [(KStr "status", PStr "error");
                    (KStr "error", PStr "'NoneType' object is not subscriptable")])
  | Some d =>
      match process_posts d 0 posts with
      | (d', inr processed_count) =>
          (Some d', PDict [(KStr "status", PStr "completed");
                           (KStr "processed_count",
                            PInt (Z.of_nat processed_count))])
      | (d', inl error) =>
          (Some d', PDict [(KStr "status", PStr "error");
                           (KStr "error", PStr error)])
      end
  end.

End Worker.

End Tasks.

(* ================================================================== *)
(** ** [routes/upload.py] *)

Module Upload.
Import Py Strptime Env Tasks.

Definition is_list (v : pyval) : bool :=
  match v with PList _ => true | _ => false end.
Definition is_dict (v : pyval) : bool :=
  match v with PDict _ => true | _ => false end.
Definition is_str (v : pyval) : bool :=
  match v with PStr _ => true | _ => false end.

(** [a or b] *)
Definition py_or (a b : res pyval) : res pyval :=
  x <- a ;; if truthy x then Ok x else b.

(** *** [parse_timestamp] *)

Definition formats : list string :=
  ["%Y-%m-%dT%H:%M:%SZ";
   "%Y-%m-%dT%H:%M:%S.%fZ";
   "%Y-%m-%d %H:%M:%S";
   "%Y-%m-%d"].

(** the [for fmt in formats] loop: a [ValueError] moves on to the next
    format, any other exception leaves the function *)
Fixpoint try_formats (now : datetime) (timestamp_str : pyval)
  (fmts : list string) : res datetime :=
  match fmts with
  | [] => Ok now
  | fmt :: rest =>
      match strptime timestamp_str fmt with
      | Ok d => Ok d
      | Raise e =>
          if is_ValueError e then try_formats now timestamp_str rest
          else Raise e
      end
  end.

(** [now] is what [datetime.utcnow()] returns during the call *)
Definition parse_timestamp (now : datetime) (timestamp_str : pyval)
  : res datetime :=
  if negb (truthy timestamp_str) then Ok now
  else try_formats now timestamp_str formats.

(** *** [parse_media] *)

Definition image_item (url : pyval) : pyval :=
  PDict [(KStr "type", PStr "image"); (KStr "url", url);
         (KStr "filename", PStr "")].

Fixpoint parse_media_items (items : list pyval) : res (list pyval) :=
  match items with
  | [] => Ok []
  | item :: rest =>
      if is_dict item then
        type <- py_get item "type" (PStr "image") ;;
        src <- py_get item "src" (PStr "") ;;
        url <- py_get item "url" src ;;
        filename <- py_get item "filename" (PStr "") ;;
        media_list <- parse_media_items rest ;;
        Ok (PDict [(KStr "type", type); (KStr "url", url);
                   (KStr "filename", filename)] :: media_list)
      else if is_str item then
        media_list <- parse_media_items rest ;;
        Ok (image_item item :: media_list)
      else parse_media_items rest
  end.

Definition parse_media (media_data : pyval) : res (list pyval) :=
  if negb (truthy media_data) then Ok []
  else
    match media_data with
    | PList items => parse_media_items items
    | PStr _ => Ok [image_item media_data]
    | _ => Ok []
    end.

(** *** [normalize_post_data] *)

Definition consumed_keys : list string :=
  ["platform"; "id"; "post_id"; "text"; "content"; "message"; "timestamp";
   "created_at"; "date"; "user_id"; "author"; "username"; "media"; "images";
   "videos"; "raw_text"].

(** [summary_parts]: the truthy ones of title, description, caption *)
Definition summary_parts (post : pyval) : res (list pyval) :=
  title <- py_get post "title" PNone ;;
  description <- py_get post "description" PNone ;;
  caption <- py_get post "caption" PNone ;;
  Ok (filter truthy [title; description; caption]).

Section WithRuntime.
Context `{R : Runtime}.

(** the body of the [try]; [n] is the slot the record draws its
    token and its clock reading from *)
Definition normalize_body (n : nat) (post : pyval) : res (option pyval) :=
  post_id <- py_or (py_get post "post_id" PNone)
               (py_or (py_get post "id" PNone) (Ok (PStr (uuid4 n)))) ;;
  raw_text <- py_or (py_get post "raw_text" PNone)
                (py_or (py_get post "text" PNone)
                   (py_or (py_get post "content" PNone)
                      (py_or (py_get post "message" PNone) (Ok (PStr ""))))) ;;
  raw_text <-
    (if negb (truthy raw_text) then
       parts <- summary_parts post ;;
       match parts with
       | _ :: _ => joined <- py_join " | " parts ;; Ok (PStr joined)
       | [] =>
           platform <- py_get post "platform" (PStr "unknown") ;;
           Ok (PStr ("Post from " ++ py_str platform ++ " platform"))
       end
     else Ok raw_text) ;;
  platform <- py_get post "platform" (PStr "unknown") ;;
  date <- py_get post "date" (PStr "") ;;
  created_at <- py_get post "created_at" date ;;
  timestamp_str <- py_get post "timestamp" created_at ;;
  timestamp <- parse_timestamp (utcnow n) timestamp_str ;;
  username <- py_get post "username" (PStr "") ;;
  author <- py_get post "author" username ;;
  user_id <- py_get post "user_id" author ;;
  videos <- py_get post "videos" (PList []) ;;
  images <- py_get post "images" videos ;;
  media_data <- py_get post "media" images ;;
  media <- parse_media media_data ;;
  items <- py_items post ;;
  let normalized :=
    [(KStr "platform", platform);
     (KStr "post_id", PStr (py_str post_id));
     (KStr "raw_text", raw_text);
     (KStr "timestamp", PDatetime timestamp);
     (KStr "user_id", PStr (py_str user_id));
     (KStr "media", PList media);
     (KStr "metadata",
       PDict (filter (fun kv => negb (key_in (fst kv) consumed_keys)) items))] in
  stripped <- py_strip (field normalized "raw_text") ;;
  if negb (truthy (PStr stripped)) then Ok None
  else Ok (Some (PDict normalized)).

(** [except Exception: return None] *)
Definition normalize_post_data (n : nat) (post : pyval) : option pyval :=
  match normalize_body n post with
  | Ok r => r
  | Raise _ => None
  end.

(** *** The format parsers *)

(** [str.split(chr 10)] *)
Fixpoint split_lines (s : string) : list string :=
  match s with
  | EmptyString => [EmptyString]
  | String c t =>
      if (c =? chr 10)%char then EmptyString :: split_lines t
      else match split_lines t with
           | l :: ls => String c l :: ls
           | [] => [String c EmptyString]
           end
  end.

(** the normalising loop of [parse_json_file]; the [print] at its head
    formats [post.get('post_id', ...)] and slices
    [post.get('raw_text', 'no_text')] before the record is normalised *)
Fixpoint normalize_json_posts (n : nat) (posts : list pyval)
  : res (list pyval) :=
  match posts with
  | [] => Ok []
  | post :: rest =>
      _ <- py_get post "post_id" (PStr "no_id") ;;
      text <- py_get post "raw_text" (PStr "no_text") ;;
      _ <- py_slice text 50 ;;
      let normalized_post := normalize_post_data n post in
      normalized_posts <- normalize_json_posts (S n) rest ;;
      Ok (match normalized_post with
          | Some p => p :: normalized_posts
          | None => normalized_posts
          end)
  end.

(** what [parse_json_file] does with the value [json.loads] returned;
    the second component is the next free slot *)
Definition json_posts (n : nat) (data : pyval) : res (list pyval * nat) :=
  posts <-
    (if is_list data then Ok data
     else if is_dict data
               && match data with
                  | PDict d => match dict_get d "posts" with
                               | Some _ => true | None => false end
                  | _ => false
                  end
     then py_getitem data "posts"
     else Raise (ValueError "Invalid JSON structure")) ;;
  _ <- py_len posts ;;
  items <- py_iter posts ;;
  normalized_posts <- normalize_json_posts n items ;;
  Ok (normalized_posts, (n + List.length items)%nat).

Definition parse_json_file (files : fs) (n : nat) (file_path : string)
  : res (list pyval * nat) :=
  content <- read_text files file_path ;;
  data <- json_loads content ;;
  json_posts n data.

Fixpoint normalize_rows (n : nat) (rows : list pyval) : list pyval :=
  match rows with
  | [] => []
  | row :: rest =>
      match normalize_post_data n row with
      | Some p => p :: normalize_rows (S n) rest
      | None => normalize_rows (S n) rest
      end
  end.

Definition parse_csv_file (files : fs) (n : nat) (file_path : string)
  : res (list pyval * nat) :=
  content <- read_text files file_path ;;
  let lines := split_lines content in
  match lines with
  | [] => Ok ([], n)
  | _ =>
      rows <- csv_DictReader lines ;;
      Ok (normalize_rows n rows, (n + List.length rows)%nat)
  end.

(** [os.path.join] of a directory and a relative or absolute name *)
Definition path_join (a b : string) : string :=
  if prefix "/" b then b
  else if (a =? "") || endswith a "/" then a ++ b
  else a ++ "/" ++ b.

(** the loop of [parse_zip_file] over the walked [(root, file)] pairs *)
Fixpoint parse_walked (files : fs) (n : nat) (entries : list (string * string))
  : res (list pyval * nat) :=
  match entries with
  | [] => Ok ([], n)
  | (root, file) :: rest =>
      if endswith file ".json" then
        json_posts <- parse_json_file files n (path_join root file) ;;
        posts <- parse_walked files (snd json_posts) rest ;;
        Ok ((fst json_posts ++ fst posts)%list, snd posts)
      else if endswith file ".csv" then
        csv_posts <- parse_csv_file files n (path_join root file) ;;
        posts <- parse_walked files (snd csv_posts) rest ;;
        Ok ((fst csv_posts ++ fst posts)%list, snd posts)
      else parse_walked files n rest
  end.

(** the archive is unpacked into [extract_dir] whether or not the
    parsing that follows succeeds *)
Definition parse_zip_file (files : fs) (n : nat) (file_path extract_dir : string)
  : fs * res (list pyval * nat) :=
  let '(files', extracted) := zip_extractall files file_path extract_dir in
  (files',
   _ <- extracted ;;
   parse_walked files' n (os_walk files' extract_dir)).

(** *** [upload_file] *)

(** [str.rfind] of one character: its last index, or -1 *)
Fixpoint rfind_from (i last : Z) (c : ascii) (s : string) : Z :=
  match s with
  | EmptyString => last
  | String a r => rfind_from (i + 1)%Z (if (a =? c)%char then i else last) c r
  end.

Definition rfind (c : ascii) (s : string) : Z := rfind_from 0 (-1) c s.

(** [os.path.splitext] (POSIX): the extension starts at the last dot
    of the last path component, leading dots of the component apart *)
Definition splitext (p : string) : string * string :=
  let sepIndex := rfind "/" p in
  let dotIndex := rfind "." p in
  let len := String.length p in
  if (sepIndex <? dotIndex)%Z
     && str_existsb (fun c => negb (c =? ".")%char)
          (substring (Z.to_nat (sepIndex + 1))
             (Z.to_nat (dotIndex - (sepIndex + 1))) p)
  then (substring 0 (Z.to_nat dotIndex) p,
        substring (Z.to_nat dotIndex) (len - Z.to_nat dotIndex) p)
  else (p, "").

Definition allowed_extensions : list string := [".json"; ".csv"; ".zip"].

Definition allowed (file_extension : string) : bool :=
  existsb (String.eqb file_extension) allowed_extensions.

Record UploadResponse := mkUploadResponse {
  message : string;
  file_id : string;
  total_posts : Z;
  processing_status : string
}.

(** What a request can change: the files under [uploads/], the store,
    and the background tasks queued behind the response. *)
Record world := mkWorld {
  files : fs;
  store : db;
  background_tasks : list (string * list pyval)
}.

(** [insert_many] gives every document that has none an [_id] before
    it is sent, so the posts handed to the worker carry one *)
Fixpoint assign_ids (n : nat) (docs : list pyval) : list pyval :=
  match docs with
  | [] => []
  | PDict d :: rest =>
      match dict_get d "_id" with
      | Some _ => PDict d :: assign_ids (S n) rest
      | None => PDict (dict_set d "_id" (object_id n)) :: assign_ids (S n) rest
      end
  | doc :: rest => doc :: assign_ids (S n) rest
  end.

(** the dispatch on the extension inside the [try] *)
Definition parse_upload (fls : fs) (n : nat) (file_extension file_path upload_dir : string)
  : fs * res (list pyval * nat) :=
  if file_extension =? ".json" then (fls, parse_json_file fls n file_path)
  else if file_extension =? ".csv" then (fls, parse_csv_file fls n file_path)
  else if file_extension =? ".zip" then parse_zip_file fls n file_path upload_dir
  else (fls, Ok ([], n)).

Definition upload_metadata (file_id filename : string) (upload_time : datetime)
  (total_posts : nat) (file_path : string) : pyval :=
  PDict [(KStr "file_id", PStr file_id);
         (KStr "filename", PStr filename);
         (KStr "upload_time", PDatetime upload_time);
         (KStr "total_posts", PInt (Z.of_nat total_posts));
         (KStr "status", PStr "uploaded");
         (KStr "file_path", PStr file_path)].

(** [if posts: insert_many(posts)]: the store after it, and the posts
    as the driver leaves them, or what the bulk write raised *)
Definition save_posts (d : db) (n : nat) (posts : list pyval)
  : db * res (list pyval) :=
  if truthy (PList posts) then
    let posts := assign_ids n posts in
    match insert_many d POSTS_COLLECTION posts with
    | (d', Ok _) => (d', Ok posts)
    | (d', Raise e) => (d', Raise e)
    end
  else (d, Ok posts).

(** what follows the parsing: the two store writes, the background
    task, the response *)
Definition record_upload (w : world) (fls : fs) (file_id filename file_path : string)
  (posts : list pyval) (n : nat) : res UploadResponse * world :=
  match insert_one (store w) UPLOADS_COLLECTION
          (upload_metadata file_id filename (utcnow n) (List.length posts)
             file_path) with
  | Raise e => (Raise e, mkWorld fls (store w) (background_tasks w))
  | Ok d1 =>
      match save_posts d1 (S n) posts with
      | (d2, Raise e) => (Raise e, mkWorld fls d2 (background_tasks w))
      | (d2, Ok saved_posts) =>
          (Ok (mkUploadResponse "File uploaded successfully" file_id
                 (Z.of_nat (List.length saved_posts)) "processing"),
           mkWorld fls d2 (background_tasks w ++ [(file_id, saved_posts)])%list)
      end
  end.

(** [filename] is [None] when the client sent none; [n] is the first
    free slot. The result is the response or the exception that ends
    the request, with the world the request leaves. *)
Definition upload_file (w : world) (n : nat) (filename : option string)
  (content : string) : res UploadResponse * world :=
  match filename with
  | None => (Raise (HTTPException 400), w)
  | Some filename =>
      if negb (truthy (PStr filename)) then (Raise (HTTPException 400), w)
      else
        let file_extension := lower (snd (splitext filename)) in
        if negb (allowed file_extension) then (Raise (HTTPException 400), w)
        else
          let file_id := uuid4 n in
          let upload_dir := "uploads/" ++ file_id in
          let file_path := path_join upload_dir filename in
          match write_file (files w) file_path content with
          | Raise e => (Raise e, w)
          | Ok saved =>
              let '(fls, parsed) :=
                parse_upload saved (S n) file_extension file_path upload_dir in
              match parsed with
              | Raise _ =>
                  (Raise (HTTPException 400),
                   mkWorld fls (store w) (background_tasks w))
              | Ok (posts, n') =>
                  record_upload w fls file_id filename file_path posts n'
              end
          end
  end.

End WithRuntime.

End Upload.

(* ================================================================== *)
(** ** A runtime to run the code on

    Files are a list of paths with their bytes, newest first; the
    store is the list of its documents by collection. The parsing
    libraries are given on the inputs used below: UTF-8 decoding on
    ASCII bytes and on bytes that start no UTF-8 sequence, [json.loads]
    and [zipfile] by table, [csv.DictReader] on input without quotes. *)

Module Fixture.
Import Py Env Upload.

Definition q (s : string) : string := String dquote (s ++ String dquote "").

Fixpoint lookup {A} (k : string) (l : list (string * A)) : option A :=
  match l with
  | [] => None
  | (k', a) :: t => if k' =? k then Some a else lookup k t
  end.

Definition decode_utf8 (bytes : string) : res string :=
  if str_forallb (fun c => (ord c <? 128)%N) bytes then Ok bytes
  else Raise (LibError "UnicodeDecodeError").

(** what text mode does to line ends: a carriage return, with the
    line feed after it if there is one, is read as one line feed *)
Fixpoint universal_newlines (s : string) : string :=
  match s with
  | EmptyString => EmptyString
  | String c t =>
      if (c =? chr 13)%char then
        String (chr 10)
          match t with
          | String c' t' =>
              if (c' =? chr 10)%char then universal_newlines t'
              else universal_newlines t
          | EmptyString => EmptyString
          end
      else String c (universal_newlines t)
  end.

Definition mem_read_text (files : list (string * string)) (path : string)
  : res string :=
  match lookup path files with
  | Some bytes => text <- decode_utf8 bytes ;; Ok (universal_newlines text)
  | None => Raise (LibError "FileNotFoundError")
  end.

(** [csv.reader] with the default dialect: the delimiter is a comma,
    the quote character a double quote, a doubled quote inside a
    quoted field stands for one, no escape character, not strict. The
    reader is the state machine of the module: [parse_process_char]
    takes a character of the line, or [None] at the end of the line. *)
Inductive parser_state :=
| START_RECORD | START_FIELD | IN_FIELD | IN_QUOTED_FIELD
| QUOTE_IN_QUOTED_FIELD | EAT_CRNL.

(** the field being read and the fields of the record read so far,
    both last first *)
Record csv_parser := mkParser {
  state : parser_state;
  pending : list ascii;
  pending_len : N;
  record_fields : list string
}.

Definition parse_reset : csv_parser := mkParser START_RECORD [] 0 [].

Definition field_limit : N := 131072.

Definition csv_error : exn := LibError "Error".

Definition parse_add_char (p : csv_parser) (c : ascii) : res csv_parser :=
  if (field_limit <=? pending_len p)%N then Raise csv_error
  else Ok (mkParser (state p) (c :: pending p) (pending_len p + 1)
             (record_fields p)).

Definition parse_save_field (p : csv_parser) : csv_parser :=
  mkParser (state p) [] 0
    (string_of_list_ascii (rev (pending p)) :: record_fields p).

Definition enter (st : parser_state) (p : csv_parser) : csv_parser :=
  mkParser st (pending p) (pending_len p) (record_fields p).

Definition is_newline (c : ascii) : bool :=
  (c =? chr 10)%char || (c =? chr 13)%char.

(** the end of a field at the end of a line or at a line-end character *)
Definition end_of_line (p : csv_parser) (c : option ascii) : csv_parser :=
  enter (match c with None => START_RECORD | Some _ => EAT_CRNL end)
    (parse_save_field p).

Definition start_field (p : csv_parser) (c : option ascii) : res csv_parser :=
  match c with
  | None => Ok (end_of_line p c)
  | Some x =>
      if is_newline x then Ok (end_of_line p c)
      else if (x =? dquote)%char then Ok (enter IN_QUOTED_FIELD p)
      else if (x =? ",")%char then Ok (enter START_FIELD (parse_save_field p))
      else p' <- parse_add_char p x ;; Ok (enter IN_FIELD p')
  end.

Definition parse_process_char (p : csv_parser) (c : option ascii)
  : res csv_parser :=
  match state p with
  | START_RECORD =>
      match c with
      | None => Ok p
      | Some x =>
          if is_newline x then Ok (enter EAT_CRNL p) else start_field p c
      end
  | START_FIELD => start_field p c
  | IN_FIELD =>
      match c with
      | None => Ok (end_of_line p c)
      | Some x =>
          if is_newline x then Ok (end_of_line p c)
          else if (x =? ",")%char then Ok (enter START_FIELD (parse_save_field p))
          else parse_add_char p x
      end
  | IN_QUOTED_FIELD =>
      match c with
      | None => Ok p
      | Some x =>
          if (x =? dquote)%char then Ok (enter QUOTE_IN_QUOTED_FIELD p)
          else parse_add_char p x
      end
  | QUOTE_IN_QUOTED_FIELD =>
      match c with
      | None => Ok (end_of_line p c)
      | Some x =>
          if (x =? dquote)%char then
            p' <- parse_add_char p x ;; Ok (enter IN_QUOTED_FIELD p')
          else if (x =? ",")%char then Ok (enter START_FIELD (parse_save_field p))
          else if is_newline x then Ok (end_of_line p c)
          else p' <- parse_add_char p x ;; Ok (enter IN_FIELD p')
      end
  | EAT_CRNL =>
      match c with
      | None => Ok (enter START_RECORD p)
      | Some x => if is_newline x then Ok p else Raise csv_error
      end
  end.

Fixpoint parse_line (p : csv_parser) (line : string) : res csv_parser :=
  match line with
  | EmptyString => parse_process_char p None
  | String c rest => p' <- parse_process_char p (Some c) ;; parse_line p' rest
  end.

(** the records of the lines; a quoted field that is open at the end
    of a line goes on in the next line, and one that is open at the
    end of the input is closed there *)
Fixpoint csv_reader (p : csv_parser) (lines : list string)
  : res (list (list string)) :=
  match lines with
  | [] =>
      match state p, pending_len p with
      | IN_QUOTED_FIELD, _ | _, Npos _ =>
          Ok [rev (record_fields (parse_save_field p))]
      | _, _ => Ok []
      end
  | line :: rest =>
      p' <- parse_line p line ;;
      match state p' with
      | START_RECORD =>
          records <- csv_reader parse_reset rest ;;
          Ok (rev (record_fields p') :: records)
      | _ => csv_reader p' rest
      end
  end.

(** one row under the header, [dict(zip(fieldnames, row))]: surplus
    cells go in a list under the key [None], the fields without a
    cell are [None] *)
Fixpoint dict_row (fieldnames cells : list string) (d : pydict) : pydict :=
  match fieldnames, cells with
  | [], [] => d
  | [], _ :: _ => dict_set d KNone (PList (map PStr cells))
  | f :: fs, [] => dict_row fs [] (dict_set d f PNone)
  | f :: fs, c :: cs => dict_row fs cs (dict_set d f (PStr c))
  end.

(** [csv.DictReader]: the first record gives the field names, and the
    records without a cell, which blank lines give, are passed over *)
Definition mem_DictReader (lines : list string) : res (list pyval) :=
  records <- csv_reader parse_reset lines ;;
  match records with
  | [] => Ok []
  | fieldnames :: rows =>
      Ok (map (fun row => PDict (dict_row fieldnames row []))
            (filter (fun row => match row with [] => false | _ => true end)
               rows))
  end.

Definition three_records : list pyval :=
  [PDict [(KStr "id", PStr "1"); (KStr "text", PStr "I love this #great day!");
          (KStr "platform", PStr "twitter")];
   PDict [(KStr "id", PStr "2"); (KStr "text", PStr "bad news");
          (KStr "platform", PStr "twitter")];
   PDict [(KStr "id", PStr "3"); (KStr "text", PStr "hello");
          (KStr "platform", PStr "twitter")]].

Definition three_posts : pyval := PList three_records.

Definition three_posts_json : string :=
  "[{" ++ q "id" ++ ": " ++ q "1" ++ ", " ++ q "text" ++ ": "
       ++ q "I love this #great day!" ++ ", " ++ q "platform" ++ ": " ++ q "twitter"
  ++ "}, {" ++ q "id" ++ ": " ++ q "2" ++ ", " ++ q "text" ++ ": " ++ q "bad news"
       ++ ", " ++ q "platform" ++ ": " ++ q "twitter"
  ++ "}, {" ++ q "id" ++ ": " ++ q "3" ++ ", " ++ q "text" ++ ": " ++ q "hello"
       ++ ", " ++ q "platform" ++ ": " ++ q "twitter" ++ "}]".

Definition posts_five_json : string := "{" ++ q "posts" ++ ": 5}".

Definition json_table : list (string * pyval) :=
  [(three_posts_json, three_posts);
   (posts_five_json, PDict [(KStr "posts", PInt 5)]);
   ("[]", PList []);
   ("42", PInt 42)].

Definition mem_json_loads (text : string) : res pyval :=
  match lookup text json_table with
  | Some v => Ok v
  | None => Raise (LibError "JSONDecodeError")
  end.

(** a CSV file whose bytes are not UTF-8, and one whose rows have a
    missing and a surplus cell *)
Definition undecodable_csv : string := String (chr 255) (String (chr 254) "a,b").
Definition ragged_csv : string :=
  "platform,content" ++ String (chr 10) "twitter"
  ++ String (chr 10) "twitter,hi there,extra" ++ String (chr 10) "".

(** a CSV file of one row, with one cell more than the header has *)
Definition surplus_csv : string :=
  "platform,content" ++ String (chr 10) "twitter,hi there,extra".

Definition zip_table : list (string * list (string * string)) :=
  [("PK-json-then-bad-csv",
     [("data.json", three_posts_json); ("bad.csv", undecodable_csv)]);
   ("PK-json-then-ragged-csv",
     [("data.json", three_posts_json); ("ragged.csv", ragged_csv)])].

Definition mem_extractall (files : list (string * string)) (path dir : string)
  : list (string * string) * res unit :=
  match lookup path files with
  | None => (files, Raise (LibError "FileNotFoundError"))
  | Some bytes =>
      match lookup bytes zip_table with
      | None => (files, Raise (LibError "BadZipFile"))
      | Some members =>
          ((rev (map (fun m => (path_join dir (fst m), snd m)) members)
              ++ files)%list, Ok tt)
      end
  end.

(** the files directly under [dir], oldest first *)
Definition mem_walk (files : list (string * string)) (dir : string)
  : list (string * string) :=
  let under := dir ++ "/" in
  map (fun f => (dir, substring (String.length under)
                        (String.length (fst f) - String.length under) (fst f)))
    (filter (fun f => prefix under (fst f)) (rev files)).

Definition mem_db := list (string * pyval).

(** [update_one] with a [post_id] filter and a [$set] document: the
    first post with that id takes the fields; no match changes nothing *)
Fixpoint set_first (collection : string) (post_id : pyval) (fields : pydict)
  (d : mem_db) : mem_db :=
  match d with
  | [] => []
  | (c, PDict doc) :: t =>
      if (c =? collection)
         && match dict_get doc "post_id", post_id with
            | Some (PStr a), PStr b => (a =? b)
            | _, _ => false
            end
      then (c, PDict (dict_update doc fields)) :: t
      else (c, PDict doc) :: set_first collection post_id fields t
  | x :: t => x :: set_first collection post_id fields t
  end.

Definition mem_update_one (d : mem_db) (collection : string)
  (filter update : pydict) : res mem_db :=
  match dict_get filter "post_id", dict_get update "$set" with
  | Some post_id, Some (PDict fields) => Ok (set_first collection post_id fields d)
  | _, _ => Raise (LibError "OperationFailure")
  end.

#[export] Instance mem : Runtime := {|
  uuid4 := fun n => "uuid-" ++ str_of_Z (Z.of_nat n);
  utcnow := fun n => mkDatetime 2024 6 1 12 0 0 (Z.of_nat n);
  object_id := fun n => PStr ("oid-" ++ str_of_Z (Z.of_nat n));
  fs := list (string * string);
  write_file := fun files path bytes => Ok ((path, bytes) :: files);
  read_text := mem_read_text;
  zip_extractall := mem_extractall;
  os_walk := mem_walk;
  json_loads := mem_json_loads;
  csv_DictReader := mem_DictReader;
  db := mem_db;
  insert_one := fun d c doc => Ok (d ++ [(c, doc)])%list;
  insert_many := fun d c docs => ((d ++ map (fun doc => (c, doc)) docs)%list, Ok tt);
  update_one := mem_update_one
|}.

Definition empty_world : world := mkWorld (R := mem) [] [] [].

(** what the driver refuses to encode: a document with a key that is
    no string, at any depth *)
Fixpoint bson_keys (v : pyval) : bool :=
  match v with
  | PList l => forallb bson_keys l
  | PDict d =>
      forallb (fun kv => match kv with
                         | (KStr _, x) => bson_keys x
                         | (KNone, _) => false
                         end) d
  | _ => true
  end.

(** the runtime [mem] with a store that refuses such documents. The
    driver encodes the documents of a batch before it sends the batch,
    so a refused bulk write leaves the store as it was. *)
Definition strict : Runtime := {|
  uuid4 := uuid4 (Runtime := mem);
  utcnow := utcnow (Runtime := mem);
  object_id := object_id (Runtime := mem);
  fs := list (string * string);
  write_file := write_file (Runtime := mem);
  read_text := read_text (Runtime := mem);
  zip_extractall := zip_extractall (Runtime := mem);
  os_walk := os_walk (Runtime := mem);
  json_loads := json_loads (Runtime := mem);
  csv_DictReader := csv_DictReader (Runtime := mem);
  db := mem_db;
  insert_one := fun d c doc =>
    if bson_keys doc then Ok (d ++ [(c, doc)])%list
    else Raise (LibError "InvalidDocument");
  insert_many := fun d c docs =>
    if forallb bson_keys docs
    then ((d ++ map (fun doc => (c, doc)) docs)%list, Ok tt)
    else (d, Raise (LibError "InvalidDocument"));
  update_one := fun d c filter update =>
    if bson_keys (PDict update) then mem_update_one d c filter update
    else Raise (LibError "InvalidDocument")
|}.

(** a post the worker can enrich, and one whose text is a number *)
Definition good_post : pyval :=
  PDict [(KStr "post_id", PStr "2"); (KStr "raw_text", PStr "good day")].
Definition bad_post : pyval :=
  PDict [(KStr "post_id", PStr "1"); (KStr "raw_text", PInt 7)].

End Fixture.

(* ================================================================== *)
(** ** What the functions are expected to compute *)

Module Spec.
Import Py Strptime Env Tasks Upload.

Definition text_keys : list string := ["raw_text"; "text"; "content"; "message"].
Definition summary_keys : list string := ["title"; "description"; "caption"].

(** [post.get(k, default)] on a record *)
Definition get_or (post : pydict) (k : string) (default : pyval) : pyval :=
  match dict_get post k with Some v => v | None => default end.

(** the field is missing, or holds an empty (falsy) value *)
Definition absent_or_empty (post : pydict) (k : string) : Prop :=
  truthy (get_or post k PNone) = false.

Definition absent (post : pydict) (k : string) : Prop :=
  dict_get post k = None.

(** the first non-empty text candidate, the empty string if none *)
Definition first_text (post : pydict) : pyval :=
  let pick k rest :=
    if truthy (get_or post k PNone) then get_or post k PNone else rest in
  pick "raw_text" (pick "text" (pick "content" (pick "message" (PStr "")))).

Definition timestamp_value (post : pydict) : pyval :=
  get_or post "timestamp" (get_or post "created_at" (get_or post "date" (PStr ""))).

Definition user_value (post : pydict) : pyval :=
  get_or post "user_id" (get_or post "author" (get_or post "username" (PStr ""))).

Definition media_value (post : pydict) : pyval :=
  get_or post "media" (get_or post "images" (get_or post "videos" (PList []))).

(** a value [parse_timestamp] takes without raising *)
Definition empty_or_str (v : pyval) : bool := negb (truthy v) || is_str v.

(** a string with a character that is not whitespace *)
Definition has_text (s : string) : bool := negb (strip s =? "").

(** the media item of one list entry *)
Definition media_entry (item : pyval) : list pyval :=
  match item with
  | PDict d =>
      [PDict [(KStr "type", get_or d "type" (PStr "image"));
              (KStr "url", get_or d "url" (get_or d "src" (PStr "")));
              (KStr "filename", get_or d "filename" (PStr ""))]]
  | PStr _ => [image_item item]
  | _ => []
  end.

(** the media list of a value: entries of a list one by one, a
    non-empty string as one image, nothing otherwise *)
Definition media_list (media_data : pyval) : list pyval :=
  match media_data with
  | PList items => flat_map media_entry items
  | PStr s => if s =? "" then [] else [image_item media_data]
  | _ => []
  end.

(** the first format of the list that parses [s], if any *)
Fixpoint first_parsing (s : string) (fmts : list string) : option datetime :=
  match fmts with
  | [] => None
  | fmt :: rest =>
      match strptime (PStr s) fmt with
      | Ok d => Some d
      | Raise _ => first_parsing s rest
      end
  end.

(** the timestamp a record gets when [parse_timestamp] returns *)
Definition timestamp_of (now : datetime) (v : pyval) : datetime :=
  match parse_timestamp now v with Ok t => t | Raise _ => now end.

Definition synthesized_text (post : pydict) : pyval :=
  PStr ("Post from " ++ py_str (get_or post "platform" (PStr "unknown"))
          ++ " platform").

Definition enrichment_keys : list string :=
  ["cleaned_text"; "language"; "entities"; "sentiment"; "sentiment_confidence"].

Definition completed (processed_count : nat) : pyval :=
  PDict [(KStr "status", PStr "completed");
         (KStr "processed_count", PInt (Z.of_nat processed_count))].

(** the posts value [parse_json_file] picks from a root of one of the
    two shapes *)
Definition selected_posts (data : pyval) : option pyval :=
  match data with
  | PList _ => Some data
  | PDict d => dict_get d "posts"
  | _ => None
  end.

Definition invalid_structure : exn := ValueError "Invalid JSON structure".

Definition metadata_of (post : pydict) : pydict :=
  filter (fun kv => negb (key_in (fst kv) consumed_keys)) post.

Section WithRuntime.
Context `{R : Runtime}.

Definition post_id_value (n : nat) (post : pydict) : pyval :=
  if truthy (get_or post "post_id" PNone) then get_or post "post_id" PNone
  else if truthy (get_or post "id" PNone) then get_or post "id" PNone
  else PStr (uuid4 n).

(** the post a record normalises to, given its text and timestamp *)
Definition normalized (n : nat) (post : pydict) (raw_text : pyval)
  (timestamp : datetime) : pyval :=
  PDict [(KStr "platform", get_or post "platform" (PStr "unknown"));
         (KStr "post_id", PStr (py_str (post_id_value n post)));
         (KStr "raw_text", raw_text);
         (KStr "timestamp", PDatetime timestamp);
         (KStr "user_id", PStr (py_str (user_value post)));
         (KStr "media", PList (media_list (media_value post)));
         (KStr "metadata", PDict (metadata_of post))].

(** the text the fallback chain settles on *)
Definition resolved_text (post : pydict) : res pyval :=
  if truthy (first_text post) then Ok (first_text post)
  else
    match filter truthy [get_or post "title" PNone;
                         get_or post "description" PNone;
                         get_or post "caption" PNone] with
    | [] => Ok (PStr ("Post from " ++ py_str (get_or post "platform" (PStr "unknown"))
                        ++ " platform"))
    | parts => joined <- py_join " | " parts ;; Ok (PStr joined)
    end.

(** every post of the list is a record [normalize_post_data]
    accepted *)
Definition all_accepted (posts : list pyval) : Prop :=
  Forall (fun p => exists k record, normalize_post_data k record = Some p) posts.

(** the posts of a batch that the worker persisted, with the store
    they leave *)
Fixpoint persisted (d : db) (posts : list pyval) : db * list pyval :=
  match posts with
  | [] => (d, [])
  | post :: rest =>
      match process_post d post with
      | Ok d' => let '(d'', done) := persisted d' rest in (d'', post :: done)
      | Raise _ => persisted d rest
      end
  end.

(** what the worker asks of the store for a post: nothing when an
    enrichment stage raises or the post has no [post_id], else the
    update of the document with that [post_id], setting the fields of
    the enriched post *)
Definition store_request (post : pyval) : option (pydict * pydict) :=
  match (post <- enrich_text post ;; enrich_media post) with
  | Ok (PDict fields) =>
      match dict_get fields "post_id" with
      | Some post_id =>
          Some ([(KStr "post_id", post_id)], [(KStr "$set", PDict fields)])
      | None => None
      end
  | _ => None
  end.

(** the store a batch leaves and the posts it counts: a post counts
    when [update_one] returned for its request, and a post without a
    request, or whose request raises, leaves the store as it was *)
Fixpoint written (d : db) (posts : list pyval) : db * nat :=
  match posts with
  | [] => (d, O)
  | post :: rest =>
      match store_request post with
      | Some (filter, update) =>
          match update_one d POSTS_COLLECTION filter update with
          | Ok d' => let '(d'', count) := written d' rest in (d'', S count)
          | Raise _ => written d rest
          end
      | None => written d rest
      end
  end.

End WithRuntime.

(** an entry [parse_json_file] can print and normalise: an object
    whose [raw_text], if any, can be sliced *)
Definition record_ok (post : pyval) : bool :=
  match post with
  | PDict d =>
      match dict_get d "raw_text" with
      | None | Some (PStr _) | Some (PList _) => true
      | _ => false
      end
  | _ => false
  end.

(** the root shapes the JSON parser lets through *)
Definition root_shape (data : pyval) : bool :=
  match data with
  | PList _ => true
  | PDict d => match dict_get d "posts" with Some _ => true | None => false end
  | _ => false
  end.

End Spec.

(* ================================================================== *)
(** ** The read and update paths

    What [workers/tasks.py] (the single-post task), [routes/data.py],
    [routes/export.py] and [routes/analytics.py] ask of the document
    store beyond the writes of the upload path. *)

Module Queries.
Import Py Env.

(** [find_one] returns the document, [_id] included, or nothing;
    [find_docs] is [find(filter, {"_id": 0}).to_list(None)];
    [find_page] is the same query with [skip], [limit] and the sort on
    the timestamp; [update_one_matched] is [update_one] with the
    [matched_count] of its result; [exn_text] is [str(e)] for an
    exception the driver raised. *)
Class Reader `{R : Runtime} := {
  find_one : db -> string -> pydict -> res (option pydict);
  find_docs : db -> string -> pydict -> res (list pydict);
  find_page : db -> string -> pydict -> Z -> Z -> res (list pydict);
  update_one_matched : db -> string -> pydict -> pydict -> res (db * nat);
  exn_text : exn -> string
}.

End Queries.

(* ================================================================== *)
(** ** [workers/tasks.py]: the single-post task *)

Module SinglePost.
Import Py Env Tasks Queries.

Section WithReader.
Context `{Q : Reader}.

Definition task_error (error : string) : pyval :=
  PDict [(KStr "status", PStr "error"); (KStr "error", PStr error)].

(** the statements of the [try] after the post is found *)
Definition reprocess_post (d : db) (post_id : string) (post : pyval) : res db :=
  post <- enrich_text post ;;
  fields <- py_items post ;;
  update_one d POSTS_COLLECTION
    [(KStr "post_id", PStr post_id)] [(KStr "$set", PDict fields)].

(** the name of the type of a value, as messages have it *)
Definition type_name (v : pyval) : string :=
  match v with
  | PNone => "NoneType"
  | PBool _ => "bool"
  | PInt _ => "int"
  | PFloat _ => "float"
  | PStr _ => "str"
  | PDatetime _ => "datetime.datetime"
  | PList _ => "list"
  | PDict _ => "dict"
  end.

(** [str(e)] of the TypeError [re.sub] raises on a text that is no
    string (the wording of CPython 3.11) *)
Definition not_a_string (text : pyval) : string :=
  "expected string or bytes-like object, got '" ++ type_name text ++ "'".

(** The stored post is a dict, so the text stage raises only where
    [re.sub] does, on a [raw_text] that is no string; what is raised
    after it is raised by the driver. *)
Definition process_single_post_task (sync_client : option db) (post_id : string)
  : option db * pyval :=
  match sync_client with
  | None => (None, task_error "'NoneType' object is not subscriptable")
  | Some d =>
      match find_one d POSTS_COLLECTION [(KStr "post_id", PStr post_id)] with
      | Raise e => (Some d, task_error (exn_text e))
      | Ok None => (Some d, task_error "Post not found")
      | Ok (Some doc) =>
          if negb (truthy (PDict doc)) then (Some d, task_error "Post not found")
          else
            match enrich_text (PDict doc) with
            | Raise _ =>
                let raw_text :=
                  match dict_get doc "raw_text" with
                  | Some text => text
                  | None => PStr ""
                  end in
                (Some d, task_error (not_a_string raw_text))
            | Ok _ =>
                match reprocess_post d post_id (PDict doc) with
                | Ok d' =>
                    (Some d', PDict [(KStr "status", PStr "completed");
                                     (KStr "post_id", PStr post_id)])
                | Raise e => (Some d, task_error (exn_text e))
                end
            end
      end
  end.

End WithReader.

End SinglePost.

(* ================================================================== *)
(** ** [routes/export.py] *)

Module ExportRoute.
Import Py Strptime Env Queries Spec.

Inductive PlatformType := TWITTER | INSTAGRAM | YOUTUBE | FACEBOOK | LINKEDIN.

Definition platform_value (p : PlatformType) : string :=
  match p with
  | TWITTER => "twitter"
  | INSTAGRAM => "instagram"
  | YOUTUBE => "youtube"
  | FACEBOOK => "facebook"
  | LINKEDIN => "linkedin"
  end.

Inductive SentimentType := POSITIVE | NEGATIVE | NEUTRAL.

Definition sentiment_value (s : SentimentType) : string :=
  match s with
  | POSITIVE => "positive"
  | NEGATIVE => "negative"
  | NEUTRAL => "neutral"
  end.

Record DataFilter := mkDataFilter {
  platform : option PlatformType;
  sentiment : option SentimentType;
  date_from : option datetime;
  date_to : option datetime;
  language : option string;
  has_media : option bool;
  search_text : option string
}.

Record ExportRequest := mkExportRequest {
  format : string;
  filters : option DataFilter;
  fields : option (list string)
}.

(** an optional string that is present and not empty *)
Definition given (o : option string) : bool :=
  match o with Some s => truthy (PStr s) | None => false end.

Definition media_filter (has_media : bool) : pyval :=
  if has_media then PDict [(KStr "$ne", PList [])] else PList [].

Definition text_search (search_text : string) : pyval :=
  PList [PDict [(KStr "raw_text",
                 PDict [(KStr "$regex", PStr search_text);
                        (KStr "$options", PStr "i")])];
         PDict [(KStr "cleaned_text",
                 PDict [(KStr "$regex", PStr search_text);
                        (KStr "$options", PStr "i")])]].

(** the date range of a query, from the bounds that are there *)
Definition date_range (from to : option datetime) : pydict :=
  let date_filter := [] in
  let date_filter :=
    match from with
    | Some d => dict_set date_filter "$gte" (PDatetime d)
    | None => date_filter
    end in
  match to with
  | Some d => dict_set date_filter "$lte" (PDatetime d)
  | None => date_filter
  end.

Definition build_filter_query (filters : option DataFilter) : pydict :=
  match filters with
  | None => []
  | Some filters =>
      let filter_query := [] in
      let filter_query :=
        match platform filters with
        | Some p => dict_set filter_query "platform" (PStr (platform_value p))
        | None => filter_query
        end in
      let filter_query :=
        match sentiment filters with
        | Some s => dict_set filter_query "sentiment" (PStr (sentiment_value s))
        | None => filter_query
        end in
      let filter_query :=
        if given (language filters)
        then dict_set filter_query "language"
               (PStr (match language filters with Some l => l | None => "" end))
        else filter_query in
      let filter_query :=
        match has_media filters with
        | Some b => dict_set filter_query "media" (media_filter b)
        | None => filter_query
        end in
      let filter_query :=
        match date_from filters, date_to filters with
        | None, None => filter_query
        | from, to => dict_set filter_query "timestamp" (PDict (date_range from to))
        end in
      if given (search_text filters)
      then dict_set filter_query "$or"
             (text_search (match search_text filters with Some s => s | None => "" end))
      else filter_query
  end.

Definition default_headers : list string :=
  ["post_id"; "platform"; "raw_text"; "cleaned_text"; "language";
   "timestamp"; "user_id"; "sentiment"; "entities"; "media_count"].

(** [datetime.isoformat()] *)
Definition isoformat (d : datetime) : string :=
  pad0 4 (year d) ++ "-" ++ pad0 2 (month d) ++ "-" ++ pad0 2 (day d)
  ++ "T" ++ pad0 2 (hour d) ++ ":" ++ pad0 2 (minute d)
  ++ ":" ++ pad0 2 (second d)
  ++ (if (microsecond d =? 0)%Z then "" else "." ++ pad0 6 (microsecond d)).

(** one cell of a CSV row: what the loop over the headers appends *)
Definition csv_cell (post : pydict) (field : string) : res pyval :=
  if field =? "media_count" then
    n <- py_len (get_or post "media" (PList [])) ;;
    Ok (PInt (Z.of_nat n))
  else if field =? "entities" then
    items <- py_iter (get_or post "entities" (PList [])) ;;
    joined <- py_join ", " items ;;
    Ok (PStr joined)
  else if field =? "timestamp" then
    let timestamp := get_or post "timestamp" PNone in
    if truthy timestamp then
      match timestamp with
      | PDatetime d => Ok (PStr (isoformat d))
      | _ => Ok (PStr (py_str timestamp))
      end
    else Ok (PStr "")
  else Ok (PStr (py_str (get_or post field (PStr "")))).

Fixpoint csv_row (post : pydict) (headers : list string) : res (list pyval) :=
  match headers with
  | [] => Ok []
  | field :: rest =>
      cell <- csv_cell post field ;;
      row <- csv_row post rest ;;
      Ok (cell :: row)
  end.

Fixpoint csv_rows (posts : list pydict) (headers : list string)
  : res (list (list pyval)) :=
  match posts with
  | [] => Ok []
  | post :: rest =>
      row <- csv_row post headers ;;
      rows <- csv_rows rest headers ;;
      Ok (row :: rows)
  end.

(** the headers of an export: the requested fields, or the default
    ones when none is requested *)
Definition export_headers (request : ExportRequest) : list string :=
  match fields request with
  | Some (f :: fs) => f :: fs
  | _ => default_headers
  end.

(** the fields of a post that were asked for, in the order asked *)
Fixpoint filtered_post (post : pydict) (fields : list string) (acc : pydict)
  : pydict :=
  match fields with
  | [] => acc
  | field :: rest =>
      match dict_get post field with
      | Some v => filtered_post post rest (dict_set acc field v)
      | None => filtered_post post rest acc
      end
  end.

Section WithReader.
Context `{Q : Reader}.

(** [export_csv], up to the rows handed to [csv.writer]: the header
    row, then one row per post *)
Definition export_csv (d : db) (export_request : ExportRequest)
  : res (list (list pyval)) :=
  let filter_query := build_filter_query (filters export_request) in
  posts <- find_docs d POSTS_COLLECTION filter_query ;;
  match posts with
  | [] => Raise (HTTPException 404)
  | _ =>
      let headers := export_headers export_request in
      rows <- csv_rows posts headers ;;
      Ok (map PStr headers :: rows)
  end.

(** [export_json], up to the list handed to [json.dumps] *)
Definition export_json (d : db) (export_request : ExportRequest)
  : res (list pydict) :=
  let filter_query := build_filter_query (filters export_request) in
  posts <- find_docs d POSTS_COLLECTION filter_query ;;
  match posts with
  | [] => Raise (HTTPException 404)
  | _ =>
      match fields export_request with
      | Some (f :: fs) =>
          Ok (map (fun post => filtered_post post (f :: fs) []) posts)
      | _ => Ok posts
      end
  end.

End WithReader.

End ExportRoute.

(* ================================================================== *)
(** ** [routes/data.py] and [routes/analytics.py] *)

Module DataRoute.
Import Py Strptime Env Queries ExportRoute.

(** [datetime.strptime(s, "%Y-%m-%d")] under [except ValueError] with
    the handler [on_error] *)
Definition parse_day (s : string) (on_error : res (option datetime))
  : res (option datetime) :=
  match strptime (PStr s) "%Y-%m-%d" with
  | Ok d => Ok (Some d)
  | Raise e => if is_ValueError e then on_error else Raise e
  end.

(** the filter [get_posts] builds from its query parameters; a date
    that does not parse ends the request with status 400 *)
Definition posts_query (platform sentiment date_from date_to language : option string)
  (has_media : option bool) (search_text : option string) : res pydict :=
  let filter_query := [] in
  let filter_query :=
    if given platform
    then dict_set filter_query "platform"
           (PStr (match platform with Some s => s | None => "" end))
    else filter_query in
  let filter_query :=
    if given sentiment
    then dict_set filter_query "sentiment"
           (PStr (match sentiment with Some s => s | None => "" end))
    else filter_query in
  let filter_query :=
    if given language
    then dict_set filter_query "language"
           (PStr (match language with Some s => s | None => "" end))
    else filter_query in
  let filter_query :=
    match has_media with
    | Some b => dict_set filter_query "media" (media_filter b)
    | None => filter_query
    end in
  filter_query <-
    (if given date_from || given date_to then
       from <- (if given date_from
                then parse_day (match date_from with Some s => s | None => "" end)
                       (Raise (HTTPException 400))
                else Ok None) ;;
       to <- (if given date_to
              then parse_day (match date_to with Some s => s | None => "" end)
                     (Raise (HTTPException 400))
              else Ok None) ;;
       Ok (dict_set filter_query "timestamp" (PDict (date_range from to)))
     else Ok filter_query) ;;
  if given search_text
  then Ok (dict_set filter_query "$or"
             (text_search (match search_text with Some s => s | None => "" end)))
  else Ok filter_query.

(** the filter of [get_dashboard_analytics]: a date that does not
    parse is left out *)
Definition dashboard_filter (date_from date_to : option string) : res pydict :=
  from <- (if given date_from
           then parse_day (match date_from with Some s => s | None => "" end)
                  (Ok None)
           else Ok None) ;;
  to <- (if given date_to
         then parse_day (match date_to with Some s => s | None => "" end)
                (Ok None)
         else Ok None) ;;
  let date_filter := date_range from to in
  let filter_query := [] in
  if truthy (PDict date_filter)
  then Ok (dict_set filter_query "timestamp" (PDict date_filter))
  else Ok filter_query.

(** [del d[k]] for a key that is there *)
Definition dict_del (d : pydict) (k : pykey) : pydict :=
  filter (fun kv => negb (key_eqb (fst kv) k)) d.

Section WithReader.
Context `{Q : Reader}.

Definition get_posts (d : db)
  (platform sentiment date_from date_to language : option string)
  (has_media : option bool) (search_text : option string) (limit skip : Z)
  : res (list pydict) :=
  filter_query <- posts_query platform sentiment date_from date_to language
                    has_media search_text ;;
  find_page d POSTS_COLLECTION filter_query skip limit.

(** the store after the request, with the answer or the exception *)
Definition update_post (d : db) (post_id : string) (post_data : pydict)
  : db * res pyval :=
  let post_data :=
    match dict_get post_data "_id" with
    | Some _ => dict_del post_data "_id"
    | None => post_data
    end in
  match update_one_matched d POSTS_COLLECTION
          [(KStr "post_id", PStr post_id)] [(KStr "$set", PDict post_data)] with
  | Raise e => (d, Raise e)
  | Ok (d', matched_count) =>
      if (matched_count =? 0)%nat then (d', Raise (HTTPException 404))
      else (d', Ok (PDict [(KStr "message", PStr "Post updated successfully")]))
  end.

End WithReader.

End DataRoute.

(* ================================================================== *)
(** ** Shapes and predicates the further properties are stated with *)

Module Shapes.
Import Py Strptime Env Tasks Upload Spec.

(** a media item as [parse_media] builds it *)
Definition media_item (m : pyval) : Prop :=
  exists type url filename,
    m = PDict [(KStr "type", type); (KStr "url", url);
               (KStr "filename", filename)].

(** the canonical post: the seven fields in order, the text a string
    that is not blank, the media a list of media items *)
Definition canonical_post (p : pyval) : Prop :=
  exists platform post_id text timestamp user_id media metadata,
    p = PDict [(KStr "platform", platform);
               (KStr "post_id", PStr post_id);
               (KStr "raw_text", PStr text);
               (KStr "timestamp", PDatetime timestamp);
               (KStr "user_id", PStr user_id);
               (KStr "media", PList media);
               (KStr "metadata", PDict metadata)]
    /\ has_text text = true
    /\ Forall media_item media.

(** a post the worker can take through both enrichment stages: its
    text is a string, its media a list of media items, and it has a
    string [post_id] *)
Definition ready_post (p : pyval) : Prop :=
  exists d text media post_id,
    p = PDict d
    /\ dict_get d "raw_text" = Some (PStr text)
    /\ dict_get d "media" = Some (PList media)
    /\ Forall media_item media
    /\ dict_get d "post_id" = Some (PStr post_id).

(** every whitespace character is a single space between two other
    characters; [after_space] tells that a space, or the start of the
    text, comes just before *)
Fixpoint single_spaced (after_space : bool) (s : string) : bool :=
  match s with
  | EmptyString => true
  | String c t =>
      if isspace c
      then (c =? " ")%char && negb after_space && single_spaced true t
      else single_spaced false t
  end.

Fixpoint no_trailing_space (s : string) : bool :=
  match s with
  | EmptyString => true
  | String c EmptyString => negb (isspace c)
  | String _ t => no_trailing_space t
  end.

(** words separated by single spaces, nothing around them *)
Definition tidy (s : string) : bool :=
  single_spaced true s && no_trailing_space s.

(** a walked file the archive parser reads *)
Definition is_data_file (entry : string * string) : bool :=
  endswith (snd entry) ".json" || endswith (snd entry) ".csv".

(** the keys [build_filter_query] sets for a filter, in order *)
Definition filter_keys (f : ExportRoute.DataFilter) : list string :=
  ((match ExportRoute.platform f with Some _ => ["platform"] | None => [] end)
   ++ (match ExportRoute.sentiment f with Some _ => ["sentiment"] | None => [] end)
   ++ (if ExportRoute.given (ExportRoute.language f) then ["language"] else [])
   ++ (match ExportRoute.has_media f with Some _ => ["media"] | None => [] end)
   ++ (match ExportRoute.date_from f, ExportRoute.date_to f with
       | None, None => []
       | _, _ => ["timestamp"]
       end)
   ++ (if ExportRoute.given (ExportRoute.search_text f) then ["$or"] else []))%list.

(** a date parameter of [get_posts] that stands for the bound [d] of a
    filter: absent or empty for no bound, else a string that parses to
    the bound *)
Definition date_parameter (s : option string) (d : option datetime) : Prop :=
  match d with
  | None => ExportRoute.given s = false
  | Some d =>
      exists text,
        s = Some text /\ ExportRoute.given s = true
        /\ strptime (PStr text) "%Y-%m-%d" = Ok d
  end.

(** a cell [csv.writer] is given: a string or a number *)
Definition csv_value (v : pyval) : bool :=
  match v with PStr _ | PInt _ => true | _ => false end.

(** the boolean of [a in b] for string lists *)
Definition mem_string (x : string) (l : list string) : bool :=
  existsb (String.eqb x) l.

(** a value [len] takes *)
Definition countable (v : pyval) : bool :=
  match v with PStr _ | PList _ | PDict _ => true | _ => false end.

(** a value [", ".join] takes: an iterable that yields strings only *)
Definition joinable (v : pyval) : bool :=
  match v with
  | PList l => forallb is_str l
  | PStr _ => true
  | PDict d =>
      forallb (fun kv => match fst kv with KStr _ => true | KNone => false end) d
  | _ => false
  end.

(** whether the CSV export has a cell for the field of the post *)
Definition cell_ok (post : pydict) (field : string) : bool :=
  if field =? "media_count" then countable (get_or post "media" (PList []))
  else if field =? "entities" then joinable (get_or post "entities" (PList []))
  else true.

(** a post the CSV export has a row for under the headers: when the
    media count is asked for, its media has a length, and when the
    entities are asked for, they can be joined *)
Definition exportable (headers : list string) (post : pydict) : bool :=
  (negb (mem_string "media_count" headers)
   || countable (get_or post "media" (PList [])))
  && (negb (mem_string "entities" headers)
      || joinable (get_or post "entities" (PList []))).

End Shapes.


(* ================================================================== *)
(** ** Runtimes for the read and update paths *)

Module ReaderFixture.
Import Py Env Upload Fixture Queries DataRoute.

(** a filter of string equalities holds of a document *)
Definition doc_matches (filter doc : pydict) : bool :=
  forallb (fun kv => match snd kv, dict_get doc (fst kv) with
                     | PStr a, Some (PStr b) => (a =? b)
                     | _, _ => false
                     end) filter.

Definition docs_of (d : mem_db) (collection : string) (filter : pydict)
  : list pydict :=
  flat_map (fun entry => match entry with
                         | (c, PDict doc) =>
                             if (c =? collection) && doc_matches filter doc
                             then [doc] else []
                         | _ => []
                         end) d.

(** [str(e)] for the exceptions of the in-memory driver, which raises
    with the name of the class as the message; an exception made
    without a message has the empty text *)
Definition driver_message (e : exn) : string :=
  match e with
  | LibError cls => cls
  | ValueError msg => msg
  | _ => ""
  end.

(** queries on [mem], for filters made of string equalities *)
#[export] Instance mem_reader : Reader (R := mem) := {|
  find_one := fun d c filter =>
    Ok (match docs_of d c filter with doc :: _ => Some doc | [] => None end);
  find_docs := fun d c filter =>
    Ok (map (fun doc => dict_del doc "_id") (docs_of d c filter));
  find_page := fun d c filter skip limit =>
    Ok (firstn (Z.to_nat limit)
          (skipn (Z.to_nat skip)
             (map (fun doc => dict_del doc "_id") (docs_of d c filter))));
  update_one_matched := fun d c filter update =>
    match docs_of d c filter, dict_get filter "post_id", dict_get update "$set" with
    | _ :: _, Some post_id, Some (PDict fields) =>
        Ok (set_first c post_id fields d, 1%nat)
    | _, _, _ => Ok (d, 0%nat)
    end;
  exn_text := driver_message
|}.

(** a post as the upload stores it *)
Definition uploaded_doc : pydict :=
  [(KStr "platform", PStr "twitter");
   (KStr "post_id", PStr "2");
   (KStr "raw_text", PStr "good news from the tech fair");
   (KStr "timestamp", PDatetime (mkDatetime 2024 1 15 0 0 0 0));
   (KStr "user_id", PStr "ada");
   (KStr "media", PList [PDict [(KStr "type", PStr "image");
                                (KStr "url", PStr "a.png");
                                (KStr "filename", PStr "")]]);
   (KStr "metadata", PDict [])].

(** a post as the worker leaves it in the store *)
Definition enriched_doc : pydict :=
  [(KStr "post_id", PStr "2"); (KStr "raw_text", PStr "good day");
   (KStr "cleaned_text", PStr "good day");
   (KStr "language", PStr "en");
   (KStr "entities", PList []);
   (KStr "sentiment", PStr "positive");
   (KStr "sentiment_confidence", PFloat "0.7")].

End ReaderFixture.

(* ================================================================== *)
(** ** Proofs *)

Import Py Strptime Env Tasks Upload Fixture Spec.

Lemma py_get_dict (post : pydict) (k : string) (default : pyval) :
  py_get (PDict post) k default = Ok (get_or post k default).
Proof. reflexivity. Qed.

Section Media.

Lemma parse_media_items_list (items : list pyval) :
  parse_media_items items = Ok (flat_map media_entry items).
Proof.
  induction items as [|item rest IH]; [reflexivity|].
  destruct item; cbn [parse_media_items is_dict is_str py_get bind];
    rewrite IH; reflexivity.
Qed.

Lemma parse_media_list (media_data : pyval) :
  parse_media media_data = Ok (media_list media_data).
Proof.
  unfold parse_media.
  destruct media_data as [| | | |s| |items|]; try reflexivity;
    try (destruct (negb _); reflexivity).
  - cbn [truthy media_list]. rewrite negb_involutive.
    destruct (s =? ""); reflexivity.
  - destruct items; [reflexivity|]. cbn [truthy negb media_list].
    apply parse_media_items_list.
Qed.

(** C4, as amended: [parse_media] returns on every value and never
    raises. A list gives the items of its entries in order: a dict
    entry its type (default "image"), its url (from url, else src) and
    its filename; a string entry an image item with that url; any other
    entry nothing. A single non-empty string gives one image item. The
    empty string and every other value give the empty list. *)
Theorem parse_media_total (media_data : pyval) :
  parse_media media_data = Ok (media_list media_data)
  /\ (forall items, media_data = PList items ->
        parse_media media_data = Ok (flat_map media_entry items))
  /\ (forall s, media_data = PStr s -> s <> "" ->
        parse_media media_data = Ok [image_item (PStr s)])
  /\ (is_list media_data = false ->
      is_str media_data = false \/ media_data = PStr "" ->
      parse_media media_data = Ok []).
Proof.
  repeat split.
  - apply parse_media_list.
  - intros items ->. apply parse_media_list.
  - intros s -> Hs. rewrite parse_media_list. cbn [media_list].
    destruct (s =? "") eqn:E; [|reflexivity].
    apply String.eqb_eq in E. contradiction.
  - intros Hl Hs. rewrite parse_media_list.
    destruct Hs as [Hs| ->]; [|reflexivity].
    destruct media_data; try reflexivity; discriminate.
Qed.

Lemma parse_media_total_witness :
  parse_media (PList [PDict [(KStr "src", PStr "a.png")]; PStr "b.png"; PInt 3])
  = Ok [PDict [(KStr "type", PStr "image"); (KStr "url", PStr "a.png");
               (KStr "filename", PStr "")];
        image_item (PStr "b.png")]
  /\ parse_media (PStr "c.png") = Ok [image_item (PStr "c.png")]
  /\ parse_media PNone = Ok [].
Proof.
  split; [|split].
  - exact (proj1 (proj2 (parse_media_total _)) _ eq_refl).
  - apply (proj1 (proj2 (proj2 (parse_media_total _))) "c.png" eq_refl).
    discriminate.
  - apply (proj2 (proj2 (proj2 (parse_media_total PNone))) eq_refl).
    left. reflexivity.
Defined.

(** C4 as first stated fails on the empty string, which is taken for
    an absent value. *)
Lemma parse_media_empty_string_counterexample :
  ~ (forall s : string, parse_media (PStr s) = Ok [image_item (PStr s)]).
Proof.
  intros H. specialize (H ""). discriminate H.
Qed.

End Media.

Section Timestamps.

Lemma strptime_str_raises_ValueError (s fmt : string) (e : exn) :
  strptime (PStr s) fmt = Raise e -> is_ValueError e = true.
Proof.
  unfold strptime.
  destruct (negb (forallb known_directive (tokens false fmt))).
  - intros H; inversion H; reflexivity.
  - destruct (regex_match _ _ _) as [[d rest]|].
    + destruct (negb (rest =? "")).
      * intros H; inversion H; reflexivity.
      * destruct (valid_datetime d); intros H; inversion H; reflexivity.
    + intros H; inversion H; reflexivity.
Qed.

Lemma try_formats_str (now : datetime) (s : string) (fmts : list string) :
  try_formats now (PStr s) fmts
  = Ok (match first_parsing s fmts with Some d => d | None => now end).
Proof.
  induction fmts as [|fmt rest IH]; [reflexivity|].
  cbn [try_formats first_parsing].
  destruct (strptime (PStr s) fmt) as [d|e] eqn:E; [reflexivity|].
  rewrite (strptime_str_raises_ValueError _ _ _ E). exact IH.
Qed.

Lemma no_format_parses_empty : first_parsing "" formats = None.
Proof. vm_compute. reflexivity. Qed.

Lemma parse_timestamp_str (now : datetime) (s : string) :
  parse_timestamp now (PStr s)
  = Ok (match first_parsing s formats with Some d => d | None => now end).
Proof.
  unfold parse_timestamp. destruct s as [|c t].
  - rewrite no_format_parses_empty. reflexivity.
  - cbn [truthy String.eqb negb]. apply try_formats_str.
Qed.

Lemma parse_timestamp_returns (now : datetime) (v : pyval) :
  empty_or_str v = true ->
  parse_timestamp now v = Ok (timestamp_of now v).
Proof.
  unfold empty_or_str, timestamp_of. intros H.
  destruct (truthy v) eqn:T.
  - destruct v; try discriminate H. rewrite parse_timestamp_str. reflexivity.
  - unfold parse_timestamp. rewrite T. reflexivity.
Qed.

Lemma first_parsing_none (s : string) (fmts : list string) :
  (forall fmt, In fmt fmts -> raised (strptime (PStr s) fmt) = true) ->
  first_parsing s fmts = None.
Proof.
  induction fmts as [|fmt rest IH]; intros H; [reflexivity|].
  cbn [first_parsing]. specialize (H fmt (or_introl eq_refl)) as Hf.
  destruct (strptime (PStr s) fmt); [discriminate Hf|].
  apply IH. intros f Hin. apply H. right. exact Hin.
Qed.

Lemma first_parsing_first (s : string) (before after : list string)
  (fmt : string) (d : datetime) :
  (forall f, In f before -> raised (strptime (PStr s) f) = true) ->
  strptime (PStr s) fmt = Ok d ->
  first_parsing s (before ++ fmt :: after) = Some d.
Proof.
  induction before as [|f rest IH]; intros H Hd; cbn [app first_parsing].
  - rewrite Hd. reflexivity.
  - specialize (H f (or_introl eq_refl)) as Hf.
    destruct (strptime (PStr s) f); [discriminate Hf|].
    apply IH; [|exact Hd]. intros g Hin. apply H. right. exact Hin.
Qed.

(** C3: on a string [parse_timestamp] always returns a datetime and
    never raises; the empty string and a string that none of the four
    formats parses give the current time, and otherwise the first
    format of the list that parses gives the result. *)
Theorem parse_timestamp_total_on_strings (now : datetime) (s : string) :
  parse_timestamp now (PStr s)
  = Ok (match first_parsing s formats with Some d => d | None => now end)
  /\ parse_timestamp now (PStr "") = Ok now
  /\ ((forall fmt, In fmt formats -> raised (strptime (PStr s) fmt) = true) ->
      parse_timestamp now (PStr s) = Ok now)
  /\ (forall before fmt after d,
        formats = (before ++ fmt :: after)%list ->
        (forall f, In f before -> raised (strptime (PStr s) f) = true) ->
        strptime (PStr s) fmt = Ok d ->
        parse_timestamp now (PStr s) = Ok d).
Proof.
  repeat split.
  - apply parse_timestamp_str.
  - intros H. rewrite parse_timestamp_str, (first_parsing_none _ _ H).
    reflexivity.
  - intros before fmt after d Hf Hb Hd.
    rewrite parse_timestamp_str, Hf, (first_parsing_first _ _ _ _ _ Hb Hd).
    reflexivity.
Qed.

(** what is not a string is not covered: a number raises *)
Example parse_timestamp_number (now : datetime) :
  parse_timestamp now (PInt 5) = Raise TypeError.
Proof. reflexivity. Qed.

Lemma parse_timestamp_total_on_strings_witness :
  parse_timestamp (mkDatetime 2024 6 1 12 0 0 0) (PStr "2024-01-15 10:30:00")
  = Ok (mkDatetime 2024 1 15 10 30 0 0)
  /\ parse_timestamp (mkDatetime 2024 6 1 12 0 0 0) (PStr "next week")
     = Ok (mkDatetime 2024 6 1 12 0 0 0).
Proof.
  split.
  - apply (proj2 (proj2 (proj2 (parse_timestamp_total_on_strings
             (mkDatetime 2024 6 1 12 0 0 0) "2024-01-15 10:30:00"))))
      with (before := ["%Y-%m-%dT%H:%M:%SZ"; "%Y-%m-%dT%H:%M:%S.%fZ"])
           (fmt := "%Y-%m-%d %H:%M:%S") (after := ["%Y-%m-%d"]).
    + reflexivity.
    + intros f [<-|[<-|[]]]; vm_compute; reflexivity.
    + vm_compute. reflexivity.
  - apply (proj1 (proj2 (proj2 (parse_timestamp_total_on_strings
             (mkDatetime 2024 6 1 12 0 0 0) "next week")))).
    intros f [<-|[<-|[<-|[<-|[]]]]]; vm_compute; reflexivity.
Defined.

End Timestamps.

Section Normalization.
Context `{R : Runtime}.

Lemma first_text_chain (post : pydict) :
  py_or (py_get (PDict post) "raw_text" PNone)
    (py_or (py_get (PDict post) "text" PNone)
       (py_or (py_get (PDict post) "content" PNone)
          (py_or (py_get (PDict post) "message" PNone) (Ok (PStr "")))))
  = Ok (first_text post).
Proof.
  unfold py_or, first_text. rewrite !py_get_dict. cbn [bind].
  repeat (destruct (truthy _); [reflexivity|]). reflexivity.
Qed.

Lemma post_id_chain (n : nat) (post : pydict) :
  py_or (py_get (PDict post) "post_id" PNone)
    (py_or (py_get (PDict post) "id" PNone) (Ok (PStr (uuid4 n))))
  = Ok (post_id_value n post).
Proof.
  unfold py_or, post_id_value. rewrite !py_get_dict. cbn [bind].
  repeat (destruct (truthy _); [reflexivity|]). reflexivity.
Qed.

(** the steps of [normalize_body] once the text is settled *)
Ltac normalize_from_platform post :=
  repeat (rewrite py_get_dict; cbn [bind]);
  fold (timestamp_value post);
  destruct (parse_timestamp _ (timestamp_value post)) as [?t|?e];
  [cbn [bind]|reflexivity];
  repeat (rewrite py_get_dict; cbn [bind]);
  fold (user_value post) (media_value post);
  rewrite parse_media_list; cbn [bind py_items];
  unfold field; cbn [dict_get key_eqb String.eqb Ascii.eqb Bool.eqb];
  match goal with
  | |- context [py_strip ?r] => destruct (py_strip r) as [?st|?e]
  end;
  [cbn [bind truthy]; rewrite negb_involutive; reflexivity|reflexivity].

(** the body of [normalize_post_data] on a record, stage by stage *)
Lemma normalize_body_dict (n : nat) (post : pydict) :
  normalize_body n (PDict post) =
  (raw_text <- resolved_text post ;;
   timestamp <- parse_timestamp (utcnow n) (timestamp_value post) ;;
   stripped <- py_strip raw_text ;;
   if stripped =? "" then Ok None
   else Ok (Some (normalized n post raw_text timestamp))).
Proof.
  unfold normalize_body. rewrite post_id_chain, first_text_chain.
  cbn [bind]. unfold resolved_text.
  destruct (truthy (first_text post)); cbn [negb bind].
  - normalize_from_platform post.
  - unfold summary_parts. repeat (rewrite py_get_dict; cbn [bind]).
    destruct (filter truthy _) as [|p ps].
    + cbn [bind]. normalize_from_platform post.
    + destruct (py_join " | " (p :: ps)) as [joined|e]; cbn [bind];
        [normalize_from_platform post|reflexivity].
Qed.

Lemma strip_keeps_text (c : ascii) (t : string) :
  isspace c = false -> strip (String c t) <> "".
Proof.
  intros H. unfold strip. cbn [lstrip]. rewrite H. cbn [rstrip].
  destruct (rstrip t); [rewrite H|]; discriminate.
Qed.

Lemma normalize_post_data_dict (n : nat) (post : pydict) (raw_text : pyval)
  (s : string) :
  resolved_text post = Ok raw_text ->
  empty_or_str (timestamp_value post) = true ->
  py_strip raw_text = Ok s -> s <> "" ->
  normalize_post_data n (PDict post)
  = Some (normalized n post raw_text
            (timestamp_of (utcnow n) (timestamp_value post))).
Proof.
  intros Ht Hts Hs Hne. unfold normalize_post_data.
  rewrite normalize_body_dict, Ht. cbn [bind].
  rewrite (parse_timestamp_returns _ _ Hts). cbn [bind]. rewrite Hs. cbn [bind].
  destruct (s =? "") eqn:E; [|reflexivity].
  apply String.eqb_eq in E. contradiction.
Qed.

Lemma normalize_rejects_non_dict (n : nat) (v : pyval) :
  is_dict v = false -> normalize_post_data n v = None.
Proof.
  destruct v; try discriminate; reflexivity.
Qed.

Lemma first_text_empty (post : pydict) :
  (forall k, In k text_keys -> absent_or_empty post k) ->
  truthy (first_text post) = false.
Proof.
  intros H. unfold first_text.
  rewrite (H "raw_text"), (H "text"), (H "content"), (H "message");
    cbn; auto 10.
Qed.

(** C1, as amended: a record with no text candidate and no title,
    description or caption is not rejected for want of text. Its
    [raw_text] is synthesized as "Post from <platform> platform", and it
    is accepted whenever its timestamp value is absent, empty or a
    string. *)
Theorem normalize_without_text_synthesizes (n : nat) (post : pydict) :
  (forall k, In k text_keys -> absent_or_empty post k) ->
  (forall k, In k summary_keys -> absent post k) ->
  empty_or_str (timestamp_value post) = true ->
  normalize_post_data n (PDict post)
  = Some (normalized n post (synthesized_text post)
            (timestamp_of (utcnow n) (timestamp_value post))).
Proof.
  intros Htext Hsum Hts.
  apply normalize_post_data_dict
    with (s := strip ("Post from "
                        ++ py_str (get_or post "platform" (PStr "unknown"))
                        ++ " platform")); auto.
  - unfold resolved_text. rewrite (first_text_empty _ Htext).
    unfold get_or at 1 2 3.
    rewrite (Hsum "title"), (Hsum "description"), (Hsum "caption");
      cbn; auto.
  - apply strip_keeps_text. reflexivity.
Qed.

(** C2, as amended: a record whose first non-empty text candidate is a
    string with a character that is not whitespace, and whose
    timestamp value is absent, empty or a string, is never rejected;
    the post keeps that string as its [raw_text]. *)
Theorem normalize_keeps_text (n : nat) (post : pydict) (s : string) :
  first_text post = PStr s ->
  has_text s = true ->
  empty_or_str (timestamp_value post) = true ->
  normalize_post_data n (PDict post)
  = Some (normalized n post (PStr s)
            (timestamp_of (utcnow n) (timestamp_value post))).
Proof.
  intros Hfirst Htext Hts. unfold has_text in Htext.
  apply negb_true_iff in Htext.
  apply normalize_post_data_dict with (s := strip s); auto.
  - unfold resolved_text. rewrite Hfirst.
    destruct s; [discriminate Htext|reflexivity].
  - intros E. rewrite E in Htext. discriminate.
Qed.


(** an accepted post is a dict whose [raw_text] is a string that is
    not blank: what the worker reads from it can be processed *)
Lemma accepted_post_has_text (n : nat) (v p : pyval) :
  normalize_post_data n v = Some p ->
  is_dict p = true
  /\ exists s, py_get p "raw_text" (PStr "") = Ok (PStr s) /\ has_text s = true.
Proof.
  intros H. destruct (is_dict v) eqn:D.
  2:{ rewrite normalize_rejects_non_dict in H by assumption. discriminate. }
  destruct v as [| | | | | | |post]; try discriminate D.
  unfold normalize_post_data in H. rewrite normalize_body_dict in H.
  destruct (resolved_text post) as [raw_text|e]; [|discriminate H].
  cbn [bind] in H.
  destruct (parse_timestamp _ _) as [t|e]; [|discriminate H].
  cbn [bind] in H.
  destruct (py_strip raw_text) as [st|e] eqn:St; [|discriminate H].
  cbn [bind] in H.
  destruct (st =? "") eqn:E; [discriminate H|].
  injection H as <-. split; [reflexivity|].
  destruct raw_text as [| | | |s| | |]; try discriminate St.
  exists s. split; [reflexivity|].
  injection St as <-. unfold has_text. rewrite E. reflexivity.
Qed.

End Normalization.

(** C1 as first stated fails: the record whose only field is an empty
    [raw_text] is accepted, with a synthesized text. *)
Lemma normalize_without_text_counterexample :
  ~ (forall (R : Runtime) (n : nat) (post : pydict),
        (forall k, In k text_keys -> absent_or_empty post k) ->
        (forall k, In k summary_keys -> absent post k) ->
        normalize_post_data n (PDict post) = None).
Proof.
  intros H.
  specialize (H mem 0%nat [(KStr "raw_text", PStr "")]).
  assert (E : normalize_post_data (R := mem) 0 (PDict [(KStr "raw_text", PStr "")])
              = None).
  { apply H.
    - intros k [<-|[<-|[<-|[<-|[]]]]]; reflexivity.
    - intros k [<-|[<-|[<-|[]]]]; reflexivity. }
  vm_compute in E. discriminate E.
Qed.

Lemma normalize_without_text_synthesizes_witness :
  normalize_post_data (R := mem) 0 (PDict [(KStr "raw_text", PStr "")])
  = Some (PDict [(KStr "platform", PStr "unknown");
                 (KStr "post_id", PStr "uuid-0");
                 (KStr "raw_text", PStr "Post from unknown platform");
                 (KStr "timestamp", PDatetime (mkDatetime 2024 6 1 12 0 0 0));
                 (KStr "user_id", PStr "");
                 (KStr "media", PList []);
                 (KStr "metadata", PDict [])]).
Proof.
  apply (normalize_without_text_synthesizes (R := mem) 0
           [(KStr "raw_text", PStr "")]).
  - intros k [<-|[<-|[<-|[<-|[]]]]]; reflexivity.
  - intros k [<-|[<-|[<-|[]]]]; reflexivity.
  - reflexivity.
Defined.

(** C2 as first stated fails: a text of blanks is a non-empty string,
    and the record is rejected. *)
Lemma normalize_keeps_text_counterexample :
  ~ (forall (R : Runtime) (n : nat) (post : pydict),
        (exists k s, In k text_keys /\ dict_get post k = Some (PStr s) /\ s <> "") ->
        normalize_post_data n (PDict post) <> None).
Proof.
  intros H.
  apply (H mem 0%nat [(KStr "raw_text", PStr "   ")]).
  - exists "raw_text", "   ". repeat split.
    + left. reflexivity.
    + discriminate.
  - vm_compute. reflexivity.
Qed.

Lemma normalize_keeps_text_witness :
  normalize_post_data (R := mem) 7
    (PDict [(KStr "raw_text", PStr ""); (KStr "content", PStr "hi there");
            (KStr "date", PStr "2024-01-15")])
  = Some (PDict [(KStr "platform", PStr "unknown");
                 (KStr "post_id", PStr "uuid-7");
                 (KStr "raw_text", PStr "hi there");
                 (KStr "timestamp", PDatetime (mkDatetime 2024 1 15 0 0 0 0));
                 (KStr "user_id", PStr "");
                 (KStr "media", PList []);
                 (KStr "metadata", PDict [])]).
Proof.
  apply (normalize_keeps_text (R := mem) 7
           [(KStr "raw_text", PStr ""); (KStr "content", PStr "hi there");
            (KStr "date", PStr "2024-01-15")] "hi there");
    vm_compute; reflexivity.
Defined.


(** *** The worker *)

Section Dictionaries.

Lemma key_eqb_eq (a b : pykey) : key_eqb a b = true <-> a = b.
Proof.
  destruct a, b; cbn; split; intros H; try discriminate; try reflexivity.
  - apply String.eqb_eq in H. congruence.
  - injection H as ->. apply String.eqb_refl.
Qed.

Lemma dict_get_set_same (d : pydict) (k : pykey) (v : pyval) :
  dict_get (dict_set d k v) k = Some v.
Proof.
  assert (Hk : key_eqb k k = true) by (apply key_eqb_eq; reflexivity).
  induction d as [|[k' v'] t IH]; cbn [dict_set dict_get].
  - rewrite Hk. reflexivity.
  - destruct (key_eqb k' k) eqn:E; cbn [dict_get]; rewrite E; auto.
Qed.

Lemma dict_get_set_other (d : pydict) (k k' : pykey) (v : pyval) :
  key_eqb k k' = false ->
  dict_get (dict_set d k v) k' = dict_get d k'.
Proof.
  intros Hk. induction d as [|[k0 v0] t IH]; cbn [dict_set dict_get].
  - rewrite Hk. reflexivity.
  - destruct (key_eqb k0 k) eqn:E; cbn [dict_get].
    + apply key_eqb_eq in E. subst k0. rewrite Hk. reflexivity.
    + destruct (key_eqb k0 k'); auto.
Qed.

(** binding a key to the value it holds changes nothing *)
Lemma dict_set_same (d : pydict) (k : pykey) (v : pyval) :
  dict_get d k = Some v -> dict_set d k v = d.
Proof.
  induction d as [|[k' v'] t IH]; cbn [dict_set dict_get]; [discriminate|].
  destruct (key_eqb k' k).
  - intros H. injection H as ->. reflexivity.
  - intros H. rewrite (IH H). reflexivity.
Qed.

End Dictionaries.

Ltac get_through_sets :=
  repeat (rewrite dict_get_set_other by reflexivity);
  first [apply dict_get_set_same | assumption | idtac].

Section TextEnrichment.

Lemma process_text_simple_returns (text : string) :
  exists cleaned entities sentiment confidence,
    process_text_simple (PStr text)
    = Ok [(KStr "cleaned_text", PStr cleaned);
          (KStr "language", PStr "en");
          (KStr "entities", PList entities);
          (KStr "sentiment", PStr sentiment);
          (KStr "sentiment_confidence", PFloat confidence)]
    /\ In sentiment ["positive"; "negative"; "neutral"].
Proof.
  unfold process_text_simple.
  destruct (_ <? _)%nat; [|destruct (_ <? _)%nat];
    do 4 eexists; (split; [reflexivity|]); cbn; auto.
Qed.

Lemma enrich_text_again (post once : pyval) :
  enrich_text post = Ok once -> enrich_text once = Ok once.
Proof.
  unfold enrich_text.
  destruct post as [| | | | | | |d]; try discriminate.
  rewrite py_get_dict. cbn [bind].
  destruct (process_text_simple (get_or d "raw_text" (PStr ""))) as [r|e] eqn:E;
    [|discriminate].
  cbn [bind py_update]. intros H. injection H as <-.
  rewrite py_get_dict.
  match goal with
  | |- context [get_or ?x "raw_text" (PStr "")] =>
      assert (Hraw : get_or x "raw_text" (PStr "") = get_or d "raw_text" (PStr ""))
  end.
  { unfold get_or. repeat (rewrite dict_get_set_other by reflexivity).
    reflexivity. }
  rewrite Hraw. cbn [bind]. rewrite E. cbn [bind py_update].
  do 2 f_equal. unfold dict_update. cbn [fold_left fst snd].
  rewrite (dict_set_same _ "cleaned_text") by get_through_sets.
  rewrite (dict_set_same _ "language") by get_through_sets.
  rewrite (dict_set_same _ "entities") by get_through_sets.
  rewrite (dict_set_same _ "sentiment") by get_through_sets.
  rewrite (dict_set_same _ "sentiment_confidence") by get_through_sets.
  reflexivity.
Qed.

Lemma enrich_text_fields (post once : pyval) (text : string) (r : pydict) :
  py_get post "raw_text" (PStr "") = Ok (PStr text) ->
  process_text_simple (PStr text) = Ok r ->
  enrich_text post = Ok once ->
  forall k, In k enrichment_keys -> py_get once k PNone = Ok (field r k).
Proof.
  intros Hraw Hr. unfold enrich_text. rewrite Hraw. cbn [bind].
  rewrite Hr. cbn [bind].
  destruct post as [| | | | | | |d]; try discriminate.
  cbn [py_update]. intros H. injection H as <-.
  intros k Hk. rewrite py_get_dict. f_equal.
  unfold get_or, dict_update. cbn [fold_left fst snd].
  cbn in Hk. destruct Hk as [<-|[<-|[<-|[<-|[<-|[]]]]]];
    repeat (rewrite dict_get_set_other by reflexivity);
    rewrite dict_get_set_same; reflexivity.
Qed.

(** C5: text enrichment is a function of the text alone. Two runs of
    [process_text_simple] on the same [raw_text] give the same
    cleaned_text, language, entities, sentiment and
    sentiment_confidence, and always give them; a post enriched once
    holds exactly those values and is left as it is by a second
    enrichment. *)
Theorem text_enrichment_idempotent (text : string) :
  (forall first second,
     process_text_simple (PStr text) = first ->
     process_text_simple (PStr text) = second -> first = second)
  /\ (exists result,
        process_text_simple (PStr text) = Ok result
        /\ map fst result = map KStr enrichment_keys
        /\ forall post once,
             py_get post "raw_text" (PStr "") = Ok (PStr text) ->
             enrich_text post = Ok once ->
             enrich_text once = Ok once
             /\ forall k, In k enrichment_keys ->
                          py_get once k PNone = Ok (field result k)).
Proof.
  split.
  - intros first second <- <-. reflexivity.
  - destruct (process_text_simple_returns text)
      as (cleaned & entities & sentiment & confidence & E & _).
    eexists. split; [exact E|]. split; [reflexivity|].
    intros post once Hraw Hrun. split.
    + exact (enrich_text_again _ _ Hrun).
    + exact (enrich_text_fields _ _ _ _ Hraw E Hrun).
Qed.

Lemma text_enrichment_idempotent_witness :
  enrich_text
    (PDict [(KStr "post_id", PStr "1");
            (KStr "raw_text", PStr "I love this #great day! http://t.co/x");
            (KStr "cleaned_text", PStr "I love this great day!");
            (KStr "language", PStr "en");
            (KStr "entities", PList []);
            (KStr "sentiment", PStr "positive");
            (KStr "sentiment_confidence", PFloat "0.7")])
  = Ok (PDict [(KStr "post_id", PStr "1");
               (KStr "raw_text", PStr "I love this #great day! http://t.co/x");
               (KStr "cleaned_text", PStr "I love this great day!");
               (KStr "language", PStr "en");
               (KStr "entities", PList []);
               (KStr "sentiment", PStr "positive");
               (KStr "sentiment_confidence", PFloat "0.7")]).
Proof.
  destruct (proj2 (text_enrichment_idempotent
                     "I love this #great day! http://t.co/x"))
    as (result & _ & _ & H).
  apply (H (PDict [(KStr "post_id", PStr "1");
                   (KStr "raw_text", PStr "I love this #great day! http://t.co/x")])).
  - reflexivity.
  - vm_compute. reflexivity.
Defined.

End TextEnrichment.

Section Batch.
Context `{R : Runtime}.

Lemma process_posts_persisted (posts : list pyval) (d : db) (count : nat) :
  forallb is_dict posts = true ->
  process_posts d count posts
  = (fst (persisted d posts),
     inr (count + List.length (snd (persisted d posts)))%nat).
Proof.
  revert d count. induction posts as [|post rest IH]; intros d count H.
  - cbn. rewrite Nat.add_0_r. reflexivity.
  - cbn [forallb] in H. apply andb_true_iff in H as [Hp Hr].
    cbn [process_posts persisted].
    destruct (process_post d post) as [d'|e].
    + rewrite (IH _ _ Hr). destruct (persisted d' rest) as [d'' done].
      cbn [fst snd List.length]. rewrite Nat.add_succ_r. reflexivity.
    + destruct post; try discriminate Hp. cbn [py_get]. exact (IH _ _ Hr).
Qed.

Lemma process_upload_task_persisted (d : db) (file_id : string)
  (posts : list pyval) :
  forallb is_dict posts = true ->
  process_upload_task (Some d) file_id posts
  = (Some (fst (persisted d posts)),
     completed (List.length (snd (persisted d posts)))).
Proof.
  intros H. unfold process_upload_task.
  rewrite (process_posts_persisted _ _ _ H). reflexivity.
Qed.

Lemma process_post_request (d : db) (post : pyval) :
  match store_request post with
  | Some (filter, update) =>
      process_post d post = update_one d POSTS_COLLECTION filter update
  | None => raised (process_post d post) = true
  end.
Proof.
  unfold store_request, process_post.
  destruct (enrich_text post) as [text_done|e]; [|reflexivity]. cbn [bind].
  destruct (enrich_media text_done) as [done|e] eqn:Em; [|reflexivity].
  cbn [bind].
  assert (D : exists fields, done = PDict fields).
  { unfold enrich_media in Em.
    destruct (py_get text_done "media" (PList [])); [|discriminate Em].
    cbn [bind] in Em. destruct (py_iter _); [|discriminate Em].
    cbn [bind] in Em. destruct (process_media _); [|discriminate Em].
    cbn [bind] in Em. destruct text_done; try discriminate Em.
    cbn [py_setitem] in Em. injection Em as <-. eexists. reflexivity. }
  destruct D as [fields ->]. cbn [py_getitem].
  destruct (dict_get fields "post_id"); reflexivity.
Qed.

Lemma process_posts_written (posts : list pyval) (d : db) (count : nat) :
  forallb is_dict posts = true ->
  process_posts d count posts
  = (fst (written d posts), inr (count + snd (written d posts))%nat).
Proof.
  revert d count. induction posts as [|post rest IH]; intros d count H.
  - cbn. rewrite Nat.add_0_r. reflexivity.
  - cbn [forallb] in H. apply andb_true_iff in H as [Hp Hr].
    cbn [process_posts written].
    pose proof (process_post_request d post) as P.
    assert (Skip : forall e, process_post d post = Raise e ->
              match process_post d post with
              | Ok d' => process_posts d' (S count) rest
              | Raise _ =>
                  match py_get post "post_id" (PStr "unknown") with
                  | Ok _ => process_posts d count rest
                  | Raise _ => (d, inl (no_attribute post "get"))
                  end
              end
              = (fst (written d rest), inr (count + snd (written d rest))%nat)).
    { intros e ->. destruct post; try discriminate Hp. cbn [py_get].
      exact (IH _ _ Hr). }
    destruct (store_request post) as [[filter update]|].
    + destruct (update_one d POSTS_COLLECTION filter update) as [d'|e] eqn:U.
      * rewrite P. rewrite (IH _ _ Hr). destruct (written d' rest) as [d'' k].
        cbn [fst snd]. rewrite Nat.add_succ_r. reflexivity.
      * exact (Skip e P).
    + assert (E : exists e, process_post d post = Raise e).
      { destruct (process_post d post) as [d'|e]; [discriminate P|].
        exists e. reflexivity. }
      destruct E as [e E]. exact (Skip e E).
Qed.

Lemma process_upload_task_written (d : db) (file_id : string)
  (posts : list pyval) :
  forallb is_dict posts = true ->
  process_upload_task (Some d) file_id posts
  = (Some (fst (written d posts)), completed (snd (written d posts))).
Proof.
  intros H. unfold process_upload_task.
  rewrite (process_posts_written _ _ _ H). reflexivity.
Qed.

Lemma written_length (posts : list pyval) (d : db) :
  (snd (written d posts) <= List.length posts)%nat.
Proof.
  revert d. induction posts as [|post rest IH]; intros d; cbn [written].
  - apply Nat.le_refl.
  - destruct (store_request post) as [[filter update]|];
      [destruct (update_one d POSTS_COLLECTION filter update) as [d'|e]|].
    + specialize (IH d'). destruct (written d' rest). cbn in *. lia.
    + specialize (IH d). cbn. lia.
    + specialize (IH d). cbn. lia.
Qed.

(** C9, as amended: in [process_upload_task], on a batch of posts
    (dicts, as the signature has them), a post whose enrichment raises
    or whose [update_one] call raises is passed over: the batch goes on
    with the next post, from the same store and the same counter, so
    the failed post leaves nothing persisted. A post whose [update_one]
    call returns is counted and the batch goes on from the store that
    call left. The task ends with status "completed" and, as
    [processed_count], the number of posts whose enrichment and
    [update_one] call returned. *)
Theorem process_upload_task_isolates_failures (d : db) (file_id : string)
  (posts : list pyval) :
  forallb is_dict posts = true ->
  process_upload_task (Some d) file_id posts
  = (Some (fst (written d posts)), completed (snd (written d posts)))
  /\ (snd (written d posts) <= List.length posts)%nat
  /\ (forall post rest,
        posts = post :: rest ->
        (store_request post = None
         \/ exists filter update e,
              store_request post = Some (filter, update)
              /\ update_one d POSTS_COLLECTION filter update = Raise e) ->
        written d posts = written d rest
        /\ process_upload_task (Some d) file_id posts
           = process_upload_task (Some d) file_id rest)
  /\ (forall post rest filter update d',
        posts = post :: rest ->
        store_request post = Some (filter, update) ->
        update_one d POSTS_COLLECTION filter update = Ok d' ->
        written d posts = (fst (written d' rest), S (snd (written d' rest)))
        /\ process_upload_task (Some d) file_id posts
           = (Some (fst (written d' rest)),
              completed (S (snd (written d' rest))))).
Proof.
  intros Hd.
  split; [apply process_upload_task_written; exact Hd|].
  split; [apply written_length|]. split.
  - intros post rest -> Hfail.
    assert (P : written d (post :: rest) = written d rest).
    { cbn [written].
      destruct Hfail as [->|(filter & update & e & -> & ->)]; reflexivity. }
    split; [exact P|].
    cbn [forallb] in Hd. apply andb_true_iff in Hd as [Hp Hr].
    rewrite !process_upload_task_written, P; auto.
    cbn [forallb]. rewrite Hp, Hr. reflexivity.
  - intros post rest filter update d' -> Hreq Hok.
    assert (P : written d (post :: rest)
                = (fst (written d' rest), S (snd (written d' rest)))).
    { cbn [written]. rewrite Hreq, Hok. destruct (written d' rest). reflexivity. }
    split; [exact P|].
    rewrite (process_upload_task_written _ _ _ Hd), P. reflexivity.
Qed.

End Batch.

(** *** The format parsers and the upload *)

Section Parsers.
Context `{R : Runtime}.

Lemma normalize_json_posts_records (records : list pyval) (n : nat) :
  forallb record_ok records = true ->
  normalize_json_posts n records = Ok (normalize_rows n records).
Proof.
  revert n. induction records as [|post rest IH]; intros n H; [reflexivity|].
  cbn [forallb] in H. apply andb_true_iff in H as [Hp Hr].
  cbn [normalize_json_posts normalize_rows].
  destruct post as [| | | | | | |d]; try discriminate Hp.
  rewrite !py_get_dict. cbn [bind].
  assert (S50 : exists v, py_slice (get_or d "raw_text" (PStr "no_text")) 50 = Ok v).
  { unfold get_or. cbn [record_ok] in Hp.
    destruct (dict_get d "raw_text") as [[]|]; try discriminate Hp;
      eexists; reflexivity. }
  destruct S50 as [v ->]. cbn [bind]. rewrite (IH _ Hr). cbn [bind].
  destruct (normalize_post_data n (PDict d)); reflexivity.
Qed.

Lemma normalize_json_posts_raises (records : list pyval) (n : nat) (e : exn) :
  normalize_json_posts n records = Raise e -> e <> invalid_structure.
Proof.
  revert n. induction records as [|post rest IH]; intros n; [discriminate|].
  cbn [normalize_json_posts].
  destruct (py_get post "post_id" (PStr "no_id")) as [x|e1] eqn:E1.
  2:{ cbn [bind]. intros H. injection H as <-.
      destruct post; cbn in E1; try discriminate E1;
        injection E1 as <-; discriminate. }
  cbn [bind].
  destruct (py_get post "raw_text" (PStr "no_text")) as [t|e2] eqn:E2.
  2:{ cbn [bind]. intros H. injection H as <-.
      destruct post; cbn in E2; try discriminate E2;
        injection E2 as <-; discriminate. }
  cbn [bind].
  destruct (py_slice t 50) as [sl|e3] eqn:E3.
  2:{ cbn [bind]. intros H. injection H as <-.
      destruct t; cbn in E3; try discriminate E3;
        injection E3 as <-; discriminate. }
  cbn [bind].
  destruct (normalize_json_posts (S n) rest) as [ps|e4] eqn:E4.
  - discriminate.
  - cbn [bind]. intros H. injection H as <-. exact (IH _ E4).
Qed.

Lemma json_posts_selected (n : nat) (data posts : pyval) :
  selected_posts data = Some posts ->
  json_posts n data
  = (_ <- py_len posts ;;
     items <- py_iter posts ;;
     normalized_posts <- normalize_json_posts n items ;;
     Ok (normalized_posts, (n + List.length items)%nat)).
Proof.
  unfold json_posts, selected_posts.
  destruct data as [| | | | | |l|d]; try discriminate.
  - intros H. injection H as <-. reflexivity.
  - cbn [is_list is_dict andb py_getitem]. intros ->. reflexivity.
Qed.

Lemma json_posts_root_shape (n : nat) (data : pyval) :
  json_posts n data = Raise invalid_structure <-> root_shape data = false.
Proof.
  split.
  - intros H. destruct (root_shape data) eqn:S; [|reflexivity]. exfalso.
    assert (Sel : exists posts, selected_posts data = Some posts).
    { destruct data as [| | | | | |l|d]; try discriminate S.
      - eexists; reflexivity.
      - cbn in *. destruct (dict_get d "posts"); [eexists; reflexivity|discriminate]. }
    destruct Sel as [posts Sel]. rewrite (json_posts_selected _ _ _ Sel) in H.
    destruct (py_len posts) as [len|e] eqn:L.
    2:{ destruct posts; cbn in L; try discriminate L;
        injection L as <-; discriminate H. }
    cbn [bind] in H.
    destruct (py_iter posts) as [items|e] eqn:I.
    2:{ destruct posts; cbn in I; try discriminate I;
        injection I as <-; discriminate H. }
    cbn [bind] in H.
    destruct (normalize_json_posts n items) as [ps|e] eqn:N; [discriminate H|].
    cbn [bind] in H. injection H as ->.
    exact (normalize_json_posts_raises _ _ _ N eq_refl).
  - intros S. unfold json_posts.
    destruct data as [| | | | | |l|d]; try discriminate S; try reflexivity.
    cbn in *. destruct (dict_get d "posts"); [discriminate S|reflexivity].
Qed.

Lemma json_posts_records (n : nat) (data : pyval) (records : list pyval) :
  selected_posts data = Some (PList records) ->
  forallb record_ok records = true ->
  json_posts n data
  = Ok (normalize_rows n records, (n + List.length records)%nat).
Proof.
  intros Sel Hr. rewrite (json_posts_selected _ _ _ Sel).
  cbn [py_len py_iter bind]. rewrite (normalize_json_posts_records _ _ Hr).
  reflexivity.
Qed.

Lemma assign_ids_length (docs : list pyval) (n : nat) :
  List.length (assign_ids n docs) = List.length docs.
Proof.
  revert n. induction docs as [|doc rest IH]; intros n; [reflexivity|].
  cbn [assign_ids].
  destruct doc; cbn [List.length]; try (rewrite IH; reflexivity).
  destruct (dict_get d "_id"); cbn [List.length]; rewrite IH; reflexivity.
Qed.

Lemma save_posts_length (d d' : db) (n : nat) (posts saved : list pyval) :
  save_posts d n posts = (d', Ok saved) ->
  List.length saved = List.length posts.
Proof.
  unfold save_posts. destruct (truthy (PList posts)).
  - destruct (insert_many _ _ _) as [d2 [[]|e]]; [|discriminate].
    intros H. injection H as _ <-. apply assign_ids_length.
  - intros H. injection H as _ <-. reflexivity.
Qed.

(** the request from the saved file on *)
Lemma upload_file_after_save (w : world) (n : nat) (filename content : string)
  (saved : fs) :
  allowed (lower (snd (splitext filename))) = true ->
  write_file (files w) (path_join ("uploads/" ++ uuid4 n) filename) content
  = Ok saved ->
  upload_file w n (Some filename) content
  = (let '(fls, parsed) :=
       parse_upload saved (S n) (lower (snd (splitext filename)))
         (path_join ("uploads/" ++ uuid4 n) filename) ("uploads/" ++ uuid4 n) in
     match parsed with
     | Raise _ =>
         (Raise (HTTPException 400), mkWorld fls (store w) (background_tasks w))
     | Ok (posts, n') =>
         record_upload w fls (uuid4 n) filename
           (path_join ("uploads/" ++ uuid4 n) filename) posts n'
     end).
Proof.
  intros Ha Hw. unfold upload_file.
  destruct filename as [|c t]; [discriminate Ha|].
  cbn [truthy String.eqb negb]. rewrite Ha. cbn [negb]. rewrite Hw.
  reflexivity.
Qed.

Lemma normalize_rows_accepted (rows : list pyval) (n : nat) :
  all_accepted (normalize_rows n rows).
Proof.
  revert n. induction rows as [|row rest IH]; intros n; [constructor|].
  cbn [normalize_rows].
  destruct (normalize_post_data n row) as [p|] eqn:E; [|apply IH].
  constructor; [exists n, row; exact E|apply IH].
Qed.

Lemma normalize_json_posts_accepted (items : list pyval) (n : nat)
  (posts : list pyval) :
  normalize_json_posts n items = Ok posts -> all_accepted posts.
Proof.
  revert n posts. induction items as [|post rest IH]; intros n posts.
  - intros H. injection H as <-. constructor.
  - cbn [normalize_json_posts].
    destruct (py_get post "post_id" _); [|discriminate]. cbn [bind].
    destruct (py_get post "raw_text" _) as [t|]; [|discriminate]. cbn [bind].
    destruct (py_slice t 50); [|discriminate]. cbn [bind].
    destruct (normalize_json_posts (S n) rest) as [ps|] eqn:E; [|discriminate].
    cbn [bind]. intros H. injection H as <-.
    destruct (normalize_post_data n post) as [p|] eqn:Ep; [|exact (IH _ _ E)].
    constructor; [exists n, post; exact Ep|exact (IH _ _ E)].
Qed.

Lemma parse_json_file_accepted (fls : fs) (n n' : nat) (path : string)
  (posts : list pyval) :
  parse_json_file fls n path = Ok (posts, n') -> all_accepted posts.
Proof.
  unfold parse_json_file.
  destruct (read_text fls path); [|discriminate]. cbn [bind].
  destruct (json_loads _) as [data|]; [|discriminate]. cbn [bind].
  unfold json_posts.
  match goal with |- (_ <- ?c ;; _) = _ -> _ => destruct c as [sel|] end;
    [|discriminate].
  cbn [bind]. destruct (py_len sel); [|discriminate]. cbn [bind].
  destruct (py_iter sel) as [items|]; [|discriminate]. cbn [bind].
  destruct (normalize_json_posts n items) as [ps|] eqn:E; [|discriminate].
  cbn [bind]. intros H. injection H as <- _.
  exact (normalize_json_posts_accepted _ _ _ E).
Qed.

Lemma parse_csv_file_rows (fls : fs) (n : nat) (path content : string)
  (rows : list pyval) :
  read_text fls path = Ok content ->
  csv_DictReader (split_lines content) = Ok rows ->
  parse_csv_file fls n path
  = Ok (normalize_rows n rows, (n + List.length rows)%nat).
Proof.
  intros Hr Hc. unfold parse_csv_file. rewrite Hr. cbn [bind].
  destruct (split_lines content) eqn:E.
  - destruct content as [|c t]; [discriminate E|].
    cbn [split_lines] in E. destruct (c =? chr 10)%char; [discriminate E|].
    destruct (split_lines t); discriminate E.
  - rewrite Hc. reflexivity.
Qed.

Lemma parse_csv_file_accepted (fls : fs) (n n' : nat) (path : string)
  (posts : list pyval) :
  parse_csv_file fls n path = Ok (posts, n') -> all_accepted posts.
Proof.
  unfold parse_csv_file.
  destruct (read_text fls path) as [content|]; [|discriminate]. cbn [bind].
  destruct (split_lines content).
  - intros H. injection H as <- _. constructor.
  - destruct (csv_DictReader _) as [rows|]; [|discriminate]. cbn [bind].
    intros H. injection H as <- _. apply normalize_rows_accepted.
Qed.

Lemma parse_walked_accepted (fls : fs) (entries : list (string * string))
  (n n' : nat) (posts : list pyval) :
  parse_walked fls n entries = Ok (posts, n') -> all_accepted posts.
Proof.
  revert n n' posts.
  induction entries as [|[root file] rest IH]; intros n n' posts.
  - intros H. injection H as <- _. constructor.
  - cbn [parse_walked]. destruct (endswith file ".json").
    + destruct (parse_json_file fls n _) as [[jp nj]|] eqn:Ej; [|discriminate].
      cbn [bind fst snd].
      destruct (parse_walked fls nj rest) as [[ps np]|] eqn:Ew; [|discriminate].
      cbn [bind fst snd]. intros H. injection H as <- _.
      apply Forall_app. split.
      * exact (parse_json_file_accepted _ _ _ _ _ Ej).
      * exact (IH _ _ _ Ew).
    + destruct (endswith file ".csv"); [|apply IH].
      destruct (parse_csv_file fls n _) as [[cp nc]|] eqn:Ec; [|discriminate].
      cbn [bind fst snd].
      destruct (parse_walked fls nc rest) as [[ps np]|] eqn:Ew; [|discriminate].
      cbn [bind fst snd]. intros H. injection H as <- _.
      apply Forall_app. split.
      * exact (parse_csv_file_accepted _ _ _ _ _ Ec).
      * exact (IH _ _ _ Ew).
Qed.

Lemma parse_upload_accepted (saved fls : fs) (n n' : nat)
  (ext path dir : string) (posts : list pyval) :
  parse_upload saved n ext path dir = (fls, Ok (posts, n')) ->
  all_accepted posts.
Proof.
  unfold parse_upload.
  destruct (ext =? ".json").
  { intros H. injection H as _ H. exact (parse_json_file_accepted _ _ _ _ _ H). }
  destruct (ext =? ".csv").
  { intros H. injection H as _ H. exact (parse_csv_file_accepted _ _ _ _ _ H). }
  destruct (ext =? ".zip").
  - unfold parse_zip_file.
    destruct (zip_extractall saved path dir) as [files' extracted].
    intros H. injection H as _ H.
    destruct extracted; [|discriminate H]. cbn [bind] in H.
    exact (parse_walked_accepted _ _ _ _ _ H).
  - intros H. injection H as _ <- _. constructor.
Qed.

(** the posts the coordinator hands to the worker are dicts *)
Lemma saved_posts_are_dicts (d d' : db) (n : nat) (posts saved : list pyval) :
  all_accepted posts ->
  save_posts d n posts = (d', Ok saved) ->
  forallb is_dict saved = true.
Proof.
  intros Ha Hs.
  assert (Hd : forallb is_dict posts = true).
  { apply forallb_forall. intros p Hin.
    unfold all_accepted in Ha. rewrite Forall_forall in Ha.
    destruct (Ha p Hin) as (k & record & E).
    exact (proj1 (accepted_post_has_text _ _ _ E)). }
  unfold save_posts in Hs. destruct (truthy (PList posts)).
  - destruct (insert_many _ _ _) as [d2 [[]|e]]; [|discriminate Hs].
    injection Hs as _ <-.
    clear Ha. revert n. induction posts as [|p rest IH]; intros n; [reflexivity|].
    cbn [forallb] in Hd. apply andb_true_iff in Hd as [Hp Hr].
    destruct p as [| | | | | | |fields]; try discriminate Hp.
    cbn [assign_ids]. destruct (dict_get fields "_id");
      cbn [forallb is_dict andb]; apply IH; exact Hr.
  - injection Hs as _ <-. exact Hd.
Qed.

(** C6, as amended: a file name whose lower-cased extension is not
    .json, .csv or .zip is answered with status 400 and the files, the
    store and the task queue are left as they were. For an accepted
    file that parses, when the store takes the upload record and the
    posts, the response carries the generated file id, as
    [total_posts] the number of posts the normaliser accepted, and the
    status "processing"; when one of the two store writes raises, the
    request ends in that exception, without a response. *)
Theorem upload_file_validates_and_responds (w : world) (n : nat)
  (filename content : string) :
  upload_file w n None content = (Raise (HTTPException 400), w)
  /\ (allowed (lower (snd (splitext filename))) = false ->
      upload_file w n (Some filename) content = (Raise (HTTPException 400), w))
  /\ (forall saved fls posts n' d1 d2 saved_posts,
        allowed (lower (snd (splitext filename))) = true ->
        write_file (files w) (path_join ("uploads/" ++ uuid4 n) filename) content
        = Ok saved ->
        parse_upload saved (S n) (lower (snd (splitext filename)))
          (path_join ("uploads/" ++ uuid4 n) filename) ("uploads/" ++ uuid4 n)
        = (fls, Ok (posts, n')) ->
        insert_one (store w) UPLOADS_COLLECTION
          (upload_metadata (uuid4 n) filename (utcnow n') (List.length posts)
             (path_join ("uploads/" ++ uuid4 n) filename))
        = Ok d1 ->
        save_posts d1 (S n') posts = (d2, Ok saved_posts) ->
        all_accepted posts
        /\ upload_file w n (Some filename) content
           = (Ok (mkUploadResponse "File uploaded successfully" (uuid4 n)
                    (Z.of_nat (List.length posts)) "processing"),
              mkWorld fls d2
                (background_tasks w ++ [(uuid4 n, saved_posts)])%list))
  /\ (forall saved fls posts n' e,
        allowed (lower (snd (splitext filename))) = true ->
        write_file (files w) (path_join ("uploads/" ++ uuid4 n) filename) content
        = Ok saved ->
        parse_upload saved (S n) (lower (snd (splitext filename)))
          (path_join ("uploads/" ++ uuid4 n) filename) ("uploads/" ++ uuid4 n)
        = (fls, Ok (posts, n')) ->
        (insert_one (store w) UPLOADS_COLLECTION
           (upload_metadata (uuid4 n) filename (utcnow n') (List.length posts)
              (path_join ("uploads/" ++ uuid4 n) filename))
         = Raise e
         \/ exists d1 d2,
              insert_one (store w) UPLOADS_COLLECTION
                (upload_metadata (uuid4 n) filename (utcnow n')
                   (List.length posts)
                   (path_join ("uploads/" ++ uuid4 n) filename))
              = Ok d1
              /\ save_posts d1 (S n') posts = (d2, Raise e)) ->
        fst (upload_file w n (Some filename) content) = Raise e).
Proof.
  split; [reflexivity|]. split; [|split].
  - intros Ha. unfold upload_file.
    destruct (negb (truthy (PStr filename))); [reflexivity|].
    rewrite Ha. reflexivity.
  - intros saved fls posts n' d1 d2 saved_posts Ha Hw Hp Hi Hs. split.
    + exact (parse_upload_accepted _ _ _ _ _ _ _ _ Hp).
    + rewrite (upload_file_after_save _ _ _ _ _ Ha Hw), Hp.
      unfold record_upload. rewrite Hi, Hs.
      rewrite (save_posts_length _ _ _ _ _ Hs). reflexivity.
  - intros saved fls posts n' e Ha Hw Hp Hstore.
    rewrite (upload_file_after_save _ _ _ _ _ Ha Hw), Hp.
    unfold record_upload.
    destruct Hstore as [Hi|(d1 & d2 & Hi & Hs)]; rewrite Hi; [reflexivity|].
    rewrite Hs. reflexivity.
Qed.

(** C7, as amended: [parse_json_file] raises "Invalid JSON structure"
    exactly when the parsed value is neither a list nor an object with
    a [posts] key; no record is produced and the upload is answered
    with status 400, nothing written to the store. When the value is a
    list, or an object whose [posts] value is a list, and every entry is
    an object whose [raw_text], if any, is a string or a list, the
    accepted normalised records are returned in order. *)
Theorem parse_json_file_root_shapes (n : nat) (data : pyval) :
  (json_posts n data = Raise invalid_structure <-> root_shape data = false)
  /\ (forall fls path content,
        root_shape data = false ->
        read_text fls path = Ok content ->
        json_loads content = Ok data ->
        parse_json_file fls n path = Raise invalid_structure)
  /\ (forall fls path content records,
        read_text fls path = Ok content ->
        json_loads content = Ok data ->
        selected_posts data = Some (PList records) ->
        forallb record_ok records = true ->
        parse_json_file fls n path
        = Ok (normalize_rows n records, (n + List.length records)%nat))
  /\ (forall w m filename content saved e,
        lower (snd (splitext filename)) = ".json" ->
        write_file (files w) (path_join ("uploads/" ++ uuid4 m) filename) content
        = Ok saved ->
        parse_json_file saved (S m) (path_join ("uploads/" ++ uuid4 m) filename)
        = Raise e ->
        upload_file w m (Some filename) content
        = (Raise (HTTPException 400),
           mkWorld saved (store w) (background_tasks w))).
Proof.
  split; [apply json_posts_root_shape|]. split; [|split].
  - intros fls path content S Hr Hj. unfold parse_json_file.
    rewrite Hr. cbn [bind]. rewrite Hj. cbn [bind].
    apply json_posts_root_shape. exact S.
  - intros fls path content records Hr Hj Sel Ok_.
    unfold parse_json_file. rewrite Hr. cbn [bind]. rewrite Hj. cbn [bind].
    exact (json_posts_records _ _ _ Sel Ok_).
  - intros w m filename content saved e Hext Hw Hp.
    rewrite (upload_file_after_save _ _ _ _ saved); [|rewrite Hext; reflexivity|exact Hw].
    rewrite Hext. unfold parse_upload. cbn [String.eqb Ascii.eqb Bool.eqb].
    rewrite Hp. reflexivity.
Qed.

(** C8, as amended: among the walked files of an archive, a JSON file
    that parses and a CSV file that can be read give the JSON posts
    followed by the accepted CSV rows, whatever the rows hold. A CSV
    file whose reading raises makes [parse_zip_file] raise, in either
    order of discovery, and the upload is answered with status 400. *)
Theorem zip_csv_failure_propagates (fls : fs) (n n1 : nat)
  (root json csv : string) (json_posts : list pyval) :
  endswith json ".json" = true ->
  endswith csv ".json" = false ->
  endswith csv ".csv" = true ->
  parse_json_file fls n (path_join root json) = Ok (json_posts, n1) ->
  (forall content rows,
     read_text fls (path_join root csv) = Ok content ->
     csv_DictReader (split_lines content) = Ok rows ->
     parse_walked fls n [(root, json); (root, csv)]
     = Ok ((json_posts ++ normalize_rows n1 rows)%list,
           (n1 + List.length rows)%nat))
  /\ (forall e,
        parse_csv_file fls n1 (path_join root csv) = Raise e ->
        parse_walked fls n [(root, json); (root, csv)] = Raise e)
  /\ (forall e,
        parse_csv_file fls n (path_join root csv) = Raise e ->
        parse_walked fls n [(root, csv); (root, json)] = Raise e)
  /\ (forall w m filename content saved entries e,
        lower (snd (splitext filename)) = ".zip" ->
        write_file (files w) (path_join ("uploads/" ++ uuid4 m) filename) content
        = Ok saved ->
        zip_extractall saved (path_join ("uploads/" ++ uuid4 m) filename)
          ("uploads/" ++ uuid4 m) = (fls, Ok tt) ->
        os_walk fls ("uploads/" ++ uuid4 m) = entries ->
        parse_walked fls (S m) entries = Raise e ->
        upload_file w m (Some filename) content
        = (Raise (HTTPException 400),
           mkWorld fls (store w) (background_tasks w))).
Proof.
  intros Hj Hcj Hc Hparse. split; [|split; [|split]].
  - intros content rows Hr Hrows. cbn [parse_walked].
    rewrite Hj, Hparse. cbn [bind fst snd]. rewrite Hcj, Hc.
    rewrite (parse_csv_file_rows _ _ _ _ _ Hr Hrows). cbn [bind fst snd].
    rewrite app_nil_r. reflexivity.
  - intros e He. cbn [parse_walked].
    rewrite Hj, Hparse. cbn [bind fst snd]. rewrite Hcj, Hc, He. reflexivity.
  - intros e He. cbn [parse_walked]. rewrite Hcj, Hc, He. reflexivity.
  - intros w m filename content saved entries e Hext Hw Hz Hwalk He.
    rewrite (upload_file_after_save _ _ _ _ saved); [|rewrite Hext; reflexivity|exact Hw].
    rewrite Hext. unfold parse_upload. cbn [String.eqb Ascii.eqb Bool.eqb].
    unfold parse_zip_file. rewrite Hz. cbn [bind]. rewrite Hwalk, He.
    reflexivity.
Qed.

End Parsers.

(** *** The theorems at work on the fixture runtime *)

Lemma upload_file_validates_and_responds_witness :
  upload_file (R := mem) empty_world 0 (Some "notes.txt") "abc"
  = (Raise (HTTPException 400), empty_world)
  /\ fst (upload_file (R := mem) empty_world 0 (Some "x.JSON") three_posts_json)
     = Ok (mkUploadResponse "File uploaded successfully" "uuid-0" 3 "processing")
  /\ fst (upload_file (R := strict) (mkWorld (R := strict) [] [] []) 0
            (Some "r.csv") surplus_csv)
     = Raise (LibError "InvalidDocument").
Proof.
  split; [|split].
  - apply (proj1 (proj2 (upload_file_validates_and_responds (R := mem)
                           empty_world 0 "notes.txt" "abc"))).
    reflexivity.
  - edestruct (proj1 (proj2 (proj2 (upload_file_validates_and_responds (R := mem)
                                      empty_world 0 "x.JSON" three_posts_json))))
      as [_ E].
    + reflexivity.
    + reflexivity.
    + reflexivity.
    + reflexivity.
    + reflexivity.
    + rewrite E. reflexivity.
  - refine (proj2 (proj2 (proj2 (upload_file_validates_and_responds (R := strict)
                                   (mkWorld (R := strict) [] [] []) 0
                                   "r.csv" surplus_csv)))
              [("uploads/uuid-0/r.csv", surplus_csv)]
              [("uploads/uuid-0/r.csv", surplus_csv)]
              (normalize_rows (R := strict) 1
                 [PDict [(KStr "platform", PStr "twitter");
                         (KStr "content", PStr "hi there");
                         (KNone, PList [PStr "extra"])]])
              2%nat (LibError "InvalidDocument")
              ltac:(vm_compute; reflexivity) ltac:(vm_compute; reflexivity)
              ltac:(vm_compute; reflexivity) _).
    right. eexists _, _. split; vm_compute; reflexivity.
Defined.

(** C6 as first stated fails: a CSV file with an accepted extension
    parses to one accepted post, which keeps the surplus cell of its
    row in the metadata under the key [None]. The store refuses the
    post, so the request ends in the driver's exception after the
    upload record was written, and there is no response. *)
Lemma upload_with_surplus_cell_counterexample :
  let outcome :=
    upload_file (R := strict) (mkWorld (R := strict) [] [] []) 0
      (Some "r.csv") surplus_csv in
  allowed (lower (snd (splitext "r.csv"))) = true
  /\ (exists posts,
        parse_upload (R := strict) [("uploads/uuid-0/r.csv", surplus_csv)] 1
          ".csv" "uploads/uuid-0/r.csv" "uploads/uuid-0"
        = ([("uploads/uuid-0/r.csv", surplus_csv)], Ok (posts, 2%nat))
        /\ List.length posts = 1%nat)
  /\ fst outcome = Raise (LibError "InvalidDocument")
  /\ store (snd outcome)
     = [("uploads",
         upload_metadata "uuid-0" "r.csv" (mkDatetime 2024 6 1 12 0 0 2) 1
           "uploads/uuid-0/r.csv")]
  /\ background_tasks (snd outcome) = [].
Proof.
  cbv zeta. split; [|split; [|split; [|split]]].
  - vm_compute. reflexivity.
  - eexists. split; vm_compute; reflexivity.
  - vm_compute. reflexivity.
  - vm_compute. reflexivity.
  - vm_compute. reflexivity.
Qed.

(** C7 as first stated fails: an object with a [posts] key that holds
    a number passes the shape test and then raises. *)
Lemma parse_json_file_root_shapes_counterexample :
  ~ (forall (R : Runtime) (n : nat) (data : pyval),
        root_shape data = true -> exists posts, json_posts n data = Ok posts).
Proof.
  intros H.
  destruct (H mem 0%nat (PDict [(KStr "posts", PInt 5)]) eq_refl) as [posts E].
  discriminate E.
Qed.

Lemma parse_json_file_root_shapes_witness :
  parse_json_file (R := mem) [("f.json", "42")] 0 "f.json"
  = Raise invalid_structure
  /\ parse_json_file (R := mem) [("f.json", three_posts_json)] 0 "f.json"
     = Ok (normalize_rows 0 three_records, 3%nat)
  /\ List.length (normalize_rows (R := mem) 0 three_records) = 3%nat
  /\ upload_file (R := mem) empty_world 0 (Some "f.json") "42"
     = (Raise (HTTPException 400),
        mkWorld (R := mem) [("uploads/uuid-0/f.json", "42")] [] []).
Proof.
  split; [|split; [|split]].
  - apply (proj1 (proj2 (parse_json_file_root_shapes (R := mem) 0 (PInt 42))))
      with (content := "42"); reflexivity.
  - exact (proj1 (proj2 (proj2 (parse_json_file_root_shapes (R := mem) 0
                                  three_posts)))
             [("f.json", three_posts_json)] "f.json" three_posts_json
             three_records eq_refl eq_refl eq_refl eq_refl).
  - reflexivity.
  - apply (proj2 (proj2 (proj2 (parse_json_file_root_shapes (R := mem) 0 PNone))))
      with (e := invalid_structure); reflexivity.
Defined.

(** C8 as first stated fails: the archive holds a JSON file with three
    valid posts and a CSV file whose bytes are not UTF-8; the JSON file
    parses on its own, and the upload is answered with status 400 with
    nothing in the store. *)
Lemma zip_with_corrupt_csv_counterexample :
  let outcome :=
    upload_file (R := mem) empty_world 0 (Some "bundle.zip") "PK-json-then-bad-csv" in
  fst outcome = Raise (HTTPException 400)
  /\ store (snd outcome) = []
  /\ os_walk (files (snd outcome)) "uploads/uuid-0"
     = [("uploads/uuid-0", "bundle.zip"); ("uploads/uuid-0", "data.json");
        ("uploads/uuid-0", "bad.csv")]
  /\ (exists posts,
        parse_json_file (files (snd outcome)) 1 "uploads/uuid-0/data.json"
        = Ok (posts, 4%nat) /\ List.length posts = 3%nat)
  /\ parse_csv_file (files (snd outcome)) 4 "uploads/uuid-0/bad.csv"
     = Raise (LibError "UnicodeDecodeError").
Proof.
  cbv zeta. split; [|split; [|split; [|split]]].
  - vm_compute. reflexivity.
  - vm_compute. reflexivity.
  - vm_compute. reflexivity.
  - eexists. split; vm_compute; reflexivity.
  - vm_compute. reflexivity.
Qed.

Lemma zip_csv_failure_propagates_witness :
  parse_walked (R := mem)
    [("up/ragged.csv", ragged_csv); ("up/data.json", three_posts_json)] 1
    [("up", "data.json"); ("up", "ragged.csv")]
  = Ok ((normalize_rows 1 three_records
           ++ normalize_rows 4
                [PDict [(KStr "platform", PStr "twitter"); (KStr "content", PNone)];
                 PDict [(KStr "platform", PStr "twitter");
                        (KStr "content", PStr "hi there");
                        (KNone, PList [PStr "extra"])]])%list, 6%nat)
  /\ parse_walked (R := mem)
       [("up/bad.csv", undecodable_csv); ("up/data.json", three_posts_json)] 1
       [("up", "data.json"); ("up", "bad.csv")]
     = Raise (LibError "UnicodeDecodeError").
Proof.
  split.
  - exact (proj1 (zip_csv_failure_propagates (R := mem)
                    [("up/ragged.csv", ragged_csv); ("up/data.json", three_posts_json)]
                    1 4 "up" "data.json" "ragged.csv"
                    (normalize_rows 1 three_records)
                    eq_refl eq_refl eq_refl eq_refl)
             ragged_csv
             [PDict [(KStr "platform", PStr "twitter"); (KStr "content", PNone)];
              PDict [(KStr "platform", PStr "twitter");
                     (KStr "content", PStr "hi there");
                     (KNone, PList [PStr "extra"])]]
             ltac:(vm_compute; reflexivity) ltac:(vm_compute; reflexivity)).
  - apply (proj1 (proj2 (zip_csv_failure_propagates (R := mem)
                    [("up/bad.csv", undecodable_csv); ("up/data.json", three_posts_json)]
                    1 4 "up" "data.json" "bad.csv"
                    (normalize_rows 1 three_records)
                    eq_refl eq_refl eq_refl eq_refl))).
    reflexivity.
Defined.

Lemma process_upload_task_isolates_failures_witness :
  process_upload_task (R := mem) (Some [("posts", good_post)]) "uuid-0"
    [bad_post; good_post]
  = process_upload_task (R := mem) (Some [("posts", good_post)]) "uuid-0"
      [good_post]
  /\ process_upload_task (R := mem) (Some [("posts", good_post)]) "uuid-0"
       [good_post]
     = (Some [("posts",
               PDict [(KStr "post_id", PStr "2");
                      (KStr "raw_text", PStr "good day");
                      (KStr "cleaned_text", PStr "good day");
                      (KStr "language", PStr "en");
                      (KStr "entities", PList []);
                      (KStr "sentiment", PStr "positive");
                      (KStr "sentiment_confidence", PFloat "0.7");
                      (KStr "media", PList [])])],
        completed 1).
Proof.
  split.
  - apply (proj1 (proj2 (proj2 (process_upload_task_isolates_failures (R := mem)
             [("posts", good_post)] "uuid-0" [bad_post; good_post] eq_refl)))
             bad_post [good_post] eq_refl).
    left. reflexivity.
  - refine (proj2 (proj2 (proj2 (proj2
             (process_upload_task_isolates_failures (R := mem)
                [("posts", good_post)] "uuid-0" [good_post] eq_refl)))
             good_post [] _ _ _ eq_refl
             ltac:(vm_compute; reflexivity) ltac:(vm_compute; reflexivity))).
Defined.

(** C9 as first stated fails: a post the store does not hold is
    counted, although nothing is persisted for it. [update_one] is
    called without upsert and its [matched_count] is not looked at. *)
Lemma counted_without_write_counterexample :
  process_upload_task (R := mem) (Some []) "uuid-0" [good_post]
  = (Some [], completed 1)
  /\ process_upload_task (R := mem)
       (Some [("posts", PDict [(KStr "post_id", PStr "7")])]) "uuid-0" [good_post]
     = (Some [("posts", PDict [(KStr "post_id", PStr "7")])], completed 1).
Proof. split; vm_compute; reflexivity. Qed.

(** *** The scenarios of the specification *)

Example scenario_posts_object :
  json_posts (R := mem) 0
    (PDict [(KStr "posts",
             PList [PDict [(KStr "id", PStr "1");
                           (KStr "text", PStr "I love this #great day!");
                           (KStr "platform", PStr "twitter")]])])
  = Ok ([PDict [(KStr "platform", PStr "twitter");
                (KStr "post_id", PStr "1");
                (KStr "raw_text", PStr "I love this #great day!");
                (KStr "timestamp", PDatetime (mkDatetime 2024 6 1 12 0 0 0));
                (KStr "user_id", PStr "");
                (KStr "media", PList []);
                (KStr "metadata", PDict [])]], 1%nat).
Proof. vm_compute. reflexivity. Qed.

Example scenario_title_caption :
  option_map (fun p => py_get p "raw_text" PNone)
    (normalize_post_data (R := mem) 0
       (PDict [(KStr "title", PStr "Sale"); (KStr "caption", PStr "50% off")]))
  = Some (Ok (PStr "Sale | 50% off")).
Proof. vm_compute. reflexivity. Qed.

Example scenario_csv_row :
  normalize_rows (R := mem) 3
    [PDict [(KStr "platform", PStr "twitter"); (KStr "content", PStr "hi there")]]
  = [PDict [(KStr "platform", PStr "twitter");
            (KStr "post_id", PStr "uuid-3");
            (KStr "raw_text", PStr "hi there");
            (KStr "timestamp", PDatetime (mkDatetime 2024 6 1 12 0 0 3));
            (KStr "user_id", PStr "");
            (KStr "media", PList []);
            (KStr "metadata", PDict [])]].
Proof. vm_compute. reflexivity. Qed.

(** a number where the title should be makes the join raise, and the
    record is rejected *)
Example number_as_title_rejected :
  normalize_post_data (R := mem) 0 (PDict [(KStr "title", PInt 5)]) = None.
Proof. vm_compute. reflexivity. Qed.

(** a record whose first candidate is a number is rejected although a
    later candidate is a good string *)
Example number_as_text_rejected :
  normalize_post_data (R := mem) 0
    (PDict [(KStr "raw_text", PInt 5); (KStr "text", PStr "hello")]) = None.
Proof. vm_compute. reflexivity. Qed.

Example number_as_timestamp_rejected :
  normalize_post_data (R := mem) 0
    (PDict [(KStr "text", PStr "hello"); (KStr "timestamp", PInt 5)]) = None.
Proof. vm_compute. reflexivity. Qed.

Example null_raw_text_aborts_the_file :
  json_posts (R := mem) 0
    (PList [PDict [(KStr "raw_text", PNone); (KStr "text", PStr "hello")]])
  = Raise TypeError.
Proof. vm_compute. reflexivity. Qed.

(** a post that is no dict raises again in the log line of the
    handler, and the batch ends there *)
Example worker_on_a_string :
  process_upload_task (R := mem) (Some []) "uuid-0" [PStr "post"; PDict []]
  = (Some [], PDict [(KStr "status", PStr "error");
                     (KStr "error", PStr "'str' object has no attribute 'get'")]).
Proof. reflexivity. Qed.

Example worker_without_store :
  process_upload_task (R := mem) None "uuid-0" three_records
  = (None, PDict [(KStr "status", PStr "error");
                  (KStr "error", PStr "'NoneType' object is not subscriptable")]).
Proof. reflexivity. Qed.

Example clean_text_example :
  clean_text "  Check   http://x.y/z?q=1 now @bob_1 #great day!  ##a @ # https://"
  = "Check now great day! #a @ # https://".
Proof. vm_compute. reflexivity. Qed.

Example strptime_examples :
  strptime (PStr "2024-01-15t10:30:00.5z") "%Y-%m-%dT%H:%M:%S.%fZ"
  = Ok (mkDatetime 2024 1 15 10 30 0 500000)
  /\ strptime (PStr "2024-1-5   7:3:9") "%Y-%m-%d %H:%M:%S"
     = Ok (mkDatetime 2024 1 5 7 3 9 0)
  /\ raised (strptime (PStr "2023-02-29") "%Y-%m-%d") = true
  /\ raised (strptime (PStr "2024-02-291") "%Y-%m-%d") = true
  /\ raised (strptime (PStr "2024-01-01 10:00:60") "%Y-%m-%d %H:%M:%S") = true.
Proof. repeat split; vm_compute; reflexivity. Qed.

(* ================================================================== *)
(** ** Further properties of the pipeline *)

Import Queries SinglePost ExportRoute DataRoute Shapes ReaderFixture.

Section AcceptedPosts.
Context `{R : Runtime}.

Lemma media_entry_items (item : pyval) : Forall media_item (media_entry item).
Proof.
  destruct item; cbn [media_entry]; repeat constructor.
  - unfold image_item. do 3 eexists. reflexivity.
  - do 3 eexists. reflexivity.
Qed.

Lemma media_list_items (media_data : pyval) :
  Forall media_item (media_list media_data).
Proof.
  destruct media_data as [| | | |s| |items|]; cbn [media_list]; try constructor.
  - destruct (s =? ""); repeat constructor.
    unfold image_item. do 3 eexists. reflexivity.
  - induction items as [|item rest IH]; cbn [flat_map]; [constructor|].
    apply Forall_app. split; [apply media_entry_items|exact IH].
Qed.

Lemma media_items_fixed (items : list pyval) :
  Forall media_item items -> flat_map media_entry items = items.
Proof.
  induction 1 as [|item rest (type & url & filename & ->) _ IH]; [reflexivity|].
  cbn [flat_map media_entry get_or dict_get key_eqb String.eqb Ascii.eqb Bool.eqb app].
  rewrite IH. reflexivity.
Qed.

Lemma parse_timestamp_accepts (now t : datetime) (v : pyval) :
  parse_timestamp now v = Ok t -> empty_or_str v = true.
Proof.
  unfold parse_timestamp, empty_or_str.
  destruct (truthy v) eqn:T; [|reflexivity]. cbn [negb orb].
  destruct v; try reflexivity; cbn [formats try_formats strptime is_ValueError];
    discriminate.
Qed.

(** what [normalize_post_data] returns on a record, in one equation *)
Lemma normalize_post_data_cases (n : nat) (post : pydict) :
  normalize_post_data n (PDict post)
  = match resolved_text post with
    | Ok (PStr s) =>
        if has_text s && empty_or_str (timestamp_value post)
        then Some (normalized n post (PStr s)
                     (timestamp_of (utcnow n) (timestamp_value post)))
        else None
    | _ => None
    end.
Proof.
  unfold normalize_post_data. rewrite normalize_body_dict.
  destruct (resolved_text post) as [raw_text|e]; [|reflexivity].
  cbn [bind].
  destruct raw_text as [| | | |s| | |];
    try (destruct (parse_timestamp _ _); reflexivity).
  destruct (parse_timestamp (utcnow n) (timestamp_value post)) as [t|e] eqn:T.
  - rewrite (parse_timestamp_accepts _ _ _ T), andb_true_r.
    unfold timestamp_of. rewrite T. cbn [py_strip bind]. unfold has_text.
    destruct (strip s =? ""); reflexivity.
  - assert (E : empty_or_str (timestamp_value post) = false).
    { destruct (empty_or_str (timestamp_value post)) eqn:E; [|reflexivity].
      rewrite (parse_timestamp_returns _ _ E) in T. discriminate. }
    rewrite E, andb_false_r. reflexivity.
Qed.

Lemma normalize_gives_normalized (n : nat) (v p : pyval) :
  normalize_post_data n v = Some p ->
  exists post s,
    v = PDict post
    /\ has_text s = true
    /\ p = normalized n post (PStr s)
             (timestamp_of (utcnow n) (timestamp_value post)).
Proof.
  intros H. destruct (is_dict v) eqn:D.
  2:{ rewrite normalize_rejects_non_dict in H by assumption. discriminate. }
  destruct v as [| | | | | | |post]; try discriminate D.
  rewrite normalize_post_data_cases in H.
  destruct (resolved_text post) as [[| | | |s| | |]|e]; try discriminate H.
  destruct (has_text s) eqn:Ht; [|discriminate H].
  destruct (empty_or_str (timestamp_value post)); [|discriminate H].
  cbn [andb] in H. injection H as <-. exists post, s. auto.
Qed.

(** X1: every post [normalize_post_data] accepts has the canonical
    shape: the seven fields platform, post_id, raw_text, timestamp,
    user_id, media, metadata in this order, with post_id and user_id
    strings, raw_text a string that is not blank, timestamp a
    datetime, and media a list of items of three fields each. *)
Theorem accepted_post_is_canonical (n : nat) (v p : pyval) :
  normalize_post_data n v = Some p -> canonical_post p.
Proof.
  intros H. destruct (normalize_gives_normalized _ _ _ H) as (post & s & _ & Ht & ->).
  unfold canonical_post, normalized. do 7 eexists.
  split; [reflexivity|]. split; [exact Ht|apply media_list_items].
Qed.

(** X2: a record is accepted exactly when the text its fallback chain
    settles on is a string that is not blank and its timestamp value
    is absent, empty or a string; the post is then the normalised
    record. What is no dict is never accepted. *)
Theorem normalize_accepts_exactly (n : nat) (v : pyval) :
  (normalize_post_data n v <> None <->
   exists post s,
     v = PDict post
     /\ resolved_text post = Ok (PStr s)
     /\ has_text s = true
     /\ empty_or_str (timestamp_value post) = true)
  /\ (forall post s,
        v = PDict post ->
        resolved_text post = Ok (PStr s) ->
        has_text s = true ->
        empty_or_str (timestamp_value post) = true ->
        normalize_post_data n v
        = Some (normalized n post (PStr s)
                  (timestamp_of (utcnow n) (timestamp_value post)))).
Proof.
  split; [split|].
  - intros H. destruct (is_dict v) eqn:D.
    2:{ rewrite normalize_rejects_non_dict in H by assumption. contradiction. }
    destruct v as [| | | | | | |post]; try discriminate D.
    rewrite normalize_post_data_cases in H. exists post.
    destruct (resolved_text post) as [[| | | |s| | |]|e]; try contradiction.
    exists s. destruct (has_text s); [|contradiction].
    destruct (empty_or_str (timestamp_value post)); [|contradiction].
    auto.
  - intros (post & s & -> & Ht & Hs & Hts).
    rewrite normalize_post_data_cases, Ht, Hs, Hts. discriminate.
  - intros post s -> Ht Hs Hts.
    rewrite normalize_post_data_cases, Ht, Hs, Hts. reflexivity.
Qed.

(** X3: normalisation cannot be applied twice. A post that was
    accepted carries a datetime as its timestamp, [strptime] raises a
    TypeError on it, and the post fed back to [normalize_post_data] is
    rejected. *)
Theorem accepted_post_is_rejected_again (n m : nat) (v p : pyval) :
  normalize_post_data n v = Some p -> normalize_post_data m p = None.
Proof.
  intros H.
  destruct (normalize_gives_normalized _ _ _ H) as (post & s0 & _ & _ & ->).
  unfold normalized.
  rewrite normalize_post_data_cases.
  destruct (resolved_text _) as [[| | | |s| | |]|e]; try reflexivity.
  replace (empty_or_str (timestamp_value _)) with false by reflexivity.
  rewrite andb_false_r. reflexivity.
Qed.

End AcceptedPosts.

Lemma accepted_post_is_canonical_witness :
  canonical_post
    (PDict [(KStr "platform", PStr "unknown");
            (KStr "post_id", PStr "uuid-7");
            (KStr "raw_text", PStr "hi there");
            (KStr "timestamp", PDatetime (mkDatetime 2024 1 15 0 0 0 0));
            (KStr "user_id", PStr "");
            (KStr "media", PList []);
            (KStr "metadata", PDict [])]).
Proof.
  apply (accepted_post_is_canonical (R := mem) 7
           (PDict [(KStr "raw_text", PStr ""); (KStr "content", PStr "hi there");
                   (KStr "date", PStr "2024-01-15")])).
  vm_compute. reflexivity.
Defined.

Lemma normalize_accepts_exactly_witness :
  normalize_post_data (R := mem) 0
    (PDict [(KStr "title", PStr "Sale"); (KStr "caption", PStr "50% off")])
  = Some (normalized (R := mem) 0
            [(KStr "title", PStr "Sale"); (KStr "caption", PStr "50% off")]
            (PStr "Sale | 50% off") (mkDatetime 2024 6 1 12 0 0 0)).
Proof.
  exact (proj2 (normalize_accepts_exactly (R := mem) 0 _)
           [(KStr "title", PStr "Sale"); (KStr "caption", PStr "50% off")]
           "Sale | 50% off" eq_refl eq_refl eq_refl eq_refl).
Defined.

Lemma accepted_post_is_rejected_again_witness :
  normalize_post_data (R := mem) 1
    (PDict [(KStr "platform", PStr "unknown");
            (KStr "post_id", PStr "uuid-7");
            (KStr "raw_text", PStr "hi there");
            (KStr "timestamp", PDatetime (mkDatetime 2024 1 15 0 0 0 0));
            (KStr "user_id", PStr "");
            (KStr "media", PList []);
            (KStr "metadata", PDict [])])
  = None.
Proof.
  apply (accepted_post_is_rejected_again (R := mem) 7 1
           (PDict [(KStr "raw_text", PStr ""); (KStr "content", PStr "hi there");
                   (KStr "date", PStr "2024-01-15")])).
  vm_compute. reflexivity.
Defined.

Section MediaAndTime.

(** X4: the output of [parse_media] is in normal form: parsed again
    as a list it comes back unchanged. A list never gives more items
    than it has entries. *)
Theorem parse_media_normal_form (media_data : pyval) :
  (forall media, parse_media media_data = Ok media ->
                 parse_media (PList media) = Ok media)
  /\ (forall items media,
        media_data = PList items -> parse_media media_data = Ok media ->
        (List.length media <= List.length items)%nat).
Proof.
  split.
  - intros media H. rewrite parse_media_list in H. injection H as <-.
    rewrite parse_media_list. cbn [media_list].
    rewrite (media_items_fixed _ (media_list_items media_data)). reflexivity.
  - intros items media -> H. rewrite parse_media_list in H. injection H as <-.
    cbn [media_list]. clear. induction items as [|item rest IH]; [apply Nat.le_refl|].
    cbn [flat_map]. rewrite length_app. cbn [List.length].
    assert (List.length (media_entry item) <= 1)%nat
      by (destruct item; cbn; auto).
    lia.
Qed.

Lemma parse_media_normal_form_witness :
  parse_media
    (PList [PDict [(KStr "type", PStr "image"); (KStr "url", PStr "a.png");
                   (KStr "filename", PStr "")];
            image_item (PStr "b.png")])
  = Ok [PDict [(KStr "type", PStr "image"); (KStr "url", PStr "a.png");
               (KStr "filename", PStr "")];
        image_item (PStr "b.png")].
Proof.
  apply (proj1 (parse_media_normal_form
                  (PList [PDict [(KStr "src", PStr "a.png")]; PStr "b.png";
                          PInt 3]))).
  reflexivity.
Defined.

Lemma strptime_valid (v : pyval) (fmt : string) (d : datetime) :
  strptime v fmt = Ok d -> valid_datetime d = true.
Proof.
  unfold strptime. destruct v; try discriminate.
  destruct (negb (forallb known_directive (tokens false fmt))); [discriminate|].
  destruct (regex_match _ _ _) as [[d' rest]|]; [|discriminate].
  destruct (negb (rest =? "")); [discriminate|].
  destruct (valid_datetime d') eqn:V; [|discriminate].
  intros H. injection H as <-. exact V.
Qed.

Lemma first_parsing_valid (s : string) (fmts : list string) (d : datetime) :
  first_parsing s fmts = Some d -> valid_datetime d = true.
Proof.
  induction fmts as [|fmt rest IH]; [discriminate|]. cbn [first_parsing].
  destruct (strptime (PStr s) fmt) as [d'|e] eqn:E; [|exact IH].
  intros H. injection H as <-. exact (strptime_valid _ _ _ E).
Qed.

(** X5: the timestamp [parse_timestamp] gives for a string is the
    current time or a real calendar date and time of day: year 1 to
    9999, a day the month has (leap years counted), hour below 24,
    minute and second below 60. *)
Theorem parse_timestamp_now_or_valid (now : datetime) (s : string) :
  exists d,
    parse_timestamp now (PStr s) = Ok d
    /\ (d = now \/ valid_datetime d = true).
Proof.
  rewrite parse_timestamp_str.
  destruct (first_parsing s formats) as [d|] eqn:E.
  - exists d. split; [reflexivity|]. right. exact (first_parsing_valid _ _ _ E).
  - exists now. split; [reflexivity|]. left. reflexivity.
Qed.

End MediaAndTime.

Section TextProcessing.

Lemma collapse_single_spaced (s : string) :
  (forall b, single_spaced b
               (re_sub_from whitespace_pattern (run_length isspace s) s) = true)
  /\ single_spaced false (re_sub_from whitespace_pattern 0 s) = true.
Proof.
  induction s as [|c t [IH1 IH2]]; [split; reflexivity|].
  assert (Hns : isspace c = false ->
                forall b, single_spaced b
                            (re_sub_from whitespace_pattern 0 (String c t)) = true).
  { intros Hc b. cbn [re_sub_from]. unfold whitespace_pattern at 1.
    cbn [run_length]. rewrite Hc. cbn [single_spaced]. rewrite Hc. exact IH2. }
  split.
  - intros b. cbn [run_length]. destruct (isspace c) eqn:Hc.
    + cbn [re_sub_from]. apply IH1.
    + apply Hns. reflexivity.
  - destruct (isspace c) eqn:Hc.
    + cbn [re_sub_from]. unfold whitespace_pattern at 1.
      cbn [run_length]. rewrite Hc. cbn [Nat.pred].
      change (" " ++ ?x) with (String " " x).
      cbn [single_spaced]. apply IH1.
    + apply Hns. reflexivity.
Qed.

Lemma lstrip_single_spaced (s : string) (b : bool) :
  single_spaced b s = true -> single_spaced true (lstrip s) = true.
Proof.
  revert b. induction s as [|c t IH]; intros b; [reflexivity|].
  cbn [single_spaced lstrip]. destruct (isspace c) eqn:Hc.
  - intros H. apply andb_true_iff in H as [_ H]. exact (IH _ H).
  - intros H. cbn [single_spaced]. rewrite Hc. exact H.
Qed.

Lemma rstrip_single_spaced (s : string) (b : bool) :
  single_spaced b s = true -> single_spaced b (rstrip s) = true.
Proof.
  revert b. induction s as [|c t IH]; intros b; [reflexivity|].
  cbn [single_spaced rstrip]. destruct (isspace c) eqn:Hc.
  - intros H. apply andb_true_iff in H as [H1 H2].
    specialize (IH _ H2). destruct (rstrip t); [reflexivity|].
    cbn [single_spaced] in *. rewrite Hc, H1. exact IH.
  - intros H. specialize (IH _ H). destruct (rstrip t).
    + cbn [single_spaced]. rewrite Hc. reflexivity.
    + cbn [single_spaced] in *. rewrite Hc. exact IH.
Qed.

Lemma rstrip_no_trailing_space (s : string) : no_trailing_space (rstrip s) = true.
Proof.
  induction s as [|c t IH]; [reflexivity|]. cbn [rstrip].
  destruct (rstrip t) as [|c' t'].
  - destruct (isspace c) eqn:Hc; [reflexivity|]. cbn. rewrite Hc. reflexivity.
  - exact IH.
Qed.

(** X6: the text [clean_text] returns is tidy: it neither starts nor
    ends with whitespace, its only whitespace characters are spaces,
    and no two spaces are adjacent. *)
Theorem clean_text_is_tidy (text : string) : tidy (clean_text text) = true.
Proof.
  unfold tidy, clean_text, strip. apply andb_true_iff. split.
  - apply rstrip_single_spaced. apply lstrip_single_spaced with (b := false).
    apply (proj2 (collapse_single_spaced _)).
  - apply rstrip_no_trailing_space.
Qed.

Lemma lower_char_idempotent (c : ascii) : lower_char (lower_char c) = lower_char c.
Proof. destruct c as [[] [] [] [] [] [] [] []]; vm_compute; reflexivity. Qed.

Lemma lower_idempotent (s : string) : lower (lower s) = lower s.
Proof.
  unfold lower. induction s as [|c t IH]; [reflexivity|].
  cbn [str_map]. rewrite lower_char_idempotent, IH. reflexivity.
Qed.

Lemma lower_app (a b : string) : lower (a ++ b) = lower a ++ lower b.
Proof.
  unfold lower. induction a as [|c t IH]; [reflexivity|].
  cbn [append str_map]. rewrite IH. reflexivity.
Qed.

Lemma prefix_app (k a b : string) : prefix k a = true -> prefix k (a ++ b) = true.
Proof.
  revert a. induction k as [|x k IH]; intros a H;
    [destruct (a ++ b); reflexivity|].
  destruct a as [|y a]; [discriminate H|]. cbn [append prefix] in *.
  destruct (Ascii.ascii_dec x y); [|discriminate H]. apply IH. exact H.
Qed.

Lemma contains_app_r (k a b : string) :
  contains k a = true -> contains k (a ++ b) = true.
Proof.
  induction a as [|c t IH]; intros H.
  - cbn [contains] in H. rewrite orb_false_r in H.
    destruct k; [|discriminate H]. destruct b; reflexivity.
  - cbn [contains] in H. apply orb_true_iff in H as [H|H].
    + cbn [append contains]. change (String c (t ++ b)) with (String c t ++ b).
      rewrite (prefix_app _ _ b H). reflexivity.
    + cbn [append contains]. rewrite (IH H). apply orb_true_r.
Qed.

Lemma contains_app_l (k a b : string) :
  contains k b = true -> contains k (a ++ b) = true.
Proof.
  intros H. induction a as [|c t IH]; [exact H|].
  cbn [append contains]. rewrite IH. apply orb_true_r.
Qed.

Lemma filter_incl {A} (f g : A -> bool) (l : list A) :
  (forall x, f x = true -> g x = true) -> incl (filter f l) (filter g l).
Proof.
  intros H x Hin. apply filter_In in Hin as [Hin Hf].
  apply filter_In. split; [exact Hin|exact (H x Hf)].
Qed.

(** X7: the analysis of [process_text_simple] does not look at the
    case of the letters, and text around a text never loses an
    entity. The entities, the sentiment and its confidence are those
    of the lower-cased text; every entity found in a text is found in
    every text that has it as a part. *)
Theorem text_analysis_ignores_case (text before after : string) :
  exists result lowered wider entities more,
    process_text_simple (PStr text) = Ok result
    /\ process_text_simple (PStr (lower text)) = Ok lowered
    /\ process_text_simple (PStr (before ++ text ++ after)) = Ok wider
    /\ field lowered "entities" = field result "entities"
    /\ field lowered "sentiment" = field result "sentiment"
    /\ field lowered "sentiment_confidence" = field result "sentiment_confidence"
    /\ field result "entities" = PList entities
    /\ field wider "entities" = PList more
    /\ incl entities more.
Proof.
  unfold process_text_simple. rewrite lower_idempotent.
  destruct (count_in negative_words (lower (before ++ text ++ after))
            <? count_in positive_words (lower (before ++ text ++ after)))%nat;
    [|destruct (count_in positive_words (lower (before ++ text ++ after))
               <? count_in negative_words (lower (before ++ text ++ after)))%nat];
    (destruct (count_in negative_words (lower text)
               <? count_in positive_words (lower text))%nat;
     [|destruct (count_in positive_words (lower text)
                <? count_in negative_words (lower text))%nat]);
    do 5 eexists;
    (split; [reflexivity|]); (split; [reflexivity|]); (split; [reflexivity|]);
    (split; [reflexivity|]); (split; [reflexivity|]); (split; [reflexivity|]);
    (split; [reflexivity|]); (split; [reflexivity|]);
    apply incl_map, filter_incl; intros k Hk;
    rewrite !lower_app; apply contains_app_l, contains_app_r; exact Hk.
Qed.

End TextProcessing.

Section Enrichment.

Lemma dict_update_same (d other : pydict) :
  (forall k v, In (k, v) other -> dict_get d k = Some v) ->
  dict_update d other = d.
Proof.
  unfold dict_update. revert d.
  induction other as [|[k v] rest IH]; intros d H; [reflexivity|].
  cbn [fold_left fst snd].
  rewrite (dict_set_same d k v) by (apply H; left; reflexivity).
  apply IH. intros k' v' Hin. apply H. right. exact Hin.
Qed.

Lemma enrich_text_dict (post done : pyval) :
  enrich_text post = Ok done ->
  exists d result,
    post = PDict d
    /\ process_text_simple (get_or d "raw_text" (PStr "")) = Ok result
    /\ done = PDict (dict_update d
                       [(KStr "cleaned_text", field result "cleaned_text");
                        (KStr "language", field result "language");
                        (KStr "entities", field result "entities");
                        (KStr "sentiment", field result "sentiment");
                        (KStr "sentiment_confidence",
                         field result "sentiment_confidence")]).
Proof.
  unfold enrich_text. destruct post as [| | | | | | |d]; try discriminate.
  rewrite py_get_dict. cbn [bind].
  destruct (process_text_simple _) as [result|e] eqn:E; [|discriminate].
  cbn [bind py_update]. intros H. injection H as <-.
  exists d, result. auto.
Qed.

Lemma process_media_item_again (item done : pyval) :
  process_media_item item = Ok done -> process_media_item done = Ok done.
Proof.
  unfold process_media_item. destruct item as [| | | | | | |m]; try discriminate.
  rewrite py_get_dict. cbn [bind].
  destruct (is_image (get_or m "type" PNone)) eqn:T.
  - cbn [py_update]. intros H. injection H as <-. rewrite py_get_dict.
    cbn [bind].
    match goal with
    | |- context [get_or ?x "type" PNone] =>
        assert (G : get_or x "type" PNone = get_or m "type" PNone)
    end.
    { unfold get_or, dict_update. cbn [fold_left fst snd].
      repeat (rewrite dict_get_set_other by reflexivity). reflexivity. }
    rewrite G, T. cbn [py_update]. do 2 f_equal.
    unfold dict_update. cbn [fold_left fst snd].
    rewrite (dict_set_same _ "tags") by get_through_sets.
    rewrite (dict_set_same _ "caption") by get_through_sets.
    rewrite (dict_set_same _ "similarity_score") by get_through_sets.
    reflexivity.
  - intros H. injection H as <-. rewrite py_get_dict. cbn [bind].
    rewrite T. reflexivity.
Qed.

Lemma process_media_again (items done : list pyval) :
  process_media items = Ok done ->
  process_media done = Ok done /\ List.length done = List.length items.
Proof.
  revert done. induction items as [|item rest IH]; intros done.
  - intros H. injection H as <-. split; reflexivity.
  - cbn [process_media].
    destruct (process_media_item item) as [m|e] eqn:Em; [|discriminate].
    cbn [bind].
    destruct (process_media rest) as [ms|e] eqn:Er; [|discriminate].
    cbn [bind]. intros H. injection H as <-.
    destruct (IH _ eq_refl) as [IH1 IH2]. split.
    + cbn [process_media]. rewrite (process_media_item_again _ _ Em).
      cbn [bind]. rewrite IH1. reflexivity.
    + cbn [List.length]. rewrite IH2. reflexivity.
Qed.

(** X8: enrichment is idempotent on a post. After the text stage and
    the media stage have run, running either of them again changes
    nothing, so a second run of the task sends the same document to the
    store; the media stage keeps the number of media items. *)
Theorem enrichment_is_idempotent (post text_done done : pyval) :
  enrich_text post = Ok text_done ->
  enrich_media text_done = Ok done ->
  enrich_text done = Ok done
  /\ enrich_media done = Ok done
  /\ exists items processed,
       (media_items <- py_get text_done "media" (PList []) ;;
        py_iter media_items) = Ok items
       /\ py_get done "media" PNone = Ok (PList processed)
       /\ List.length processed = List.length items.
Proof.
  intros Ht Hm.
  pose proof (enrich_text_again _ _ Ht) as Hagain.
  destruct (enrich_text_dict _ _ Ht) as (d0 & r0 & _ & _ & Etd).
  destruct text_done as [| | | | | | |d1]; try discriminate Etd. clear Etd.
  destruct (enrich_text_dict _ _ Hagain) as (d & result & Ed & Hr & Hfix).
  injection Ed as <-. injection Hfix as Hfix.
  unfold enrich_media in Hm. rewrite py_get_dict in Hm. cbn [bind] in Hm.
  destruct (py_iter (get_or d1 "media" (PList []))) as [items|e] eqn:Ei;
    [|discriminate Hm].
  cbn [bind] in Hm.
  destruct (process_media items) as [processed|e] eqn:Ep; [|discriminate Hm].
  cbn [bind py_setitem] in Hm. injection Hm as <-.
  destruct (process_media_again _ _ Ep) as [Pagain Plen].
  assert (Gm : dict_get (dict_set d1 "media" (PList processed)) "media"
               = Some (PList processed)) by apply dict_get_set_same.
  split; [|split].
  - unfold enrich_text. rewrite py_get_dict. cbn [bind].
    replace (get_or (dict_set d1 "media" (PList processed)) "raw_text" (PStr ""))
      with (get_or d1 "raw_text" (PStr ""))
      by (unfold get_or; rewrite dict_get_set_other by reflexivity; reflexivity).
    rewrite Hr. cbn [bind py_update]. do 2 f_equal.
    apply dict_update_same. intros k v Hin.
    assert (G : dict_get d1 k = Some v).
    { rewrite Hfix. unfold dict_update. cbn [fold_left fst snd].
      cbn in Hin. destruct Hin as [E|[E|[E|[E|[E|[]]]]]]; injection E as <- <-;
        repeat (rewrite dict_get_set_other by reflexivity);
        apply dict_get_set_same. }
    rewrite dict_get_set_other; [exact G|].
    cbn in Hin. destruct Hin as [E|[E|[E|[E|[E|[]]]]]];
      injection E as <- _; reflexivity.
  - unfold enrich_media. rewrite py_get_dict. cbn [bind].
    unfold get_or at 1. rewrite Gm. cbn [py_iter bind]. rewrite Pagain.
    cbn [bind py_setitem]. do 2 f_equal. apply dict_set_same. exact Gm.
  - exists items, processed. rewrite !py_get_dict. cbn [bind].
    split; [exact Ei|].
    unfold get_or. rewrite Gm. split; [reflexivity|exact Plen].
Qed.

Lemma enrichment_is_idempotent_witness :
  enrich_media
    (PDict [(KStr "raw_text", PStr "good day");
            (KStr "media",
             PList [PDict [(KStr "type", PStr "image"); (KStr "url", PStr "a.png");
                           (KStr "filename", PStr "");
                           (KStr "tags", PList [PStr "image"]);
                           (KStr "caption", PStr "Image content");
                           (KStr "similarity_score", PFloat "0.5")]]);
            (KStr "cleaned_text", PStr "good day");
            (KStr "language", PStr "en");
            (KStr "entities", PList []);
            (KStr "sentiment", PStr "positive");
            (KStr "sentiment_confidence", PFloat "0.7")])
  = Ok (PDict [(KStr "raw_text", PStr "good day");
               (KStr "media",
                PList [PDict [(KStr "type", PStr "image"); (KStr "url", PStr "a.png");
                              (KStr "filename", PStr "");
                              (KStr "tags", PList [PStr "image"]);
                              (KStr "caption", PStr "Image content");
                              (KStr "similarity_score", PFloat "0.5")]]);
               (KStr "cleaned_text", PStr "good day");
               (KStr "language", PStr "en");
               (KStr "entities", PList []);
               (KStr "sentiment", PStr "positive");
               (KStr "sentiment_confidence", PFloat "0.7")]).
Proof.
  apply (proj1 (proj2 (enrichment_is_idempotent
           (PDict [(KStr "raw_text", PStr "good day");
                   (KStr "media", PList [image_item (PStr "a.png")])])
           (PDict [(KStr "raw_text", PStr "good day");
                   (KStr "media", PList [image_item (PStr "a.png")]);
                   (KStr "cleaned_text", PStr "good day");
                   (KStr "language", PStr "en");
                   (KStr "entities", PList []);
                   (KStr "sentiment", PStr "positive");
                   (KStr "sentiment_confidence", PFloat "0.7")])
           _ eq_refl eq_refl))).
Defined.

End Enrichment.

Section Handover.
Context `{R : Runtime}.

Lemma canonical_post_ready (p : pyval) : canonical_post p -> ready_post p.
Proof.
  intros (platform & post_id & text & t & user_id & media & metadata
          & -> & _ & Hm).
  eexists _, text, media, post_id. split; [reflexivity|].
  repeat split; try reflexivity. exact Hm.
Qed.

Lemma ready_post_with_id (d : pydict) (oid : pyval) :
  ready_post (PDict d) -> ready_post (PDict (dict_set d "_id" oid)).
Proof.
  intros (d' & text & media & post_id & E & Ht & Hm & Hi & Hp).
  injection E as <-.
  exists (dict_set d "_id" oid), text, media, post_id.
  split; [reflexivity|].
  rewrite !dict_get_set_other by reflexivity. auto.
Qed.

Lemma assign_ids_ready (posts : list pyval) (n : nat) :
  Forall ready_post posts -> Forall ready_post (assign_ids n posts).
Proof.
  intros H. revert n. induction H as [|p rest Hp _ IH]; intros n; [constructor|].
  cbn [assign_ids]. destruct p; try (constructor; [exact Hp|apply IH]).
  destruct (dict_get d "_id"); constructor; try apply IH; [exact Hp|].
  apply ready_post_with_id. exact Hp.
Qed.

Lemma process_media_items (media : list pyval) :
  Forall media_item media -> exists processed, process_media media = Ok processed.
Proof.
  induction 1 as [|m rest (type & url & filename & ->) _ [processed IH]].
  - eexists. reflexivity.
  - cbn [process_media]. unfold process_media_item. rewrite py_get_dict.
    cbn [bind]. destruct (is_image _); cbn [py_update bind]; rewrite IH;
      eexists; reflexivity.
Qed.

(** the worker's body on a post that is ready comes down to the store
    write *)
Lemma process_post_ready (d : db) (p : pyval) :
  ready_post p ->
  exists post_id fields,
    py_get p "post_id" PNone = Ok (PStr post_id)
    /\ process_post d p
       = update_one d POSTS_COLLECTION
           [(KStr "post_id", PStr post_id)] [(KStr "$set", PDict fields)].
Proof.
  intros (d0 & text & media & post_id & -> & Ht & Hm & Hi & Hp).
  destruct (process_text_simple_returns text)
    as (cleaned & entities & sentiment & confidence & Er & _).
  destruct (process_media_items _ Hi) as [processed Ep].
  exists post_id. eexists. split.
  - rewrite py_get_dict. unfold get_or. rewrite Hp. reflexivity.
  - unfold process_post, enrich_text. rewrite py_get_dict. unfold get_or at 1.
    rewrite Ht. cbn [bind]. rewrite Er. cbn [bind py_update].
    unfold enrich_media. rewrite py_get_dict. unfold get_or at 1.
    unfold dict_update. cbn [fold_left fst snd].
    repeat (rewrite dict_get_set_other by reflexivity). rewrite Hm.
    cbn [bind py_iter]. rewrite Ep. cbn [bind py_setitem py_getitem].
    repeat (rewrite dict_get_set_other by reflexivity). rewrite Hp.
    cbn [bind py_items]. reflexivity.
Qed.

Lemma persisted_all (posts : list pyval) (d : db) :
  (forall st p, In p posts -> exists st', process_post st p = Ok st') ->
  snd (persisted d posts) = posts.
Proof.
  revert d. induction posts as [|p rest IH]; intros d H; [reflexivity|].
  cbn [persisted]. destruct (H d p (or_introl eq_refl)) as [d' ->].
  specialize (IH d' (fun st q Hq => H st q (or_intror Hq))).
  destruct (persisted d' rest). cbn [snd] in *. rewrite IH. reflexivity.
Qed.

(** X9: the posts the coordinator hands to the worker are always
    ready for it: on each of them the worker's body passes both
    enrichment stages and reaches the store write, so it can fail on
    such a post only where the store does. When the store takes every
    write, [processed_count] is the number of posts of the upload. *)
Theorem handed_over_posts_are_processed (d0 d1 d : db) (n : nat)
  (file_id : string) (posts saved : list pyval) :
  all_accepted posts ->
  save_posts d0 n posts = (d1, Ok saved) ->
  (forall st p, In p saved ->
     exists post_id fields,
       py_get p "post_id" PNone = Ok (PStr post_id)
       /\ process_post st p
          = update_one st POSTS_COLLECTION
              [(KStr "post_id", PStr post_id)] [(KStr "$set", PDict fields)])
  /\ ((forall st post_id fields,
         exists st',
           update_one st POSTS_COLLECTION
             [(KStr "post_id", PStr post_id)] [(KStr "$set", PDict fields)]
           = Ok st') ->
      snd (process_upload_task (Some d) file_id saved)
      = completed (List.length posts)).
Proof.
  intros Ha Hs.
  assert (Hr : Forall ready_post saved).
  { assert (Hp : Forall ready_post posts).
    { unfold all_accepted in Ha. rewrite Forall_forall in *.
      intros p Hin. destruct (Ha p Hin) as (k & record & E).
      destruct (normalize_gives_normalized _ _ _ E) as (post & s & _ & Ht & ->).
      apply canonical_post_ready. unfold canonical_post, normalized.
      do 7 eexists. split; [reflexivity|].
      split; [exact Ht|apply media_list_items]. }
    unfold save_posts in Hs. destruct (truthy (PList posts)).
    - destruct (insert_many _ _ _) as [d2 [[]|e]]; [|discriminate Hs].
      injection Hs as _ <-. apply assign_ids_ready. exact Hp.
    - injection Hs as _ <-. exact Hp. }
  split.
  - intros st p Hin. apply process_post_ready.
    rewrite Forall_forall in Hr. exact (Hr p Hin).
  - intros Hstore.
    rewrite process_upload_task_persisted
      by exact (saved_posts_are_dicts _ _ _ _ _ Ha Hs).
    cbn [snd]. rewrite persisted_all.
    + rewrite (save_posts_length _ _ _ _ _ Hs). reflexivity.
    + intros st p Hin. rewrite Forall_forall in Hr.
      destruct (process_post_ready st p (Hr p Hin)) as (pid & fields & _ & ->).
      apply Hstore.
Qed.

Lemma process_posts_to_first_bad (before after : list pyval) (bad : pyval)
  (d : db) (count : nat) :
  forallb is_dict before = true ->
  is_dict bad = false ->
  process_posts d count (before ++ bad :: after)
  = (fst (persisted d before), inl (no_attribute bad "get")).
Proof.
  intros Hb Hbad. revert d count.
  induction before as [|p rest IH]; intros d count.
  - cbn [app process_posts persisted fst].
    destruct bad; try discriminate Hbad; reflexivity.
  - cbn [forallb] in Hb. apply andb_true_iff in Hb as [Hp Hr].
    cbn [app process_posts persisted].
    destruct (process_post d p) as [d'|e].
    + rewrite (IH Hr). destruct (persisted d' rest). reflexivity.
    + destruct p; try discriminate Hp. cbn [py_get]. apply (IH Hr).
Qed.

(** X10: an entry of the batch that is no dict ends the batch. The
    posts before it are processed as usual, the entries after it are
    never looked at, and the task returns the status "error" with the
    message of the AttributeError its log line raised. *)
Theorem non_dict_entry_ends_the_batch (d : db) (file_id : string)
  (before after : list pyval) (bad : pyval) :
  forallb is_dict before = true ->
  is_dict bad = false ->
  process_upload_task (Some d) file_id (before ++ bad :: after)
  = (Some (fst (persisted d before)),
     PDict [(KStr "status", PStr "error");
            (KStr "error", PStr (no_attribute bad "get"))]).
Proof.
  intros Hb Hbad. unfold process_upload_task.
  rewrite (process_posts_to_first_bad _ _ _ _ _ Hb Hbad). reflexivity.
Qed.

End Handover.

Lemma handed_over_posts_are_processed_witness :
  snd (process_upload_task (R := mem) (Some []) "uuid-0"
         (assign_ids (R := mem) 5 (normalize_rows (R := mem) 1 three_records)))
  = completed 3.
Proof.
  apply (proj2 (handed_over_posts_are_processed (R := mem) [] _ [] 5 "uuid-0"
                  (normalize_rows (R := mem) 1 three_records) _
                  (normalize_rows_accepted (R := mem) three_records 1) eq_refl)).
  intros st post_id fields. eexists. reflexivity.
Defined.

Lemma non_dict_entry_ends_the_batch_witness :
  process_upload_task (R := mem) (Some [("posts", good_post)]) "uuid-0"
    [good_post; PStr "post"; good_post]
  = (Some (fst (persisted (R := mem) [("posts", good_post)] [good_post])),
     PDict [(KStr "status", PStr "error");
            (KStr "error", PStr "'str' object has no attribute 'get'")]).
Proof.
  exact (non_dict_entry_ends_the_batch (R := mem) [("posts", good_post)] "uuid-0"
           [good_post] [good_post] (PStr "post") eq_refl eq_refl).
Defined.

Section Uploads.
Context `{R : Runtime}.

(** X11: an upload whose file parses to no post is a success. The
    upload record is written with [total_posts] 0, [insert_many] is not
    called, the response has [total_posts] 0, and a task with no post
    is queued, which the worker completes with [processed_count] 0
    without touching the store. *)
Theorem empty_upload_succeeds (w : world) (n n' : nat) (filename content : string)
  (saved fls : fs) (d1 : db) :
  allowed (lower (snd (splitext filename))) = true ->
  write_file (files w) (path_join ("uploads/" ++ uuid4 n) filename) content
  = Ok saved ->
  parse_upload saved (S n) (lower (snd (splitext filename)))
    (path_join ("uploads/" ++ uuid4 n) filename) ("uploads/" ++ uuid4 n)
  = (fls, Ok ([], n')) ->
  insert_one (store w) UPLOADS_COLLECTION
    (upload_metadata (uuid4 n) filename (utcnow n') 0
       (path_join ("uploads/" ++ uuid4 n) filename))
  = Ok d1 ->
  upload_file w n (Some filename) content
  = (Ok (mkUploadResponse "File uploaded successfully" (uuid4 n) 0 "processing"),
     mkWorld fls d1 (background_tasks w ++ [(uuid4 n, [])])%list)
  /\ process_upload_task (Some d1) (uuid4 n) [] = (Some d1, completed 0).
Proof.
  intros Ha Hw Hp Hi. split; [|reflexivity].
  rewrite (upload_file_after_save _ _ _ _ _ Ha Hw), Hp.
  unfold record_upload. cbn [List.length]. rewrite Hi. reflexivity.
Qed.

(** X12: what a failed upload leaves behind. When the parser raises,
    the answer is status 400, the saved file and whatever the parser
    unpacked stay on disk, and neither the store nor the task queue
    changes. When the first store write raises, the exception goes
    through and nothing is stored or queued. When [insert_many]
    raises, the exception goes through as well: the upload record,
    with its [total_posts] and the status "uploaded", was written
    before, the store is as the bulk write left it, and no task is
    queued. *)
Theorem failed_upload_state (w : world) (n : nat) (filename content : string)
  (saved fls : fs) :
  allowed (lower (snd (splitext filename))) = true ->
  write_file (files w) (path_join ("uploads/" ++ uuid4 n) filename) content
  = Ok saved ->
  (forall e,
     parse_upload saved (S n) (lower (snd (splitext filename)))
       (path_join ("uploads/" ++ uuid4 n) filename) ("uploads/" ++ uuid4 n)
     = (fls, Raise e) ->
     upload_file w n (Some filename) content
     = (Raise (HTTPException 400), mkWorld fls (store w) (background_tasks w)))
  /\ (forall posts n',
        parse_upload saved (S n) (lower (snd (splitext filename)))
          (path_join ("uploads/" ++ uuid4 n) filename) ("uploads/" ++ uuid4 n)
        = (fls, Ok (posts, n')) ->
        (forall e,
           insert_one (store w) UPLOADS_COLLECTION
             (upload_metadata (uuid4 n) filename (utcnow n') (List.length posts)
                (path_join ("uploads/" ++ uuid4 n) filename))
           = Raise e ->
           upload_file w n (Some filename) content
           = (Raise e, mkWorld fls (store w) (background_tasks w)))
        /\ (forall d1 d2 e,
              insert_one (store w) UPLOADS_COLLECTION
                (upload_metadata (uuid4 n) filename (utcnow n')
                   (List.length posts)
                   (path_join ("uploads/" ++ uuid4 n) filename))
              = Ok d1 ->
              posts <> [] ->
              insert_many d1 POSTS_COLLECTION (assign_ids (S n') posts)
              = (d2, Raise e) ->
              upload_file w n (Some filename) content
              = (Raise e, mkWorld fls d2 (background_tasks w)))).
Proof.
  intros Ha Hw. split.
  - intros e Hp. rewrite (upload_file_after_save _ _ _ _ _ Ha Hw), Hp.
    reflexivity.
  - intros posts n' Hp. split.
    + intros e Hi. rewrite (upload_file_after_save _ _ _ _ _ Ha Hw), Hp.
      unfold record_upload. rewrite Hi. reflexivity.
    + intros d1 d2 e Hi Hne Hm.
      rewrite (upload_file_after_save _ _ _ _ _ Ha Hw), Hp.
      unfold record_upload. rewrite Hi. unfold save_posts.
      destruct posts; [contradiction|]. cbn [truthy].
      rewrite Hm. reflexivity.
Qed.

(** X13: among the files found in an unpacked archive, only those
    whose name ends in ".json" or ".csv", in lower case, are read; the
    others, media files and data files with an upper-case extension
    among them, change nothing in the result. *)
Theorem parse_walked_reads_data_files_only (fls : fs) (n : nat)
  (entries : list (string * string)) :
  parse_walked fls n entries = parse_walked fls n (filter is_data_file entries).
Proof.
  revert n. induction entries as [|[root file] rest IH]; intros n; [reflexivity|].
  cbn [filter]. unfold is_data_file at 1. cbn [snd].
  destruct (endswith file ".json") eqn:J.
  - cbn [orb parse_walked]. rewrite J.
    destruct (parse_json_file fls n _) as [[jp nj]|]; [|reflexivity].
    cbn [bind fst snd]. rewrite IH. reflexivity.
  - destruct (endswith file ".csv") eqn:C.
    + cbn [orb parse_walked]. rewrite J, C.
      destruct (parse_csv_file fls n _) as [[cp nc]|]; [|reflexivity].
      cbn [bind fst snd]. rewrite IH. reflexivity.
    + cbn [orb parse_walked]. rewrite J, C. apply IH.
Qed.

(** X14: the files of an archive are parsed in the order they are
    found and their posts are concatenated in that order: parsing a
    list of files in two parts, one after the other, gives the same
    posts, and a file that raises in either part makes the whole
    raise. *)
Theorem parse_walked_in_order (fls : fs) (n : nat)
  (first second : list (string * string)) :
  parse_walked fls n (first ++ second)
  = (found <- parse_walked fls n first ;;
     more <- parse_walked fls (snd found) second ;;
     Ok ((fst found ++ fst more)%list, snd more)).
Proof.
  revert n. induction first as [|[root file] rest IH]; intros n.
  - cbn [app parse_walked bind fst snd].
    destruct (parse_walked fls n second) as [[ps m]|]; reflexivity.
  - cbn [app parse_walked].
    destruct (endswith file ".json").
    + destruct (parse_json_file fls n _) as [[jp nj]|]; [|reflexivity].
      cbn [bind fst snd]. rewrite IH.
      destruct (parse_walked fls nj rest) as [[ps m]|]; [|reflexivity].
      cbn [bind fst snd].
      destruct (parse_walked fls m second) as [[qs k]|]; [|reflexivity].
      cbn [bind fst snd]. rewrite app_assoc. reflexivity.
    + destruct (endswith file ".csv"); [|apply IH].
      destruct (parse_csv_file fls n _) as [[cp nc]|]; [|reflexivity].
      cbn [bind fst snd]. rewrite IH.
      destruct (parse_walked fls nc rest) as [[ps m]|]; [|reflexivity].
      cbn [bind fst snd].
      destruct (parse_walked fls m second) as [[qs k]|]; [|reflexivity].
      cbn [bind fst snd]. rewrite app_assoc. reflexivity.
Qed.

End Uploads.

Lemma empty_upload_succeeds_witness :
  upload_file (R := mem) empty_world 0 (Some "none.json") "[]"
  = (Ok (mkUploadResponse "File uploaded successfully" "uuid-0" 0 "processing"),
     mkWorld (R := mem) [("uploads/uuid-0/none.json", "[]")]
       [("uploads",
         upload_metadata "uuid-0" "none.json" (mkDatetime 2024 6 1 12 0 0 1) 0
           "uploads/uuid-0/none.json")]
       [("uuid-0", [])]).
Proof.
  exact (proj1 (empty_upload_succeeds (R := mem) empty_world 0 1 "none.json" "[]"
                  [("uploads/uuid-0/none.json", "[]")]
                  [("uploads/uuid-0/none.json", "[]")] _
                  eq_refl eq_refl eq_refl eq_refl)).
Defined.

Lemma failed_upload_state_witness :
  upload_file (R := mem) empty_world 0 (Some "b.zip") "not a zip"
  = (Raise (HTTPException 400),
     mkWorld (R := mem) [("uploads/uuid-0/b.zip", "not a zip")] [] [])
  /\ upload_file (R := strict) (mkWorld (R := strict) [] [] []) 0
       (Some "r.csv") surplus_csv
     = (Raise (LibError "InvalidDocument"),
        mkWorld (R := strict) [("uploads/uuid-0/r.csv", surplus_csv)]
          [("uploads",
            upload_metadata "uuid-0" "r.csv" (mkDatetime 2024 6 1 12 0 0 2) 1
              "uploads/uuid-0/r.csv")]
          []).
Proof.
  split.
  - exact (proj1 (failed_upload_state (R := mem) empty_world 0 "b.zip" "not a zip"
                    [("uploads/uuid-0/b.zip", "not a zip")]
                    [("uploads/uuid-0/b.zip", "not a zip")] eq_refl eq_refl)
             (LibError "BadZipFile") eq_refl).
  - refine (proj2 (proj2 (failed_upload_state (R := strict)
                            (mkWorld (R := strict) [] [] []) 0 "r.csv" surplus_csv
                            [("uploads/uuid-0/r.csv", surplus_csv)]
                            [("uploads/uuid-0/r.csv", surplus_csv)]
                            eq_refl eq_refl)
                     (normalize_rows (R := strict) 1
                        [PDict [(KStr "platform", PStr "twitter");
                                (KStr "content", PStr "hi there");
                                (KNone, PList [PStr "extra"])]])
                     2%nat ltac:(vm_compute; reflexivity))
              _ _ (LibError "InvalidDocument") eq_refl _
              ltac:(vm_compute; reflexivity)).
    vm_compute. discriminate.
Defined.

Section SingleTask.
Context `{Q : Reader}.

Lemma dict_set_nonempty (d : pydict) (k : pykey) (v : pyval) :
  dict_set d k v <> [].
Proof.
  destruct d as [|[k' v'] t]; cbn [dict_set]; [discriminate|].
  destruct (key_eqb k' k); discriminate.
Qed.

Lemma enriched_post_nonempty (post : pyval) (doc : pydict) :
  enrich_text post = Ok (PDict doc) -> doc <> [].
Proof.
  intros H. destruct (enrich_text_dict _ _ H) as (d & result & _ & _ & E).
  injection E as ->. unfold dict_update. cbn [fold_left fst snd].
  apply dict_set_nonempty.
Qed.

(** X15: the single-post task on a post id the store does not know
    returns the status "error" with "Post not found" and writes
    nothing. On a post that was enriched before, it sends the stored
    document back as it is: reprocessing changes nothing, and the task
    completes exactly when that store write succeeds. *)
Theorem reprocessing_sends_the_same_document (d : db) (post_id : string) :
  (find_one d POSTS_COLLECTION [(KStr "post_id", PStr post_id)] = Ok None ->
   process_single_post_task (Some d) post_id
   = (Some d, task_error "Post not found"))
  /\ (forall post doc,
        enrich_text post = Ok (PDict doc) ->
        find_one d POSTS_COLLECTION [(KStr "post_id", PStr post_id)]
        = Ok (Some doc) ->
        process_single_post_task (Some d) post_id
        = match update_one d POSTS_COLLECTION
                  [(KStr "post_id", PStr post_id)] [(KStr "$set", PDict doc)] with
          | Ok d' => (Some d', PDict [(KStr "status", PStr "completed");
                                      (KStr "post_id", PStr post_id)])
          | Raise e => (Some d, task_error (exn_text e))
          end).
Proof.
  split.
  - intros H. unfold process_single_post_task. rewrite H. reflexivity.
  - intros post doc He Hf. unfold process_single_post_task. rewrite Hf.
    pose proof (enriched_post_nonempty _ _ He) as Hne.
    destruct doc as [|kv rest]; [contradiction|]. cbn [truthy negb].
    unfold reprocess_post. rewrite (enrich_text_again _ _ He).
    cbn [bind py_items]. reflexivity.
Qed.

End SingleTask.

Lemma reprocessing_sends_the_same_document_witness :
  process_single_post_task (R := mem) (Q := mem_reader) (Some []) "9"
  = (Some [], task_error "Post not found")
  /\ process_single_post_task (R := mem) (Q := mem_reader)
       (Some [("posts", PDict enriched_doc)]) "2"
     = (Some [("posts", PDict enriched_doc)],
        PDict [(KStr "status", PStr "completed"); (KStr "post_id", PStr "2")]).
Proof.
  split.
  - exact (proj1 (reprocessing_sends_the_same_document (Q := mem_reader) [] "9")
             eq_refl).
  - exact (proj2 (reprocessing_sends_the_same_document (Q := mem_reader)
                    [("posts", PDict enriched_doc)] "2")
             good_post enriched_doc eq_refl eq_refl).
Defined.

Section Filters.

Lemma given_platform (p : PlatformType) : given (Some (platform_value p)) = true.
Proof. destruct p; reflexivity. Qed.

Lemma given_sentiment (s : SentimentType) : given (Some (sentiment_value s)) = true.
Proof. destruct s; reflexivity. Qed.

(** X16: the query [build_filter_query] builds has one key for each
    criterion of the filter that is set, in the order platform,
    sentiment, language, media, timestamp, $or, and no other; an empty
    language or search text counts as not set, while [has_media] set to
    false is a criterion of its own (posts whose media list is empty).
    No filter gives the empty query. *)
Theorem build_filter_query_keys (f : DataFilter) :
  build_filter_query None = []
  /\ map fst (build_filter_query (Some f)) = map KStr (filter_keys f)
  /\ dict_get (build_filter_query (Some f)) "platform"
     = option_map (fun p => PStr (platform_value p)) (platform f)
  /\ dict_get (build_filter_query (Some f)) "sentiment"
     = option_map (fun s => PStr (sentiment_value s)) (sentiment f)
  /\ dict_get (build_filter_query (Some f)) "language"
     = (if given (language f) then option_map PStr (language f) else None)
  /\ dict_get (build_filter_query (Some f)) "media"
     = option_map media_filter (has_media f)
  /\ dict_get (build_filter_query (Some f)) "timestamp"
     = match date_from f, date_to f with
       | None, None => None
       | from, to => Some (PDict (date_range from to))
       end
  /\ dict_get (build_filter_query (Some f)) "$or"
     = (if given (search_text f) then option_map text_search (search_text f)
        else None).
Proof.
  destruct f as [pl se df dt la hm st].
  split; [reflexivity|].
  destruct pl as [pl|], se as [se|], la as [[|? ?]|], hm as [[|]|],
    df as [df|], dt as [dt|], st as [[|? ?]|];
    repeat split; reflexivity.
Qed.

Lemma posts_query_of_filter (f : DataFilter) (from to : option string) :
  date_parameter from (date_from f) ->
  date_parameter to (date_to f) ->
  posts_query (option_map platform_value (platform f))
    (option_map sentiment_value (sentiment f)) from to
    (language f) (has_media f) (search_text f)
  = Ok (build_filter_query (Some f)).
Proof.
  destruct f as [pl se df dt la hm st]. cbn [date_from date_to platform
    sentiment language has_media search_text]. intros Hf Ht.
  unfold posts_query, build_filter_query.
  cbn [date_from date_to platform sentiment language has_media search_text].
  assert (Ep : forall q : pydict,
    (if given (option_map platform_value pl)
     then dict_set q "platform"
            (PStr match option_map platform_value pl with
                  | Some s => s | None => "" end)
     else q)
    = match pl with
      | Some p => dict_set q "platform" (PStr (platform_value p))
      | None => q
      end).
  { intros q. destruct pl as [p|]; [|reflexivity].
    cbn [option_map]. rewrite given_platform. reflexivity. }
  assert (Es : forall q : pydict,
    (if given (option_map sentiment_value se)
     then dict_set q "sentiment"
            (PStr match option_map sentiment_value se with
                  | Some s => s | None => "" end)
     else q)
    = match se with
      | Some s => dict_set q "sentiment" (PStr (sentiment_value s))
      | None => q
      end).
  { intros q. destruct se as [s|]; [|reflexivity].
    cbn [option_map]. rewrite given_sentiment. reflexivity. }
  rewrite Ep, Es.
  set (q := match hm with Some b => _ | None => _ end).
  assert (Ed :
    (if given from || given to
     then
       from' <- (if given from
                 then parse_day match from with Some s => s | None => "" end
                        (Raise (HTTPException 400))
                 else Ok None) ;;
       to' <- (if given to
               then parse_day match to with Some s => s | None => "" end
                      (Raise (HTTPException 400))
               else Ok None) ;;
       Ok (dict_set q "timestamp" (PDict (date_range from' to')))
     else Ok q)
    = Ok match df, dt with
         | None, None => q
         | a, b => dict_set q "timestamp" (PDict (date_range a b))
         end).
  { unfold date_parameter in Hf, Ht.
    destruct df as [d1|], dt as [d2|].
    - destruct Hf as (t1 & -> & G1 & P1), Ht as (t2 & -> & G2 & P2).
      rewrite G1, G2. unfold parse_day. rewrite P1, P2. reflexivity.
    - destruct Hf as (t1 & -> & G1 & P1). rewrite G1, Ht.
      unfold parse_day. rewrite P1. reflexivity.
    - destruct Ht as (t2 & -> & G2 & P2). rewrite Hf, G2.
      unfold parse_day. rewrite P2. reflexivity.
    - rewrite Hf, Ht. reflexivity. }
  rewrite Ed. cbn [bind]. destruct df, dt, (given st); reflexivity.
Qed.

End Filters.

Section Reading.
Context `{Q : Reader}.

Lemma posts_query_bad_date (platform sentiment from to language : option string)
  (has_media : option bool) (search_text : option string) (text : string) :
  (from = Some text /\ given from = true
   \/ to = Some text /\ given to = true
      /\ (given from = false
          \/ exists t d, from = Some t /\ strptime (PStr t) "%Y-%m-%d" = Ok d)) ->
  raised (strptime (PStr text) "%Y-%m-%d") = true ->
  posts_query platform sentiment from to language has_media search_text
  = Raise (HTTPException 400).
Proof.
  intros H Hbad. unfold posts_query.
  assert (P : parse_day text (Raise (HTTPException 400))
              = Raise (HTTPException 400)).
  { unfold parse_day. destruct (strptime (PStr text) "%Y-%m-%d") as [d|e] eqn:E;
      [discriminate Hbad|].
    rewrite (strptime_str_raises_ValueError _ _ _ E). reflexivity. }
  destruct H as [(-> & G)|(-> & G & [G'|(t & d & -> & P')])].
  - rewrite G. cbn [orb]. rewrite P. reflexivity.
  - rewrite G, G'. cbn [orb]. rewrite P. reflexivity.
  - rewrite G. rewrite orb_true_r. unfold parse_day at 1. rewrite P'.
    destruct (given (Some t)); cbn [bind]; rewrite P; reflexivity.
Qed.

(** X17: [get_posts] and the export build the same query. For query
    parameters that stand for a filter (a platform and a sentiment of
    the enumerations, dates that parse as year-month-day),
    [get_posts] asks the store exactly the query
    [build_filter_query] gives for the filter. A date parameter that
    does not parse ends [get_posts] with status 400 and the store is
    not asked. *)
Theorem get_posts_builds_the_export_query (d : db) (from to : option string)
  (limit skip : Z) :
  (forall f,
     date_parameter from (date_from f) ->
     date_parameter to (date_to f) ->
     get_posts d (option_map platform_value (platform f))
       (option_map sentiment_value (sentiment f)) from to
       (language f) (has_media f) (search_text f) limit skip
     = find_page d POSTS_COLLECTION (build_filter_query (Some f)) skip limit)
  /\ (forall platform sentiment language has_media search_text text,
        (from = Some text /\ given from = true
         \/ to = Some text /\ given to = true
            /\ (given from = false
                \/ exists t d, from = Some t
                               /\ strptime (PStr t) "%Y-%m-%d" = Ok d)) ->
        raised (strptime (PStr text) "%Y-%m-%d") = true ->
        get_posts d platform sentiment from to language has_media search_text
          limit skip
        = Raise (HTTPException 400)).
Proof.
  split.
  - intros f Hf Ht. unfold get_posts.
    rewrite (posts_query_of_filter f from to Hf Ht). reflexivity.
  - intros platform sentiment language has_media search_text text H Hbad.
    unfold get_posts.
    rewrite (posts_query_bad_date _ _ _ _ _ _ _ text H Hbad). reflexivity.
Qed.

End Reading.

Lemma get_posts_builds_the_export_query_witness :
  get_posts (R := mem) (Q := mem_reader) [("posts", PDict enriched_doc)]
    None (Some "positive") None None (Some "en") None (Some "") 50 0
  = Ok [enriched_doc]
  /\ get_posts (R := mem) (Q := mem_reader) [("posts", PDict enriched_doc)]
       None None (Some "15/01/2024") None None None None 50 0
     = Raise (HTTPException 400).
Proof.
  split.
  - exact (proj1 (get_posts_builds_the_export_query (Q := mem_reader)
                    [("posts", PDict enriched_doc)] None None 50 0)
             (mkDataFilter None (Some POSITIVE) None None (Some "en") None
                (Some ""))
             eq_refl eq_refl).
  - apply (proj2 (get_posts_builds_the_export_query (Q := mem_reader)
                    [("posts", PDict enriched_doc)] (Some "15/01/2024") None 50 0))
      with (text := "15/01/2024").
    + left. split; reflexivity.
    + vm_compute. reflexivity.
Defined.

(* ------------------------------------------------------------------ *)
(** *** The exports *)

Section Exports.
Context `{Q : Reader}.

Lemma key_eqb_sym (a b : pykey) : key_eqb a b = key_eqb b a.
Proof. destruct a, b; cbn; try reflexivity. apply String.eqb_sym. Qed.

Lemma filtered_post_get (post : pydict) (fields : list string) (acc : pydict)
  (k : pykey) :
  dict_get (filtered_post post fields acc) k
  = if key_in k fields
    then match dict_get post k with Some v => Some v | None => dict_get acc k end
    else dict_get acc k.
Proof.
  revert acc. induction fields as [|f rest IH]; intros acc; [reflexivity|].
  cbn [filtered_post key_in existsb].
  destruct (key_eqb k (KStr f)) eqn:E; cbn [orb].
  - apply key_eqb_eq in E. subst k.
    destruct (dict_get post (KStr f)) as [v|] eqn:G; rewrite IH.
    + rewrite dict_get_set_same. destruct (key_in _ rest); reflexivity.
    + destruct (key_in _ rest); reflexivity.
  - destruct (dict_get post (KStr f)) as [v|] eqn:G; rewrite IH; [|reflexivity].
    rewrite dict_get_set_other by (rewrite key_eqb_sym; exact E). reflexivity.
Qed.

(** X18: the JSON export. With no stored post for the filter it ends
    with status 404. Otherwise it returns one document per stored
    post, in order: the post itself when no field is asked for, else
    a document that holds, of the fields asked for, those the post
    has, with the post's values, and nothing else. *)
Theorem export_json_projects (d : db) (request : ExportRequest)
  (posts : list pydict) :
  find_docs d POSTS_COLLECTION (build_filter_query (filters request)) = Ok posts ->
  (posts = [] -> export_json d request = Raise (HTTPException 404))
  /\ (posts <> [] ->
      exists out,
        export_json d request = Ok out
        /\ Forall2 (fun post doc =>
                      forall k : pykey,
                        dict_get doc k
                        = match fields request with
                          | Some (f :: fs) =>
                              if key_in k (f :: fs) then dict_get post k else None
                          | _ => dict_get post k
                          end) posts out).
Proof.
  intros F. unfold export_json. rewrite F. cbn [bind]. split.
  - intros ->. reflexivity.
  - intros Hne. destruct posts as [|p rest]; [contradiction|].
    destruct (fields request) as [[|f fs]|].
    + eexists. split; [reflexivity|].
      generalize (p :: rest). intros l. induction l; constructor; auto.
    + eexists. split; [reflexivity|].
      generalize (p :: rest). intros l.
      induction l as [|a l IH]; cbn [map]; constructor; [|exact IH].
      intros k. rewrite filtered_post_get.
      destruct (key_in k (f :: fs)); [|reflexivity].
      destruct (dict_get a k); reflexivity.
    + eexists. split; [reflexivity|].
      generalize (p :: rest). intros l. induction l; constructor; auto.
Qed.

Lemma py_join_strs (sep : string) (l : list pyval) :
  if forallb is_str l then exists s, py_join sep l = Ok s
  else py_join sep l = Raise TypeError.
Proof.
  induction l as [|v t IH]; [cbn; eexists; reflexivity|].
  cbn [forallb]. destruct v; cbn [is_str andb]; try reflexivity.
  cbn [py_join]. destruct t as [|v' t']; [cbn; eexists; reflexivity|].
  destruct (forallb is_str (v' :: t')).
  - destruct IH as [r ->]. eexists. reflexivity.
  - rewrite IH. reflexivity.
Qed.

Lemma joinable_iter (v : pyval) :
  if joinable v
  then exists items, py_iter v = Ok items /\ forallb is_str items = true
  else py_iter v = Raise TypeError
       \/ exists items, py_iter v = Ok items /\ forallb is_str items = false.
Proof.
  destruct v as [| | | |s| |l|d]; cbn [joinable py_iter];
    try (left; reflexivity).
  - eexists. split; [reflexivity|].
    induction (list_ascii_of_string s); [reflexivity|exact IHl].
  - destruct (forallb is_str l) eqn:E.
    + eexists. split; [reflexivity|exact E].
    + right. eexists. split; [reflexivity|exact E].
  - assert (E : forallb is_str
                  (map (fun kv : pykey * pyval =>
                          match fst kv with KNone => PNone | KStr s => PStr s end) d)
                = forallb (fun kv : pykey * pyval =>
                             match fst kv with KStr _ => true | KNone => false end) d).
    { induction d as [|[[|s] v] t IH]; [reflexivity| |]; cbn; [reflexivity|exact IH]. }
    rewrite <- E.
    destruct (forallb is_str _) eqn:E'.
    + eexists. split; [reflexivity|exact E'].
    + right. eexists. split; [reflexivity|exact E'].
Qed.

Lemma csv_cell_cases (post : pydict) (field : string) :
  if cell_ok post field
  then exists cell, csv_cell post field = Ok cell /\ csv_value cell = true
  else csv_cell post field = Raise TypeError.
Proof.
  unfold cell_ok, csv_cell.
  destruct (field =? "media_count").
  { destruct (get_or post "media" (PList [])); cbn;
      try reflexivity; eexists; split; reflexivity. }
  destruct (field =? "entities").
  { pose proof (joinable_iter (get_or post "entities" (PList []))) as J.
    destruct (joinable _).
    - destruct J as (items & -> & S). cbn [bind].
      pose proof (py_join_strs ", " items) as P. rewrite S in P.
      destruct P as [s ->]. eexists. split; reflexivity.
    - destruct J as [->|(items & -> & S)]; [reflexivity|]. cbn [bind].
      pose proof (py_join_strs ", " items) as P. rewrite S in P.
      rewrite P. reflexivity. }
  destruct (field =? "timestamp").
  { destruct (truthy _); [|eexists; split; reflexivity].
    destruct (get_or post "timestamp" PNone); eexists; split; reflexivity. }
  eexists. split; reflexivity.
Qed.

Lemma csv_row_cases (post : pydict) (headers : list string) :
  if forallb (cell_ok post) headers
  then exists row,
         csv_row post headers = Ok row
         /\ List.length row = List.length headers
         /\ forallb csv_value row = true
  else csv_row post headers = Raise TypeError.
Proof.
  induction headers as [|f rest IH]; [cbn; eexists; repeat split|].
  cbn [forallb csv_row]. pose proof (csv_cell_cases post f) as C.
  destruct (cell_ok post f); cbn [andb].
  - destruct C as (cell & -> & V). cbn [bind].
    destruct (forallb (cell_ok post) rest).
    + destruct IH as (row & -> & L & A). cbn [bind]. eexists.
      split; [reflexivity|]. cbn [List.length forallb]. rewrite L, V, A.
      split; reflexivity.
    + rewrite IH. reflexivity.
  - rewrite C. reflexivity.
Qed.

Lemma exportable_cells (headers : list string) (post : pydict) :
  forallb (cell_ok post) headers = exportable headers post.
Proof.
  unfold exportable, mem_string.
  induction headers as [|f rest IH]; [reflexivity|].
  cbn [forallb existsb]. rewrite IH. unfold cell_ok.
  rewrite (String.eqb_sym "media_count" f), (String.eqb_sym "entities" f).
  set (a := existsb (String.eqb "media_count") rest).
  set (b := existsb (String.eqb "entities") rest).
  set (m := countable _). set (j := joinable _).
  destruct (f =? "media_count") eqn:M.
  - apply String.eqb_eq in M. subst f.
    destruct a, b, m, j; reflexivity.
  - destruct (f =? "entities"); destruct a, b, m, j; reflexivity.
Qed.

Lemma csv_rows_cases (posts : list pydict) (headers : list string) :
  if forallb (exportable headers) posts
  then exists rows,
         csv_rows posts headers = Ok rows
         /\ Forall2 (fun post row =>
                       csv_row post headers = Ok row
                       /\ List.length row = List.length headers
                       /\ forallb csv_value row = true) posts rows
  else csv_rows posts headers = Raise TypeError.
Proof.
  induction posts as [|p rest IH]; [cbn; eexists; split; [reflexivity|constructor]|].
  cbn [forallb csv_rows]. pose proof (csv_row_cases p headers) as C.
  rewrite exportable_cells in C.
  destruct (exportable headers p); cbn [andb].
  - destruct C as (row & E & L & V). rewrite E. cbn [bind].
    destruct (forallb (exportable headers) rest).
    + destruct IH as (rows & -> & F). cbn [bind]. eexists.
      split; [reflexivity|]. constructor; auto.
    + rewrite IH. reflexivity.
  - rewrite C. reflexivity.
Qed.

(** X19: the CSV export. With stored posts for the filter, and every
    one of them exportable under the headers (the fields asked for, or
    the ten default ones), it writes the header row and then one row
    per post, in order, each with one cell per header, every cell a
    string or a number. If one of the posts is not exportable, the
    export ends in a TypeError instead of a response. *)
Theorem export_csv_rows (d : db) (request : ExportRequest) (posts : list pydict) :
  find_docs d POSTS_COLLECTION (build_filter_query (filters request)) = Ok posts ->
  posts <> [] ->
  (forallb (exportable (export_headers request)) posts = true ->
   exists rows,
     export_csv d request = Ok (map PStr (export_headers request) :: rows)
     /\ Forall2 (fun post row =>
                   csv_row post (export_headers request) = Ok row
                   /\ List.length row = List.length (export_headers request)
                   /\ forallb csv_value row = true) posts rows)
  /\ (forallb (exportable (export_headers request)) posts = false ->
      export_csv d request = Raise TypeError).
Proof.
  intros F Hne. unfold export_csv. rewrite F. cbn [bind].
  destruct posts as [|p rest]; [contradiction|].
  pose proof (csv_rows_cases (p :: rest) (export_headers request)) as C.
  split; intros E; rewrite E in C.
  - destruct C as (rows & -> & A). eexists. split; [reflexivity|exact A].
  - rewrite C. reflexivity.
Qed.

End Exports.

Lemma export_json_projects_witness :
  exists out,
    export_json (Q := mem_reader) [("posts", PDict enriched_doc)]
      (mkExportRequest "json" None (Some ["sentiment"; "likes"])) = Ok out
    /\ Forall2 (fun post doc =>
                  forall k : pykey,
                    dict_get doc k
                    = if key_in k ["sentiment"; "likes"] then dict_get post k
                      else None) [enriched_doc] out.
Proof.
  apply (proj2 (export_json_projects (Q := mem_reader)
                  [("posts", PDict enriched_doc)]
                  (mkExportRequest "json" None (Some ["sentiment"; "likes"]))
                  [enriched_doc] eq_refl)).
  discriminate.
Defined.

Lemma export_csv_rows_witness :
  exists rows,
    export_csv (Q := mem_reader) [("posts", PDict enriched_doc)]
      (mkExportRequest "csv" None None) = Ok (map PStr default_headers :: rows)
    /\ Forall2 (fun post row =>
                  csv_row post default_headers = Ok row
                  /\ List.length row = 10%nat
                  /\ forallb csv_value row = true) [enriched_doc] rows.
Proof.
  apply (proj1 (export_csv_rows (Q := mem_reader)
                  [("posts", PDict enriched_doc)]
                  (mkExportRequest "csv" None None)
                  [enriched_doc] eq_refl ltac:(discriminate))).
  reflexivity.
Defined.

(* ------------------------------------------------------------------ *)
(** *** From the upload to the export *)

Section UploadToExport.

Lemma process_text_simple_entities (text : string) :
  exists cleaned sentiment confidence,
    process_text_simple (PStr text)
    = Ok [(KStr "cleaned_text", PStr cleaned);
          (KStr "language", PStr "en");
          (KStr "entities",
           PList (map PStr (filter (fun k => contains k (lower text)) keywords)));
          (KStr "sentiment", PStr sentiment);
          (KStr "sentiment_confidence", PFloat confidence)].
Proof.
  unfold process_text_simple.
  destruct (_ <? _)%nat; [|destruct (_ <? _)%nat]; do 3 eexists; reflexivity.
Qed.

Lemma strings_joinable (l : list string) : forallb is_str (map PStr l) = true.
Proof. induction l; [reflexivity|exact IHl]. Qed.

(** X20: every post the upload accepts can be exported as CSV, under
    any headers, as it is stored and as the worker leaves it: both
    enrichment stages succeed on a canonical post, and the post before
    and the post after are exportable. After them the entities are
    the keywords found in the lower-cased text. *)
Theorem accepted_posts_are_exportable (p : pydict) (headers : list string) :
  canonical_post (PDict p) ->
  exportable headers p = true
  /\ exists text done,
       dict_get p "raw_text" = Some (PStr text)
       /\ (post <- enrich_text (PDict p) ;; enrich_media post) = Ok (PDict done)
       /\ dict_get done "entities"
          = Some (PList (map PStr (filter (fun k => contains k (lower text))
                                     keywords)))
       /\ exportable headers done = true.
Proof.
  intros (platform & post_id & text & t & user_id & media & metadata
          & E & _ & Hm).
  injection E as ->. split.
  - unfold exportable, get_or. cbn [dict_get key_eqb String.eqb Ascii.eqb Bool.eqb].
    cbn [countable joinable forallb]. rewrite !orb_true_r. reflexivity.
  - destruct (process_text_simple_entities text) as (cleaned & s & c & Er).
    destruct (process_media_items _ Hm) as [processed Ep].
    exists text. eexists. split; [reflexivity|].
    unfold enrich_text. rewrite py_get_dict. unfold get_or at 1.
    cbn [dict_get key_eqb String.eqb Ascii.eqb Bool.eqb].
    cbn [bind]. rewrite Er. cbn [bind py_update].
    unfold enrich_media. rewrite py_get_dict. unfold get_or at 1.
    unfold dict_update, field. cbn [fold_left fst snd].
    cbn [dict_get dict_set key_eqb String.eqb Ascii.eqb Bool.eqb].
    cbn [bind py_iter]. rewrite Ep. cbn [bind py_setitem].
    split; [reflexivity|].
    cbn [dict_get dict_set key_eqb String.eqb Ascii.eqb Bool.eqb].
    split; [reflexivity|].
    unfold exportable, get_or.
    cbn [dict_get dict_set key_eqb String.eqb Ascii.eqb Bool.eqb].
    cbn [countable joinable]. rewrite strings_joinable, !orb_true_r. reflexivity.
Qed.

End UploadToExport.

Lemma accepted_posts_are_exportable_witness :
  exportable default_headers uploaded_doc = true
  /\ exists text done,
       dict_get uploaded_doc "raw_text" = Some (PStr text)
       /\ (post <- enrich_text (PDict uploaded_doc) ;; enrich_media post)
          = Ok (PDict done)
       /\ dict_get done "entities"
          = Some (PList (map PStr (filter (fun k => contains k (lower text))
                                     keywords)))
       /\ exportable default_headers done = true.
Proof.
  apply (accepted_posts_are_exportable uploaded_doc default_headers).
  unfold uploaded_doc. do 7 eexists. split; [reflexivity|].
  split; [reflexivity|].
  constructor; [|constructor]. do 3 eexists. reflexivity.
Defined.

(* ------------------------------------------------------------------ *)
(** *** Updating a post, and the dashboard's dates *)

Section Updates.
Context `{Q : Reader}.

Lemma dict_del_get_same (d : pydict) (k : pykey) :
  dict_get (dict_del d k) k = None.
Proof.
  unfold dict_del. induction d as [|[k' v] t IH]; [reflexivity|].
  cbn [filter fst]. destruct (key_eqb k' k) eqn:E; cbn [negb]; [exact IH|].
  cbn [dict_get]. rewrite E. exact IH.
Qed.

Lemma dict_del_get_other (d : pydict) (k k' : pykey) :
  key_eqb k k' = false ->
  dict_get (dict_del d k) k' = dict_get d k'.
Proof.
  intros H. unfold dict_del. induction d as [|[k0 v] t IH]; [reflexivity|].
  cbn [filter fst dict_get]. destruct (key_eqb k0 k) eqn:E; cbn [negb].
  - apply key_eqb_eq in E. subst k0. rewrite H. exact IH.
  - cbn [dict_get]. rewrite IH. reflexivity.
Qed.

(** X21: [update_post] never sends an [_id] to the store. The fields
    it asks the store to set are those of the request body except
    [_id], with the body's values; it answers with status 404 exactly
    when the store matched no post, and an exception of the store is
    not handled. *)
Theorem update_post_drops_the_id (d : db) (post_id : string) (post_data : pydict) :
  exists fields,
    dict_get fields "_id" = None
    /\ (forall k, key_eqb "_id" k = false ->
                  dict_get fields k = dict_get post_data k)
    /\ update_post d post_id post_data
       = match update_one_matched d POSTS_COLLECTION
                 [(KStr "post_id", PStr post_id)] [(KStr "$set", PDict fields)] with
         | Raise e => (d, Raise e)
         | Ok (d', matched_count) =>
             (d', match matched_count with
                  | O => Raise (HTTPException 404)
                  | S _ =>
                      Ok (PDict [(KStr "message",
                                  PStr "Post updated successfully")])
                  end)
         end.
Proof.
  unfold update_post.
  destruct (dict_get post_data "_id") as [v|] eqn:G.
  - exists (dict_del post_data "_id"). split; [apply dict_del_get_same|].
    split; [intros k Hk; apply dict_del_get_other; exact Hk|].
    destruct (update_one_matched _ _ _ _) as [[d' [|n]]|e]; reflexivity.
  - exists post_data. split; [exact G|]. split; [reflexivity|].
    destruct (update_one_matched _ _ _ _) as [[d' [|n]]|e]; reflexivity.
Qed.

End Updates.

Section Dashboard.

Lemma parse_day_lenient (s : string) :
  exists o, parse_day s (Ok None) = Ok o
            /\ (raised (strptime (PStr s) "%Y-%m-%d") = true -> o = None).
Proof.
  unfold parse_day. destruct (strptime (PStr s) "%Y-%m-%d") as [d|e] eqn:E.
  - eexists. split; [reflexivity|discriminate].
  - rewrite (strptime_str_raises_ValueError _ _ _ E). eexists.
    split; reflexivity.
Qed.

Lemma parse_day_strict (s : string) (o : option datetime) :
  parse_day s (Raise (HTTPException 400)) = Ok o -> parse_day s (Ok None) = Ok o.
Proof.
  unfold parse_day. destruct (strptime (PStr s) "%Y-%m-%d") as [d|e]; [auto|].
  destruct (is_ValueError e); [discriminate|auto].
Qed.

Lemma parse_day_some (s : string) (e : res (option datetime)) (o : option datetime) :
  parse_day s e = Ok o -> raised e = true -> exists d, o = Some d.
Proof.
  unfold parse_day. destruct (strptime (PStr s) "%Y-%m-%d") as [d|x].
  - intros H _. injection H as <-. eexists. reflexivity.
  - destruct (is_ValueError x); [|discriminate].
    destruct e; [discriminate|]. discriminate.
Qed.

(** X22: the dashboard never rejects a date. [dashboard_filter]
    always returns a query, empty or with the timestamp range only;
    it is the query [get_posts] builds from the same two dates and
    nothing else, whenever [get_posts] accepts them; and a date that
    does not parse as year-month-day is left out as if it had not
    been given, where [get_posts] answers with status 400. *)
Theorem dashboard_filter_ignores_bad_dates (from to : option string) :
  (exists q,
     dashboard_filter from to = Ok q
     /\ (q = [] \/ exists range, q = [(KStr "timestamp", PDict range)]))
  /\ (forall q,
        posts_query None None from to None None None = Ok q ->
        dashboard_filter from to = Ok q)
  /\ (forall text,
        raised (strptime (PStr text) "%Y-%m-%d") = true ->
        dashboard_filter (Some text) to = dashboard_filter None to
        /\ dashboard_filter from (Some text) = dashboard_filter from None).
Proof.
  split; [|split].
  - unfold dashboard_filter.
    assert (F : exists o, (if given from
                           then parse_day (match from with Some s => s | None => "" end)
                                  (Ok None)
                           else Ok None) = Ok o).
    { destruct (given from); [|eexists; reflexivity].
      destruct (parse_day_lenient (match from with Some s => s | None => "" end))
        as (o & E & _). eauto. }
    assert (T : exists o, (if given to
                           then parse_day (match to with Some s => s | None => "" end)
                                  (Ok None)
                           else Ok None) = Ok o).
    { destruct (given to); [|eexists; reflexivity].
      destruct (parse_day_lenient (match to with Some s => s | None => "" end))
        as (o & E & _). eauto. }
    destruct F as [f ->], T as [t ->]. cbn [bind].
    destruct (truthy _); eexists; (split; [reflexivity|]);
      [right; eexists; reflexivity|left; reflexivity].
  - intros q. unfold posts_query, dashboard_filter. cbn [given].
    destruct (given from) eqn:Gf, (given to) eqn:Gt; cbn [orb].
    + destruct (parse_day _ (Raise _)) as [f|e] eqn:Ef; [|discriminate].
      cbn [bind].
      destruct (parse_day (match to with Some s => s | None => "" end) (Raise _))
        as [t|e] eqn:Et; [|discriminate].
      cbn [bind]. intros H. injection H as <-.
      rewrite (parse_day_strict _ _ Ef), (parse_day_strict _ _ Et). cbn [bind].
      destruct (parse_day_some _ _ _ Ef eq_refl) as [df ->].
      destruct t; reflexivity.
    + destruct (parse_day _ (Raise _)) as [f|e] eqn:Ef; [|discriminate].
      cbn [bind]. intros H. injection H as <-.
      rewrite (parse_day_strict _ _ Ef). cbn [bind].
      destruct (parse_day_some _ _ _ Ef eq_refl) as [df ->]. reflexivity.
    + cbn [bind].
      destruct (parse_day _ (Raise _)) as [t|e] eqn:Et; [|discriminate].
      cbn [bind]. intros H. injection H as <-.
      rewrite (parse_day_strict _ _ Et). cbn [bind].
      destruct (parse_day_some _ _ _ Et eq_refl) as [dt ->]. reflexivity.
    + cbn [bind]. intros H. injection H as <-. reflexivity.
  - intros text Hbad.
    destruct (parse_day_lenient text) as (o & E & N).
    rewrite (N Hbad) in E. unfold dashboard_filter. cbn [given].
    destruct (truthy (PStr text)); rewrite ?E; split; reflexivity.
Qed.

End Dashboard.

Lemma dashboard_filter_ignores_bad_dates_witness :
  dashboard_filter (Some "2024-01-15") (Some "2024-02-30")
  = Ok [(KStr "timestamp",
         PDict [(KStr "$gte", PDatetime (mkDatetime 2024 1 15 0 0 0 0))])]
  /\ posts_query None None (Some "2024-01-15") (Some "2024-02-30") None None None
     = Raise (HTTPException 400).
Proof.
  split; [|vm_compute; reflexivity].
  rewrite (proj2 (proj2 (proj2 (dashboard_filter_ignores_bad_dates
                                  (Some "2024-01-15") None))
                          "2024-02-30" ltac:(vm_compute; reflexivity))).
  apply (proj1 (proj2 (dashboard_filter_ignores_bad_dates
                         (Some "2024-01-15") None))).
  vm_compute. reflexivity.
Defined.
